(** * Health tracker: persistence, daily rollover and import/export

    A shallow embedding of [src/workouts/workouts-scripts.js]: the
    [WorkoutTracker] class, [storageManager], [utils.formatDate],
    [exportData] and [importData].

    Conventions of the embedding.
    - [localStorage] is a finite map from keys to strings together with a
      capacity; [setItem] raises [QuotaExceededError] when the map would
      outgrow it.  The size measure is the one of [storageManager.getUsage].
    - JavaScript objects whose property order is observable
      ([Object.entries], [JSON.stringify]) are association lists in
      insertion order with pairwise distinct keys.  Property names are
      ordinary names: array indices (which JavaScript enumerates first) and
      the accessor [__proto__] are outside the model.
    - Exceptions are explicit: a computation returns the new state together
      with either an exception or a value, so that mutations made before a
      [throw] stay visible, as in JavaScript.
    - Numbers are integers ([Z]); strings are sequences of 8-bit characters
      compared by character code.
    - The DOM (rendering, panels, file download plumbing) is not part of the
      state; toasts, downloads and page reloads are recorded in a trace.
    - [JSON.parse], [JSON.stringify] and the text of the browser's quota
      error are parameters of the development. *)

From Stdlib Require Import ZArith Lia Permutation Sorted Ascii.
From Stdlib Require OrderedTypeEx.
From stdpp Require Import base option list gmap strings pretty fin_maps.

Local Open Scope string_scope.

(** The double-quote character, as a string. *)
Definition dquote : string := String (ascii_of_nat 34) EmptyString.

(** ** JSON values *)

#[warnings="-register-all"]
Inductive json : Type :=
| JNull
| JBool (b : bool)
| JNum (n : Z)
| JStr (s : string)
| JArr (elems : list json)
| JObj (fields : list (string * json)).

(** ** Objects as association lists *)

Module JsObject.
Section Ops.
Context {V : Type}.

(** [o[k]]; [None] is [undefined]. *)
Fixpoint get (o : list (string * V)) (k : string) : option V :=
  match o with
  | [] => None
  | (k', v) :: o' => if String.eqb k' k then Some v else get o' k
  end.

(** [o[k] = v]: an existing property keeps its place, a new one goes
    last. *)
Fixpoint set (o : list (string * V)) (k : string) (v : V) : list (string * V) :=
  match o with
  | [] => [(k, v)]
  | (k', v') :: o' =>
      if String.eqb k' k then (k', v) :: o' else (k', v') :: set o' k v
  end.

(** [delete o[k]]. *)
Fixpoint delete (o : list (string * V)) (k : string) : list (string * V) :=
  match o with
  | [] => []
  | (k', v') :: o' =>
      if String.eqb k' k then delete o' k else (k', v') :: delete o' k
  end.

(** [Object.keys(o)] and [Object.values(o)]. *)
Definition keys (o : list (string * V)) : list string := map fst o.
Definition values (o : list (string * V)) : list V := map snd o.

Definition has (o : list (string * V)) (k : string) : bool :=
  match get o k with Some _ => true | None => false end.
End Ops.
End JsObject.

(** ** Truthiness, [typeof] and property access on parsed JSON *)

Definition truthy (v : json) : bool :=
  match v with
  | JNull => false
  | JBool b => b
  | JNum n => negb (Z.eqb n 0)
  | JStr s => negb (String.eqb s "")
  | JArr _ | JObj _ => true
  end.

(** Truthiness of a possibly [undefined] value. *)
Definition truthy_opt (v : option json) : bool :=
  match v with Some j => truthy j | None => false end.

(** [typeof v === 'object'] *)
Definition typeof_object (v : json) : bool :=
  match v with
  | JNull | JArr _ | JObj _ => true
  | _ => false
  end.

(** [v.name] for a non-null [v] and one of the fixed names read by
    [importData]; none of them is an index, a [length] or a member of a
    built-in prototype, so only objects answer. *)
Definition prop (v : json) (name : string) : option json :=
  match v with
  | JObj fields => JsObject.get fields name
  | _ => None
  end.

(** ** Exceptions and the state-with-exceptions monad *)

Inductive exn : Type :=
| Error (message : string)      (* [new Error(message)] *)
| TypeError (message : string)  (* property access on [undefined]/[null] *)
| QuotaExceededError.           (* raised by [localStorage.setItem] *)

Definition M (S A : Type) : Type := S -> S * (exn + A).

Definition ret {S A} (a : A) : M S A := fun s => (s, inr a).
Definition throw {S A} (e : exn) : M S A := fun s => (s, inl e).
Definition bind {S A B} (m : M S A) (f : A -> M S B) : M S B :=
  fun s => match m s with
           | (s', inr a) => f a s'
           | (s', inl e) => (s', inl e)
           end.
(** [try { m } catch (e) { h e }] *)
Definition try_catch {S A} (m : M S A) (h : exn -> M S A) : M S A :=
  fun s => match m s with
           | (s', inl e) => h e s'
           | r => r
           end.
Definition modify {S} (f : S -> S) : M S unit := fun s => (f s, inr tt).
(** [if (c) { m }] *)
Definition when {S} (c : bool) (m : M S unit) : M S unit :=
  if c then m else ret tt.
(** [l.forEach(x => f x)] *)
Fixpoint for_each {S A} (l : list A) (f : A -> M S unit) : M S unit :=
  match l with
  | [] => ret tt
  | x :: l' => bind (f x) (fun _ => for_each l' f)
  end.

Declare Scope js_scope.
Delimit Scope js_scope with js.
Notation "x <- m ;; k" := (bind m (fun x => k))
  (at level 100, m at next level, right associativity) : js_scope.
Notation "m ;; k" := (bind m (fun _ => k))
  (at level 100, right associativity) : js_scope.

(** ** The browser: [localStorage] and the observable side effects *)

Inductive effect : Type :=
| SetItem (key value : string)            (* a successful [setItem] *)
| RemoveItem (key : string)
| Clear
| ShowToast (message kind : string)       (* [utils.showToast] *)
| Download (filename content : string)    (* the export link being clicked *)
| Reload.                                 (* [location.reload] scheduled *)

Record Browser : Type := mkBrowser {
  items : gmap string string;   (* contents of [localStorage] *)
  quota : nat;                  (* capacity, in the unit of [getUsage] *)
  trace : list effect           (* oldest first *)
}.

(** [storageManager.getUsage]: the sum of [key.length + value.length]. *)
Definition getUsage (m : gmap string string) : nat :=
  map_fold (fun k v total => total + (String.length k + String.length v)) 0 m.

Definition log_effect (e : effect) (b : Browser) : Browser :=
  mkBrowser (items b) (quota b) (trace b ++ [e]).

Module localStorage.
Definition getItem (key : string) : M Browser (option string) :=
  fun b => (b, inr (items b !! key)).

Definition setItem (key value : string) : M Browser unit :=
  fun b =>
    let items' := <[key := value]> (items b) in
    if decide (getUsage items' <= quota b)
    then (mkBrowser items' (quota b) (trace b ++ [SetItem key value]), inr tt)
    else (b, inl QuotaExceededError).

Definition removeItem (key : string) : M Browser unit :=
  fun b => (mkBrowser (delete key (items b)) (quota b)
              (trace b ++ [RemoveItem key]), inr tt).

Definition clear : M Browser unit :=
  fun b => (mkBrowser ∅ (quota b) (trace b ++ [Clear]), inr tt).

(** [for (i = 0; i < localStorage.length; i++) key(i), getItem(key(i))] *)
Definition entries : M Browser (list (string * string)) :=
  fun b => (b, inr (map_to_list (items b))).
End localStorage.

Definition emit (e : effect) : M Browser unit := modify (log_effect e).

(** [utils.showToast(message, kind)] *)
Definition showToast (message kind : string) : M Browser unit :=
  emit (ShowToast message kind).

(** The store respects its capacity; this holds of the empty store and is
    kept by every operation of [localStorage]. *)
Definition within_quota (b : Browser) : Prop := getUsage (items b) <= quota b.

(** ** Built-ins taken as parameters *)

Class Builtins : Type := {
  (** [JSON.parse]; [None] stands for a [SyntaxError]. *)
  JSON_parse : string -> option json;
  (** [JSON.stringify(v)] and [JSON.stringify(v, null, 2)]. *)
  JSON_stringify : json -> string;
  JSON_stringify_indented : json -> string;
  (** [String(v)] for a value that is not a string. *)
  ToString : json -> string;
  (** The [message] of the browser's quota exception. *)
  quotaMessage : string
}.

(** ** Constants *)

Module STORAGE_KEYS.
Definition THEME := "app_theme".
Definition LAST_RESET_PREFIX := "lastResetDate_".
Definition GOAL_PREFIX := "goal_".
Definition INTAKE_PREFIX := "intake_".
Definition HISTORY_PREFIX := "history_".
Definition REMINDER := "global_reminder".
End STORAGE_KEYS.

(** ** Dates *)

(** What the program reads off a [Date]: the local calendar fields and the
    result of [toISOString]. *)
Record Date : Type := mkDate {
  getFullYear : nat;
  getMonth : nat;          (* 0 .. 11 *)
  getDate : nat;           (* 1 .. 31 *)
  toISOString : string
}.

(** [Array.prototype.join] on strings. *)
Fixpoint join (sep : string) (l : list string) : string :=
  match l with
  | [] => ""
  | [x] => x
  | x :: l' => x ++ sep ++ join sep l'
  end.

(** [s.endsWith(suffix)] *)
Definition endsWith (s suffix : string) : bool :=
  let n := String.length s in
  let m := String.length suffix in
  (m <=? n)%nat && String.eqb (String.substring (n - m) m s) suffix.

(** ** Export and import *)

Section ImportExport.
Context `{Builtins}.

Import STORAGE_KEYS.
Local Open Scope js_scope.

(** A stored item as a member of the export document: [getItem] answers
    [null] for a missing key. *)
Definition of_item (o : option string) : json :=
  match o with Some s => JStr s | None => JNull end.

(** The value handed to [setItem] is converted to a string. *)
Definition to_item (v : option json) : string :=
  match v with
  | Some (JStr s) => s
  | Some v => ToString v
  | None => "undefined"
  end.

Definition message_of (e : exn) : string :=
  match e with
  | Error m | TypeError m => m
  | QuotaExceededError => quotaMessage
  end.

(** The document assembled by [exportData]. *)
Definition exportDocument (now : Date)
    (wg wi wh pg pi ph ws wc wkh hd th rm : option string) : json :=
  JObj [ ("version", JStr "2.0");
         ("exportDate", JStr (toISOString now));
         ("water", JObj [("goal", of_item wg); ("intake", of_item wi);
                         ("history", of_item wh)]);
         ("protein", JObj [("goal", of_item pg); ("intake", of_item pi);
                           ("history", of_item ph)]);
         ("workout", JObj [("state", of_item ws); ("count", of_item wc);
                           ("history", of_item wkh)]);
         ("habits", JObj [("data", of_item hd)]);
         ("settings", JObj [("theme", of_item th); ("reminder", of_item rm)]) ].

(** Export tracking data to JSON file.  The [try]/[catch] of the source
    only guards the DOM and [Blob] calls, which are not modelled. *)
Definition exportData (now : Date) : M Browser unit :=
  wg <- localStorage.getItem (GOAL_PREFIX ++ "water") ;;
  wi <- localStorage.getItem (INTAKE_PREFIX ++ "water") ;;
  wh <- localStorage.getItem (HISTORY_PREFIX ++ "water") ;;
  pg <- localStorage.getItem (GOAL_PREFIX ++ "protein") ;;
  pi <- localStorage.getItem (INTAKE_PREFIX ++ "protein") ;;
  ph <- localStorage.getItem (HISTORY_PREFIX ++ "protein") ;;
  ws <- localStorage.getItem "workout_state" ;;
  wc <- localStorage.getItem "workout_count" ;;
  wkh <- localStorage.getItem "workout_history" ;;
  hd <- localStorage.getItem "habits_data" ;;
  th <- localStorage.getItem THEME ;;
  rm <- localStorage.getItem REMINDER ;;
  let doc := exportDocument now wg wi wh pg pi ph ws wc wkh hd th rm in
  (* Check that essential data exists *)
  if negb (truthy (of_item wg)) && negb (truthy (of_item pg))
     && negb (truthy (of_item hd))
  then showToast "No tracking data found to export." "error"
  else
    emit (Download ("health-tracker-export-"
                      ++ String.substring 0 10 (toISOString now) ++ ".json")
                   (JSON_stringify_indented doc)) ;;
    showToast "Data exported successfully!" "success".

(** The file chosen in the import dialog; [content] is what the
    [FileReader] delivers, [None] when reading fails. *)
Record File : Type := mkFile {
  size : N;
  type : string;
  name : string;
  content : option string
}.

Definition requiredSections : list string := ["water"; "protein"].

(** [importedData.version > "2.0"]: strings compare by character code,
    a number compares with [2]. *)
Definition newer_version (v : json) : bool :=
  match v with
  | JStr s => String.ltb "2.0" s
  | JNum n => (2 <? n)%Z
  | JNull | JBool _ => false
  | JArr _ | JObj _ => String.ltb "2.0" (ToString v)
  end.

(** The checks between parsing and the confirmation dialog. *)
Definition validate (importedData : json) : M Browser unit :=
  when (negb (truthy importedData))
    (throw (Error "Import file is empty or corrupt.")) ;;
  (* Check for required sections *)
  let missingSections :=
    List.filter (fun section => negb (truthy_opt (prop importedData section)))
      requiredSections in
  when (0 <? length missingSections)%nat
    (throw (Error ("Import file is missing required sections: "
                     ++ join ", " missingSections ++ "."))) ;;
  (* Validate data format of each section *)
  for_each requiredSections (fun section =>
    match prop importedData section with
    | Some v =>
        when (truthy v && negb (typeof_object v))
          (throw (Error ("Section " ++ dquote ++ section ++ dquote
                         ++ " has invalid format.")))
    | None => ret tt
    end) ;;
  (* Version compatibility check *)
  when (match prop importedData "version" with
        | Some v => truthy v && newer_version v
        | None => false
        end)
    (showToast "This file was created with a newer version of the app. Some features may not import correctly." "warning") ;;
  (* Calculate estimated storage requirements *)
  let importSize := N.of_nat (String.length (JSON_stringify importedData)) in
  let availableSpace := (5 * 1024 * 1024)%N in
  when (availableSpace * 9 <? importSize * 10)%N
    (throw (Error "Import file is too large for browser storage. Please try a smaller export file.")).

(** [if (section.field) localStorage.setItem(key, section.field)] *)
Definition import_field (key : string) (v : option json) : M Browser unit :=
  when (truthy_opt v) (localStorage.setItem key (to_item v)).

(** [o && o.name] as a condition, for a possibly missing section [o]. *)
Definition guarded_prop (o : option json) (name : string) : option json :=
  match o with
  | Some v => if truthy v then prop v name else None
  | None => None
  end.

(** [o.name] without a guard: a [TypeError] when [o] is [undefined] or
    [null]. *)
Definition member (o : option json) (name : string) : M Browser (option json) :=
  match o with
  | None | Some JNull =>
      throw (TypeError ("Cannot read properties of undefined (reading '"
                          ++ name ++ "')"))
  | Some v => ret (prop v name)
  end.

Definition import_member (key : string) (o : option json) (name : string)
  : M Browser unit :=
  v <- member o name ;; import_field key v.

(** The writes of the apply phase, in program order. *)
Definition applyImport (importedData : json) : M Browser unit :=
  let water := prop importedData "water" in
  let protein := prop importedData "protein" in
  let workout := prop importedData "workout" in
  let habits := prop importedData "habits" in
  let settings := prop importedData "settings" in
  (* Import water data *)
  import_member (GOAL_PREFIX ++ "water") water "goal" ;;
  import_member (INTAKE_PREFIX ++ "water") water "intake" ;;
  import_member (HISTORY_PREFIX ++ "water") water "history" ;;
  (* Import protein data *)
  import_member (GOAL_PREFIX ++ "protein") protein "goal" ;;
  import_member (INTAKE_PREFIX ++ "protein") protein "intake" ;;
  import_member (HISTORY_PREFIX ++ "protein") protein "history" ;;
  (* Import workout data if available *)
  import_field "workout_state" (guarded_prop workout "state") ;;
  import_field "workout_count" (guarded_prop workout "count") ;;
  import_field "workout_history" (guarded_prop workout "history") ;;
  (* Import habits data if available *)
  import_field "habits_data" (guarded_prop habits "data") ;;
  (* Import settings *)
  import_field THEME (guarded_prop settings "theme") ;;
  import_field REMINDER (guarded_prop settings "reminder").

(** The [catch (storageError)] block. *)
Definition restoreBackup (backup : list (string * string)) : M Browser unit :=
  localStorage.clear ;;
  for_each backup (fun kv => localStorage.setItem (fst kv) (snd kv)) ;;
  throw (Error "Error saving imported data. Your previous data has been restored.").

(** [reader.onload]: [text] is the file's content, [confirmed] the answer
    to the confirmation dialog. *)
Definition onload (text : string) (confirmed : bool) : M Browser unit :=
  try_catch
    (importedData <-
       match JSON_parse text with
       | Some d => ret d
       | None => throw (Error "File is not valid JSON. Please ensure the file is correctly formatted.")
       end ;;
     validate importedData ;;
     when confirmed
       ((* Start with a backup *)
        backup <- localStorage.entries ;;
        try_catch
          (applyImport importedData ;;
           showToast "Data imported successfully! Reloading app..." "success" ;;
           emit Reload)
          (fun storageError => restoreBackup backup)))
    (fun error =>
       showToast ("Error importing data: " ++ message_of error) "error").

(** Import tracking data from JSON file: the checks on the chosen file,
    then [reader.onload] or [reader.onerror].  Resetting the file input is
    a DOM matter and left out. *)
Definition importData (file : option File) (confirmed : bool) : M Browser unit :=
  match file with
  | None => ret tt
  | Some file =>
      if (5 * 1024 * 1024 <? size file)%N then
        showToast "File is too large. Maximum size is 5MB." "error"
      else if negb (String.eqb (type file) "application/json")
              && negb (endsWith (name file) ".json") then
        showToast "Invalid file type. Please upload a JSON file." "error"
      else
        match content file with
        | Some text => onload text confirmed
        | None => showToast "Error reading file. Please try again." "error"
        end
  end.

End ImportExport.

(** ** [Array.prototype.sort] *)

(** [l.sort(cmp)]: ECMAScript asks for a stable sort, and for a consistent
    comparator the stable sorted arrangement is unique; insertion sort
    computes it.  An element moves in front of [y] when [cmp x y <= 0]. *)
Section ArraySort.
Context {A : Type} (cmp : A -> A -> Z).

Fixpoint sort_insert (x : A) (l : list A) : list A :=
  match l with
  | [] => [x]
  | y :: l' => if (cmp x y <=? 0)%Z then x :: y :: l' else y :: sort_insert x l'
  end.

Fixpoint Array_sort (l : list A) : list A :=
  match l with
  | [] => []
  | x :: l' => sort_insert x (Array_sort l')
  end.

(** The order a comparator stands for. *)
Definition cmp_le (x y : A) : Prop := (cmp x y <= 0)%Z.
End ArraySort.

(** The default comparator of [sort()]: strings by character code. *)
Definition default_compare (x y : string) : Z :=
  match String.compare x y with
  | Lt => (-1)%Z
  | Eq => 0%Z
  | Gt => 1%Z
  end.

(** The order [sort()] puts strings in. *)
Definition string_le : string -> string -> Prop := cmp_le default_compare.

(** ** [utils.formatDate] *)

Module utils.
(** [s.padStart(2, '0')] *)
Definition padStart2 (s : string) : string :=
  match String.length s with
  | 0 => "00" ++ s
  | 1 => "0" ++ s
  | _ => s
  end.

(** [formatDate(date)] for a valid date: local [YYYY-MM-DD]. *)
Definition formatDate (d : Date) : string :=
  let year := pretty (getFullYear d) in
  let month := padStart2 (pretty (getMonth d + 1)) in
  let day := padStart2 (pretty (getDate d)) in
  year ++ "-" ++ month ++ "-" ++ day.

(** [isSameDay(date1, date2)] for two valid dates; with an invalid one
    the answer is [false]. *)
Definition isSameDay (date1 date2 : Date) : bool :=
  Nat.eqb (getFullYear date1) (getFullYear date2)
  && Nat.eqb (getMonth date1) (getMonth date2)
  && Nat.eqb (getDate date1) (getDate date2).
End utils.

(** ** The workout tracker *)

(** A JavaScript number as the tracker uses it: an integer, or [NaN] (what
    [undefined + 1] evaluates to). *)
Inductive num : Type :=
| Num (z : Z)
| NaN.

(** [x + 1] for a possibly [undefined] [x]. *)
Definition plus_one (x : option num) : num :=
  match x with
  | Some (Num z) => Num (z + 1)
  | Some NaN | None => NaN
  end.

(** [x > 1] *)
Definition greater_than_one (x : option num) : bool :=
  match x with
  | Some (Num z) => (1 <? z)%Z
  | Some NaN | None => false
  end.

Module WorkoutTracker.

(** One value of [workoutState]. *)
Record Workout : Type := mkWorkout {
  completed : bool;
  order : Z
}.

(** One element of a day's history; [count] is [undefined] when the
    counter had no such property. *)
Record Entry : Type := mkEntry {
  type : string;
  count : option num;
  timestamp : string
}.

(** The fields of [this] that carry data. *)
Record t : Type := mk {
  workoutState : list (string * Workout);
  workoutCounts : list (string * num);
  workoutHistory : list (string * list Entry)
}.

(** The instance together with the browser it lives in. *)
Record World : Type := mkWorld {
  this : t;
  browser : Browser
}.

Definition stateKey := "workout_state".
Definition historyKey := "workout_history".
Definition countKey := "workout_count".
Definition lastResetKey := STORAGE_KEYS.LAST_RESET_PREFIX ++ "workout".

Definition workoutTypes : list string :=
  ["Chest"; "Back"; "Shoulders"; "Biceps"; "Triceps"; "Abs"; "Legs"].

(** [a.indexOf(x)] *)
Fixpoint indexOf (a : list string) (x : string) : Z :=
  match a with
  | [] => (-1)%Z
  | y :: a' =>
      if String.eqb y x then 0%Z
      else let i := indexOf a' x in
           if (i <? 0)%Z then (-1)%Z else (i + 1)%Z
  end.

(** The defaults built by the constructor when nothing is stored. *)
Definition defaultWorkoutState : list (string * Workout) :=
  fold_left (fun acc type =>
               JsObject.set acc type (mkWorkout false (indexOf workoutTypes type)))
    workoutTypes [].

Definition defaultWorkoutCounts : list (string * num) :=
  fold_left (fun acc type => JsObject.set acc type (Num 0)) workoutTypes [].

Definition initial : t := mk defaultWorkoutState defaultWorkoutCounts [].

(** *** JSON images of the three fields, as [JSON.stringify] sees them *)

Definition json_of_num (n : num) : json :=
  match n with Num z => JNum z | NaN => JNull end.

Definition json_of_state (s : list (string * Workout)) : json :=
  JObj (map (fun kv => (fst kv,
                        JObj [("completed", JBool (completed (snd kv)));
                              ("order", JNum (order (snd kv)))])) s).

Definition json_of_counts (c : list (string * num)) : json :=
  JObj (map (fun kv => (fst kv, json_of_num (snd kv))) c).

Definition json_of_entry (e : Entry) : json :=
  JObj (("type", JStr (type e))
          :: match count e with
             | Some n => [("count", json_of_num n)]
             | None => []
             end
          ++ [("timestamp", JStr (timestamp e))]).

Definition json_of_history (h : list (string * list Entry)) : json :=
  JObj (map (fun kv => (fst kv, JArr (map json_of_entry (snd kv)))) h).

(** *** Display order *)

(** The comparator handed to [sort] in [renderWorkoutTabs]. *)
Definition compareWorkouts (a b : string * Workout) : Z :=
  if negb (Bool.eqb (completed (snd a)) (completed (snd b))) then
    (* Completed workouts go to the bottom *)
    if completed (snd a) then 1%Z else (-1)%Z
  else
    (* Otherwise, maintain original order *)
    (order (snd a) - order (snd b))%Z.

Definition sortedWorkouts (s : list (string * Workout)) : list string :=
  map fst (Array_sort compareWorkouts s).

(** A rendered tab. *)
Record Tab : Type := mkTab {
  tab_type : string;
  className : string;
  icon : string;
  badge : option num
}.

(** [renderWorkoutTabs]: the tabs put into the container, in order. *)
Definition renderWorkoutTabs (self : t) : list Tab :=
  map (fun type =>
         let done :=
           match JsObject.get (workoutState self) type with
           | Some w => completed w
           | None => false
           end in
         mkTab type
           ("workout-tab " ++ (if done then "completed" else ""))
           (if done then "check_circle" else "radio_button_unchecked")
           (* Add count badge if clicked more than once *)
           (let c := JsObject.get (workoutCounts self) type in
            if greater_than_one c then c else None))
    (sortedWorkouts (workoutState self)).

(** *** Methods *)

Section Methods.
Context `{Builtins}.
Local Open Scope js_scope.

Definition lift {A} (m : M Browser A) : M World A :=
  fun w => match m (browser w) with
           | (b', r) => (mkWorld (this w) b', r)
           end.

Definition update (f : t -> t) : M World unit :=
  modify (fun w => mkWorld (f (this w)) (browser w)).

Definition self : M World t := fun w => (w, inr (this w)).

Definition set_state (f : list (string * Workout) -> list (string * Workout))
  : M World unit :=
  update (fun s => mk (f (workoutState s)) (workoutCounts s) (workoutHistory s)).

Definition set_counts (f : list (string * num) -> list (string * num))
  : M World unit :=
  update (fun s => mk (workoutState s) (f (workoutCounts s)) (workoutHistory s)).

Definition set_history
    (f : list (string * list Entry) -> list (string * list Entry))
  : M World unit :=
  update (fun s => mk (workoutState s) (workoutCounts s) (f (workoutHistory s))).

(** [this.workoutState[type].field = ...]: a [TypeError] when the state
    has no such type. *)
Definition assign_workout (type : string) (f : Workout -> Workout)
  : M World unit :=
  s <- self ;;
  match JsObject.get (workoutState s) type with
  | Some w => set_state (fun st => JsObject.set st type (f w))
  | None =>
      throw (TypeError "Cannot set properties of undefined")
  end.

Definition saveState : M World unit :=
  s <- self ;;
  lift (localStorage.setItem stateKey (JSON_stringify (json_of_state (workoutState s)))) ;;
  lift (localStorage.setItem countKey (JSON_stringify (json_of_counts (workoutCounts s)))).

(** [renderWorkoutTabs()] and [refreshHistory()] repaint the page from
    [this]; they change neither [this] nor [localStorage]. *)
Definition repaint : M World unit := ret tt.

(** Reset workout tabs (but keep history) *)
Definition resetWorkoutTabs : M World unit :=
  (* Reset workout state *)
  for_each workoutTypes (fun type =>
    assign_workout type (fun w => mkWorkout false (order w)) ;;
    assign_workout type (fun w =>
      mkWorkout (completed w) (indexOf workoutTypes type))) ;;
  (* Reset workout counts *)
  for_each workoutTypes (fun type =>
    set_counts (fun c => JsObject.set c type (Num 0))) ;;
  (* Save and update display *)
  saveState ;;
  repaint.

(** Save workout to daily history *)
Definition saveWorkoutHistory (now : Date) (type : string) : M World unit :=
  let currentDate := utils.formatDate now in
  s <- self ;;
  when (negb (JsObject.has (workoutHistory s) currentDate))
    (set_history (fun h => JsObject.set h currentDate [])) ;;
  s <- self ;;
  let entry := mkEntry type (JsObject.get (workoutCounts s) type)
                 (toISOString now) in
  set_history (fun h =>
    match JsObject.get h currentDate with
    | Some entries => JsObject.set h currentDate (entries ++ [entry])%list
    | None => h
    end) ;;
  s <- self ;;
  lift (localStorage.setItem historyKey
          (JSON_stringify (json_of_history (workoutHistory s)))).

(** [Object.values(this.workoutState).every(state => state.completed)] *)
Definition allCompleted (s : list (string * Workout)) : bool :=
  forallb completed (JsObject.values s).

(** Toggle workout completion status *)
Definition toggleWorkout (now : Date) (type : string) : M World unit :=
  (* Increase count *)
  set_counts (fun c => JsObject.set c type (plus_one (JsObject.get c type))) ;;
  (* Update completion status *)
  assign_workout type (fun w => mkWorkout true (order w)) ;;
  (* Record in history *)
  saveWorkoutHistory now type ;;
  (* Check if all workouts are completed *)
  s <- self ;;
  if allCompleted (workoutState s) then
    resetWorkoutTabs ;;
    lift (showToast "All workouts completed! Tabs have been reset." "success")
  else
    (* Save state and update display *)
    saveState ;;
    repaint ;;
    lift (showToast (type ++ " workout marked as complete!") "success").

(** Reset daily workouts and remove today's history *)
Definition resetDailyWorkouts (now : Date) : M World unit :=
  (* Reset workout tabs *)
  resetWorkoutTabs ;;
  (* Remove today's history *)
  let currentDate := utils.formatDate now in
  s <- self ;;
  when (JsObject.has (workoutHistory s) currentDate)
    (set_history (fun h => JsObject.delete h currentDate) ;;
     s <- self ;;
     lift (localStorage.setItem historyKey
             (JSON_stringify (json_of_history (workoutHistory s))))).

(** Check if daily workouts need to be reset *)
Definition checkAndResetDailyWorkouts (now : Date) : M World unit :=
  let currentDate := utils.formatDate now in
  lastResetDate <- lift (localStorage.getItem lastResetKey) ;;
  when (negb (bool_decide (lastResetDate = Some currentDate)))
    (resetDailyWorkouts now ;;
     lift (localStorage.setItem lastResetKey currentDate)).

(** Reset all data for this tracker *)
Definition resetAllData : M World unit :=
  lift (localStorage.removeItem stateKey) ;;
  lift (localStorage.removeItem countKey) ;;
  lift (localStorage.removeItem historyKey) ;;
  lift (localStorage.removeItem lastResetKey) ;;
  lift (showToast "All workout tracking data has been reset." "warning") ;;
  lift (emit Reload).
End Methods.

(** *** History views *)

(** [!x] for a counter that may be missing. *)
Definition falsy_num (x : option num) : bool :=
  match x with
  | Some (Num z) => Z.eqb z 0
  | Some NaN | None => true
  end.

(** The body of the counting loop of [showDailyHistory]. *)
Definition countEntry (workoutsByType : list (string * num)) (entry : Entry)
  : list (string * num) :=
  let acc1 :=
    if falsy_num (JsObject.get workoutsByType (type entry))
    then JsObject.set workoutsByType (type entry) (Num 0)
    else workoutsByType in
  JsObject.set acc1 (type entry) (plus_one (JsObject.get acc1 (type entry))).

(** [workoutsByType] after the loop over the entries of one day, in the
    order its keys are listed.  The choice and order of the days shown
    depend on [localeCompare] and are left out. *)
Definition workoutsByType (entries : list Entry) : list (string * num) :=
  fold_left countEntry entries [].

(** The body of the grouping loop of [showCurrentWorkouts]. *)
Definition groupEntry (groupedEntries : list (string * list Entry))
    (entry : Entry) : list (string * list Entry) :=
  let acc1 :=
    if negb (JsObject.has groupedEntries (type entry))
    then JsObject.set groupedEntries (type entry) []
    else groupedEntries in
  match JsObject.get acc1 (type entry) with
  | Some typeEntries =>
      JsObject.set acc1 (type entry) (typeEntries ++ [entry])%list
  | None => acc1
  end.

(** [groupedEntries] after the loop. *)
Definition groupedEntries (entries : list Entry) : list (string * list Entry) :=
  fold_left groupEntry entries [].

End WorkoutTracker.

(** ** [storageManager] *)

Module storageManager.

(** [Object.keys(v)]: own enumerable property names; a [TypeError] on
    [null]. *)
Definition Object_keys (v : json) : exn + list string :=
  match v with
  | JNull => inl (TypeError "Cannot convert undefined or null to object")
  | JBool _ | JNum _ => inr []
  | JStr s => inr (map pretty (seq 0 (String.length s)))
  | JArr l => inr (map pretty (seq 0 (length l)))
  | JObj fields => inr (JsObject.keys fields)
  end.

(** [delete v[k]].  On an array the element becomes a hole, which
    [JSON.stringify] prints as [null]; the characters of a string cannot
    be deleted. *)
Definition delete_property (v : json) (k : string) : json :=
  match v with
  | JObj fields => JObj (JsObject.delete fields k)
  | JArr l => JArr (imap (fun i x => if String.eqb (pretty i) k then JNull else x) l)
  | _ => v
  end.

(** Keep only the last 90 days of a date-keyed object: the pruned object
    and whether anything was removed. *)
Definition prune (history : json) : exn + (json * bool) :=
  match Object_keys history with
  | inl e => inl e
  | inr keys =>
      let dates := Array_sort default_compare keys in
      if (90 <? length dates)%nat
      then
        let datesToRemove := take (length dates - 90) dates in
        inr (fold_left delete_property datesToRemove history, true)
      else inr (history, false)
  end.

(** The body of [habits.forEach]: the habit after the call, and whether
    its history was pruned. *)
Definition prune_habit (habit : json) : exn + (json * bool) :=
  match habit with
  | JNull => inl (TypeError "Cannot read properties of null (reading 'history')")
  | JObj fields =>
      match JsObject.get fields "history" with
      | Some h =>
          if truthy h then
            match prune h with
            | inl e => inl e
            | inr (h', pruned) =>
                inr (if pruned then JObj (JsObject.set fields "history" h')
                     else habit, pruned)
            end
          else inr (habit, false)
      | None => inr (habit, false)
      end
  | _ => inr (habit, false)
  end.

Section Methods.
Context `{Builtins}.
Local Open Scope js_scope.

(** The browser together with the local variable [cleanedUp]. *)
Record Frame : Type := mkFrame {
  browser : Browser;
  cleanedUp : bool
}.

Definition lift {A} (m : M Browser A) : M Frame A :=
  fun f => match m (browser f) with
           | (b', r) => (mkFrame b' (cleanedUp f), r)
           end.

Definition set_cleanedUp : M Frame unit :=
  modify (fun f => mkFrame (browser f) true).

Definition of_sum {A} (r : exn + A) : M Frame A :=
  match r with inl e => throw e | inr a => ret a end.

(** [habits.forEach(habit => ...)], returning the array as it is after
    the loop. *)
Fixpoint prune_habits (habits : list json) : M Frame (list json) :=
  match habits with
  | [] => ret []
  | habit :: rest =>
      r <- of_sum (prune_habit habit) ;;
      when (snd r) set_cleanedUp ;;
      rest' <- prune_habits rest ;;
      ret (fst r :: rest')
  end.

(** The body of [historyKeys.forEach], inside its [try]. *)
Definition cleanupKey (key : string) : M Frame unit :=
  historyData <- lift (localStorage.getItem key) ;;
  match historyData with
  | None => ret tt
  | Some historyData =>
      if String.eqb historyData "" then ret tt else
      history <- match JSON_parse historyData with
                 | Some v => ret v
                 | None => throw (Error "Unexpected token in JSON")
                 end ;;
      (* Ensure we have the right data structure *)
      if negb (typeof_object history) then ret tt else
      (* For habits data, handle the special format *)
      if String.eqb key "habits_data" then
        match history with
        | JArr habits =>
            habits' <- prune_habits habits ;;
            (* Save back *)
            lift (localStorage.setItem key (JSON_stringify (JArr habits')))
        | _ => ret tt
        end
      else
        (* Standard history object with dates as keys *)
        r <- of_sum (prune history) ;;
        (* If we have more than 90 days of history, remove oldest *)
        when (snd r)
          ((* Save back *)
           lift (localStorage.setItem key (JSON_stringify (fst r))) ;;
           set_cleanedUp)
  end.

Definition historyKeys : list string :=
  [STORAGE_KEYS.HISTORY_PREFIX ++ "water";
   STORAGE_KEYS.HISTORY_PREFIX ++ "protein";
   "workout_history";
   "habits_data"].

(** Clean up old history data to free space *)
Definition cleanupOldData : M Browser bool :=
  fun b =>
    match for_each historyKeys
            (fun key => try_catch (cleanupKey key) (fun e => ret tt))
            (mkFrame b false) with
    | (f, inr _) => (browser f, inr (cleanedUp f))
    | (f, inl _) => (browser f, inr false)
    end.

(** Safe set item with quota checking *)
Definition safeSetItem (key value : string) : M Browser bool :=
  try_catch (localStorage.setItem key value ;; ret true)
    (fun e =>
       match e with
       | QuotaExceededError =>
           (* Try cleanup *)
           cleaned <- cleanupOldData ;;
           if cleaned then
             (* Try again after cleanup *)
             try_catch
               (localStorage.setItem key value ;;
                showToast "Older history has been archived to free up storage space." "info" ;;
                ret true)
               (fun e2 =>
                  showToast "Storage limit reached. Please export and clear some data." "error" ;;
                  ret false)
           else
             showToast "Storage limit reached. Please export and clear some data." "error" ;;
             ret false
       | Error m | TypeError m =>
           showToast ("Error saving data: " ++ m) "error" ;;
           ret false
       end).

(** Test if localStorage is available *)
Definition isAvailable : M Browser bool :=
  try_catch
    (let test := "test" in
     localStorage.setItem test test ;;
     localStorage.removeItem test ;;
     ret true)
    (fun e => ret false).

(** Estimate remaining space (approximate) *)
Definition getRemainingSpace : M Browser Z :=
  fun b =>
    let maxSize := (5 * 1024 * 1024)%Z in
    (b, inr (maxSize - Z.of_nat (getUsage (items b)))%Z).

(** Check if we're near the quota: [currentUsage > maxSize * 0.9], both
    sides scaled by ten. *)
Definition isNearQuota : M Browser bool :=
  fun b =>
    let maxSize := (5 * 1024 * 1024)%Z in
    let currentUsage := Z.of_nat (getUsage (items b)) in
    (b, inr (maxSize * 9 <? currentUsage * 10)%Z).
End Methods.
End storageManager.

(** ** Notions used in the statements *)


(** A stored item that is present and not the empty string, i.e. truthy
    when read back with [getItem]. *)
Definition stored (o : option string) : bool :=
  match o with
  | Some s => negb (String.eqb s "")
  | None => false
  end.

Section Statements.
Context `{Builtins}.

(** A file that passes the size and type checks and can be read. *)
Definition readable (file : File) (text : string) : Prop :=
  (size file <= 5 * 1024 * 1024)%N /\
  (type file = "application/json" \/ endsWith (name file) ".json" = true) /\
  content file = Some text.

(** The export document for the store [m]. *)
Definition storedDocument (now : Date) (m : gmap string string) : json :=
  exportDocument now
    (m !! "goal_water") (m !! "intake_water") (m !! "history_water")
    (m !! "goal_protein") (m !! "intake_protein") (m !! "history_protein")
    (m !! "workout_state") (m !! "workout_count") (m !! "workout_history")
    (m !! "habits_data") (m !! "app_theme") (m !! "global_reminder").
End Statements.

(** The reading of "no tracker has ever produced goal, intake, or habit
    data": none of the goal, intake and habits items exists. *)
Definition no_tracker_data (m : gmap string string) : Prop :=
  m !! "goal_water" = None /\ m !! "goal_protein" = None /\
  m !! "intake_water" = None /\ m !! "intake_protein" = None /\
  m !! "habits_data" = None.

(** The number of successful writes of [key] recorded in a trace. *)
Definition writes_to (key : string) (tr : list effect) : nat :=
  length (List.filter (fun e => match e with
                                | SetItem k _ => String.eqb k key
                                | _ => false
                                end) tr).

Module TrackerSpec.
Import WorkoutTracker.

(** The value every canonical type has after a reset. *)
Definition canonical (type : string) : Workout :=
  mkWorkout false (indexOf workoutTypes type).

(** Every canonical type is incomplete, carries its canonical index and
    has a zero counter. *)
Definition is_reset (s : t) : Prop :=
  (forall type, In type workoutTypes ->
     JsObject.get (workoutState s) type = Some (canonical type)) /\
  (forall type, In type workoutTypes ->
     JsObject.get (workoutCounts s) type = Some (Num 0)).

(** What [toggleWorkout] does to the counter and the flag of [type]. *)
Definition marked (type : string) (s : t) : t :=
  mk (match JsObject.get (workoutState s) type with
      | Some w => JsObject.set (workoutState s) type (mkWorkout true (order w))
      | None => workoutState s
      end)
     (JsObject.set (workoutCounts s) type
        (plus_one (JsObject.get (workoutCounts s) type)))
     (workoutHistory s).

(** What [saveWorkoutHistory] does to [this.workoutHistory]. *)
Definition recorded (now : Date) (type : string) (s : t) : t :=
  let today := utils.formatDate now in
  let entry := mkEntry type (JsObject.get (workoutCounts s) type)
                 (toISOString now) in
  mk (workoutState s) (workoutCounts s)
     (match JsObject.get (workoutHistory s) today with
      | Some entries => JsObject.set (workoutHistory s) today (entries ++ [entry])%list
      | None => JsObject.set (workoutHistory s) today [entry]
      end).

(** Ordering by the [order] field alone. *)
Definition byOrder (a b : string * Workout) : Z :=
  (order (snd a) - order (snd b))%Z.

Definition order_le (a b : string * Workout) : Prop :=
  (order (snd a) <= order (snd b))%Z.

Definition is_completed (a : string * Workout) : bool := completed (snd a).
Definition is_incomplete (a : string * Workout) : bool := negb (completed (snd a)).

(** The two loop bodies of [resetWorkoutTabs]. *)
Definition reset_one (type : string) : M World unit :=
  bind (assign_workout type (fun w => mkWorkout false (order w)))
    (fun _ => assign_workout type (fun w =>
                mkWorkout (completed w) (indexOf workoutTypes type))).

Definition zero_one (type : string) : M World unit :=
  set_counts (fun c => JsObject.set c type (Num 0)).

(** The instance after the two loops of [resetWorkoutTabs], when no
    canonical type is missing from the state. *)
Definition reset_of (s : t) : t :=
  mk (fold_left (fun st ty => JsObject.set st ty (canonical ty))
        workoutTypes (workoutState s))
     (fold_left (fun c ty => JsObject.set c ty (Num 0))
        workoutTypes (workoutCounts s))
     (workoutHistory s).

(** Every canonical type has an entry in the state. *)
Definition tracks_all (s : t) : Prop :=
  forall ty, In ty workoutTypes -> is_Some (JsObject.get (workoutState s) ty).

(** The size a write adds to the store at most. *)
Definition cost (key value : string) : nat :=
  String.length key + String.length value.

(** Today's entries, [[]] when the day has no bucket yet. *)
Definition entries_on (day : string) (s : t) : list Entry :=
  match JsObject.get (workoutHistory s) day with
  | Some entries => entries
  | None => []
  end.
End TrackerSpec.

(** *** Calendar dates as history keys *)

Module DateKey.
Definition is_digit (c : ascii) : bool :=
  (48 <=? nat_of_ascii c)%nat && (nat_of_ascii c <=? 57)%nat.

Definition digit (c : ascii) : nat := nat_of_ascii c - 48.

(** [YYYY-MM-DD]: ten characters, digits around two hyphens. *)
Definition well_formed (s : string) : bool :=
  match String.list_ascii_of_string s with
  | [y1; y2; y3; y4; h1; m1; m2; h2; d1; d2] =>
      is_digit y1 && is_digit y2 && is_digit y3 && is_digit y4
      && Ascii.eqb h1 "-" && is_digit m1 && is_digit m2
      && Ascii.eqb h2 "-" && is_digit d1 && is_digit d2
  | _ => false
  end.

(** Year, month and day of a well-formed key. *)
Definition ymd (s : string) : nat * nat * nat :=
  match String.list_ascii_of_string s with
  | [y1; y2; y3; y4; _; m1; m2; _; d1; d2] =>
      (1000 * digit y1 + 100 * digit y2 + 10 * digit y3 + digit y4,
       10 * digit m1 + digit m2,
       10 * digit d1 + digit d2)
  | _ => (0, 0, 0)
  end.

(** [a] is a day before [b]. *)
Definition earlier (a b : string) : Prop :=
  match ymd a, ymd b with
  | (y1, m1, d1), (y2, m2, d2) =>
      y1 < y2 \/ (y1 = y2 /\ (m1 < m2 \/ (m1 = m2 /\ d1 < d2)))
  end.
End DateKey.

(** The keys [cleanupOldData] takes out of a date-keyed object: the
    first [n - 90] of the sorted keys, in that order. *)
Definition datesToRemove (keys : list string) : list string :=
  let dates := Array_sort default_compare keys in
  take (length dates - 90) dates.

(** The properties left in a date-keyed object by the deletions. *)
Definition retained {V} (fields : list (string * V)) : list (string * V) :=
  fold_left JsObject.delete (datesToRemove (JsObject.keys fields)) fields.

Module CleanupSpec.
Import storageManager.

(** One round of [historyKeys.forEach], with its [try]/[catch]. *)
Definition step `{Builtins} (key : string) : M Frame unit :=
  try_catch (cleanupKey key) (fun e => ret tt).

(** What one round for [key] may do: at most one accepted write of
    [key]; the flag is never taken back. *)
Definition touches (key : string) (f f' : Frame) : Prop :=
  (cleanedUp f = true -> cleanedUp f' = true) /\
  (browser f' = browser f \/
   exists v,
     getUsage (<[key := v]> (items (browser f))) <= quota (browser f) /\
     browser f' =
       mkBrowser (<[key := v]> (items (browser f))) (quota (browser f))
         (trace (browser f) ++ [SetItem key v])).
End CleanupSpec.

(** The three stores whose value is a date-keyed history object. *)
Definition history_stores : list string :=
  ["history_water"; "history_protein"; "workout_history"].

(** ** A concrete host, used to run the model on examples *)

(** A printer for the flat objects of the examples; good enough to give
    every write a definite size. *)
Fixpoint example_stringify (v : json) : string :=
  match v with
  | JNull => "null"
  | JBool true => "true"
  | JBool false => "false"
  | JNum n => pretty n
  | JStr s => dquote ++ s ++ dquote
  | JArr l => "[" ++ join "," (map example_stringify l) ++ "]"
  | JObj fields =>
      "{" ++ (fix go (fs : list (string * json)) : string :=
                match fs with
                | [] => ""
                | [(k, v)] => dquote ++ k ++ dquote ++ ":" ++ example_stringify v
                | (k, v) :: rest =>
                    dquote ++ k ++ dquote ++ ":" ++ example_stringify v
                  ++ "," ++ go rest
                end) fields ++ "}"
  end.

Definition example_builtins (doc : json) : Builtins := {|
  JSON_parse := fun _ => Some doc;
  JSON_stringify := example_stringify;
  JSON_stringify_indented := example_stringify;
  ToString := example_stringify;
  quotaMessage := "The quota has been exceeded."
|}.

Definition example_now : Date :=
  mkDate 2025 4 17 "2025-05-17T08:30:00.000Z".

Definition example_file : File :=
  mkFile 120 "application/json" "backup.json" (Some "{}").

(** A document without a [protein] section. *)
Definition example_water_only_doc : json :=
  JObj [("version", JStr "2.0");
        ("water", JObj [("goal", JStr "2000"); ("intake", JStr "750")])].


Definition example_small_store : Browser :=
  mkBrowser {[ "goal_water" := "2000" ]} 20 [].

(** A store that holds intake but neither goals nor habits. *)
Definition example_intake_only : Browser :=
  mkBrowser {[ "intake_water" := "250" ]} 5000 [].

Module TrackerExamples.
Import WorkoutTracker.

Definition yesterday_entry : Entry :=
  mkEntry "Back" (Some (Num 1)) "2025-05-16T18:02:11.000Z".
Definition today_entry : Entry :=
  mkEntry "Back" (Some (Num 1)) "2025-05-17T07:45:00.000Z".

(** Back done once today, Chest untouched. *)
Definition morning : t :=
  mk (JsObject.set defaultWorkoutState "Back" (mkWorkout true 1))
     (JsObject.set defaultWorkoutCounts "Back" (Num 1))
     [("2025-05-16", [yesterday_entry]); ("2025-05-17", [today_entry])].

(** Everything done except Legs. *)
Definition almost_done : t :=
  mk (map (fun kv => (fst kv,
                      mkWorkout (negb (String.eqb (fst kv) "Legs"))
                                (order (snd kv))))
        defaultWorkoutState)
     (map (fun kv => (fst kv,
                      if String.eqb (fst kv) "Legs" then Num 0 else Num 1))
        defaultWorkoutCounts)
     [("2025-05-17", [today_entry])].

(** A store last reset the day before [example_now]. *)
Definition stale_store : Browser :=
  mkBrowser {[ "lastResetDate_workout" := "2025-05-16" ]} 5000 [].

Definition later_today : Date :=
  mkDate 2025 4 17 "2025-05-17T19:10:00.000Z".

Definition host : Builtins := example_builtins JNull.
Definition w0 : World := mkWorld morning stale_store.
End TrackerExamples.

Module CleanupExamples.
(** 120 days, January to April, thirty days each, newest first. *)
Definition days : list string :=
  rev (flat_map
         (fun m => map (fun d => "2025-" ++ m ++ "-" ++ utils.padStart2 (pretty d))
                     (seq 1 30))
         ["01"; "02"; "03"; "04"]).

Definition fields : list (string * json) := map (fun d => (d, JArr [])) days.

Definition raw : string := example_stringify (JObj fields).

Definition store : Browser :=
  mkBrowser {[ "history_water" := raw ]} 5000 [].

Definition host : Builtins := example_builtins (JObj fields).
End CleanupExamples.

(** ** Notions used in the further statements *)

Section ImportTable.
Context `{Builtins}.

(** The keys a successful import may write, in program order. *)
Definition importKeys : list string :=
  ["goal_water"; "intake_water"; "history_water";
   "goal_protein"; "intake_protein"; "history_protein";
   "workout_state"; "workout_count"; "workout_history";
   "habits_data"; "app_theme"; "global_reminder"].

(** The field of the document read for each key, [None] when the field or
    its section is missing. *)
Definition importTable (doc : json) : list (string * option json) :=
  let water := prop doc "water" in
  let protein := prop doc "protein" in
  let workout := prop doc "workout" in
  let habits := prop doc "habits" in
  let settings := prop doc "settings" in
  [("goal_water", guarded_prop water "goal");
   ("intake_water", guarded_prop water "intake");
   ("history_water", guarded_prop water "history");
   ("goal_protein", guarded_prop protein "goal");
   ("intake_protein", guarded_prop protein "intake");
   ("history_protein", guarded_prop protein "history");
   ("workout_state", guarded_prop workout "state");
   ("workout_count", guarded_prop workout "count");
   ("workout_history", guarded_prop workout "history");
   ("habits_data", guarded_prop habits "data");
   ("app_theme", guarded_prop settings "theme");
   ("global_reminder", guarded_prop settings "reminder")].

(** The write, if any, that re-importing the stored item [key] issues. *)
Definition rewrite_of (m : gmap string string) (key : string) : list effect :=
  match m !! key with
  | Some s => if String.eqb s "" then [] else [SetItem key s]
  | None => []
  end.

(** The import document fits the size check. *)
Definition fits_import (doc : json) : Prop :=
  (N.of_nat (String.length (JSON_stringify doc)) * 10 <= 5 * 1024 * 1024 * 9)%N.
End ImportTable.

(** A relation between the browser before and after a computation that
    holds whether it returns or throws. *)
Definition respects {A} (R : Browser -> Browser -> Prop) (m : M Browser A) : Prop :=
  forall b b' r, m b = (b', r) -> R b b'.

Definition is_toast (e : effect) : Prop :=
  match e with ShowToast _ _ => True | _ => False end.

(** Nothing happened but toasts. *)
Definition only_toasts (b b' : Browser) : Prop :=
  items b' = items b /\ quota b' = quota b /\
  exists ts, trace b' = (trace b ++ ts)%list /\ List.Forall is_toast ts.



(** A document whose [water] section is a string. *)
Definition example_bad_water_doc : json :=
  JObj [("water", JStr "2000"); ("protein", JNum 3)].

(** A store with goals, an empty intake and a theme. *)
Definition example_full_store : Browser :=
  mkBrowser (<["goal_water" := "2000"]> (<["goal_protein" := "90"]>
            (<["intake_water" := ""]> {[ "app_theme" := "dark" ]}))) 5000 [].


(** A host whose parser returns the export of [example_full_store]. *)
Definition round_trip_host : Builtins :=
  example_builtins (storedDocument example_now (items example_full_store)).

Module CleanupFrame.
Import storageManager.

(** What a run of cleanup rounds over the keys [l] may do to the store:
    the capacity stays, no key appears or disappears, a value changes only
    under a key of [l] that was there, a changed date-keyed store raises
    the flag, and the trace grows by accepted writes of keys of [l]. *)
Definition rounds (l : list string) (f f' : Frame) : Prop :=
  quota (browser f') = quota (browser f) /\
  (within_quota (browser f) -> within_quota (browser f')) /\
  (cleanedUp f = true -> cleanedUp f' = true) /\
  (forall k, is_Some (items (browser f') !! k) <-> is_Some (items (browser f) !! k)) /\
  (forall k, items (browser f') !! k <> items (browser f) !! k ->
     In k l /\ (cleanedUp f' = false -> k = "habits_data")) /\
  exists delta,
    trace (browser f') = (trace (browser f) ++ delta)%list /\
    List.Forall (fun e => exists k v, e = SetItem k v /\ In k l) delta.

(** A habit as the habits tracker stores it: an object whose [history],
    when there is one, is a date-keyed object. *)
Definition plain_habit (habit : json) : Prop :=
  exists fields,
    habit = JObj fields /\
    (JsObject.get fields "history" = None \/
     exists days, JsObject.get fields "history" = Some (JObj days)).

(** The habit with its history cut down to the last 90 days. *)
Definition pruned_habit (habit : json) : json :=
  match habit with
  | JObj fields =>
      match JsObject.get fields "history" with
      | Some (JObj days) =>
          if (90 <? length days)%nat
          then JObj (JsObject.set fields "history" (JObj (retained days)))
          else habit
      | _ => habit
      end
  | _ => habit
  end.

(** The habit has a history of more than 90 days. *)
Definition long_habit (habit : json) : bool :=
  match habit with
  | JObj fields =>
      match JsObject.get fields "history" with
      | Some (JObj days) => (90 <? length days)%nat
      | _ => false
      end
  | _ => false
  end.
End CleanupFrame.

Module StorageExamples.
Import CleanupExamples.

(** The store of [CleanupExamples] with room for fourteen more units. *)
Definition tight_store : Browser :=
  mkBrowser {[ "history_water" := raw ]} 1950 [].

Definition habits : list json :=
  [JObj [("name", JStr "Read"); ("history", JObj fields)];
   JObj [("name", JStr "Run")]].

Definition habits_raw : string := example_stringify (JArr habits).

Definition habits_store : Browser :=
  mkBrowser {[ "habits_data" := habits_raw ]} 5000 [].

Definition habits_host : Builtins := example_builtins (JArr habits).

Definition null_habit_store : Browser :=
  mkBrowser {[ "habits_data" := "[null]" ]} 5000 [].

Definition null_habit_host : Builtins := example_builtins (JArr [JNull]).

(** A host that reads the stored history and its pruned text back. *)
Definition reparse_host : Builtins := {|
  JSON_parse := fun s =>
    if String.eqb s raw then Some (JObj fields)
    else Some (JObj (retained fields));
  JSON_stringify := example_stringify;
  JSON_stringify_indented := example_stringify;
  ToString := example_stringify;
  quotaMessage := "The quota has been exceeded."
|}.
End StorageExamples.

Module TrackerMore.
Import WorkoutTracker TrackerSpec.

Section Sync.
Context `{Builtins}.

(** The three stored items are the serialisations of the three fields of
    the instance. *)
Definition in_sync (w : World) : Prop :=
  items (browser w) !! stateKey
  = Some (JSON_stringify (json_of_state (workoutState (this w)))) /\
  items (browser w) !! countKey
  = Some (JSON_stringify (json_of_counts (workoutCounts (this w)))) /\
  items (browser w) !! historyKey
  = Some (JSON_stringify (json_of_history (workoutHistory (this w)))).
End Sync.

(** The instance after a [toggleWorkout] that returns. *)
Definition toggled (now : Date) (type : string) (s : t) : t :=
  let s1 := recorded now type (marked type s) in
  if allCompleted (workoutState s1) then reset_of s1 else s1.

(** State and counters of a reset tracker after each type of [done] was
    clicked once. *)
Definition state_with (done : list string) : list (string * Workout) :=
  map (fun ty => (ty, mkWorkout (existsb (String.eqb ty) done)
                        (indexOf workoutTypes ty)))
    workoutTypes.

Definition counts_with (done : list string) : list (string * num) :=
  map (fun ty => (ty, Num (if existsb (String.eqb ty) done then 1 else 0)))
    workoutTypes.

(** The entries recorded by first clicks on the types [l]. *)
Definition clicks (now : Date) (l : list string) : list Entry :=
  map (fun ty => mkEntry ty (Some (Num 1)) (toISOString now)) l.

(** The history with [es] appended to the bucket of [day]. *)
Definition logged (day : string) (es : list Entry)
    (h : list (string * list Entry)) : list (string * list Entry) :=
  JsObject.set h day
    (match JsObject.get h day with Some old => old | None => [] end ++ es)%list.


(** A state saved by an older version, without [Shoulders]. *)
Definition legacy : t :=
  mk [("Chest", mkWorkout true 0); ("Back", mkWorkout false 1);
      ("Biceps", mkWorkout false 2); ("Triceps", mkWorkout false 3);
      ("Abs", mkWorkout false 4); ("Legs", mkWorkout false 5)]
     [("Chest", Num 1); ("Back", Num 0); ("Biceps", Num 0);
      ("Triceps", Num 0); ("Abs", Num 0); ("Legs", Num 0)]
     [].

(** A reset tracker with one day of history. *)
Definition fresh : t :=
  mk defaultWorkoutState defaultWorkoutCounts
     [("2025-05-16", [TrackerExamples.yesterday_entry])].
End TrackerMore.

Module Calendar.
Import DateKey.

(** A date of the years 1000 to 9999, as the fields of [Date] give it. *)
Definition in_range (d : Date) : Prop :=
  (1000 <= N.of_nat (getFullYear d) <= 9999)%N /\
  getMonth d <= 11 /\ 1 <= getDate d <= 31.

(** [d1] is a day before [d2]. *)
Definition before (d1 d2 : Date) : Prop :=
  getFullYear d1 < getFullYear d2 \/
  (getFullYear d1 = getFullYear d2 /\
   (getMonth d1 < getMonth d2 \/
    (getMonth d1 = getMonth d2 /\ getDate d1 < getDate d2))).

(** The decimal numeral of [y] has four digits. *)
Definition four_digits (y : nat) : bool :=
  match String.list_ascii_of_string (pretty y) with
  | [a; b; c; d] =>
      is_digit a && is_digit b && is_digit c && is_digit d
      && Nat.eqb (1000 * digit a + 100 * digit b + 10 * digit c + digit d) y
  | _ => false
  end.

(** The numeral of [n], padded, has two digits. *)
Definition two_digits (n : nat) : bool :=
  match String.list_ascii_of_string (utils.padStart2 (pretty n)) with
  | [a; b] => is_digit a && is_digit b && Nat.eqb (10 * digit a + digit b) n
  | _ => false
  end.

(** A history whose keys are distinct well-formed date keys. *)
Definition dated {V} (h : list (string * V)) : Prop :=
  List.NoDup (JsObject.keys h) /\
  List.Forall (fun k => well_formed k = true) (JsObject.keys h).
End Calendar.

(** * Properties *)

(** ** Facts about [getUsage] *)

Lemma getUsage_empty : getUsage ∅ = 0.
Proof. apply map_fold_empty. Qed.

Lemma getUsage_insert_fresh (m : gmap string string) k v :
  m !! k = None ->
  getUsage (<[k := v]> m) = getUsage m + (String.length k + String.length v).
Proof.
  intros Hk. unfold getUsage.
  rewrite map_fold_insert_L; [reflexivity | | exact Hk].
  intros; lia.
Qed.

Lemma getUsage_union_disjoint (m1 m2 : gmap string string) :
  m1 ##ₘ m2 -> getUsage (m1 ∪ m2) = getUsage m1 + getUsage m2.
Proof.
  induction m1 as [|k v m1 Hk IH] using map_ind; intros Hd.
  - rewrite (left_id_L ∅ (∪)), getUsage_empty. lia.
  - apply map_disjoint_insert_l in Hd as [Hk2 Hd].
    rewrite <- insert_union_l.
    rewrite !getUsage_insert_fresh; [rewrite IH by exact Hd; lia | exact Hk |].
    apply lookup_union_None; auto.
Qed.

Lemma getUsage_mono (m1 m2 : gmap string string) :
  m1 ⊆ m2 -> getUsage m1 <= getUsage m2.
Proof.
  intros Hsub. rewrite <- (map_difference_union m1 m2 Hsub).
  rewrite getUsage_union_disjoint by (apply map_disjoint_difference_r1; reflexivity).
  lia.
Qed.

Lemma getUsage_delete_le (m : gmap string string) k :
  getUsage (delete k m) <= getUsage m.
Proof. apply getUsage_mono, delete_subseteq. Qed.

Lemma getUsage_insert_le (m : gmap string string) k v :
  getUsage (<[k := v]> m) <= getUsage m + (String.length k + String.length v).
Proof.
  rewrite <- insert_delete_eq.
  rewrite getUsage_insert_fresh by apply lookup_delete_eq.
  pose proof (getUsage_delete_le m k). lia.
Qed.

Lemma getUsage_replace (m : gmap string string) k v v' :
  m !! k = Some v ->
  getUsage (<[k := v']> m) + String.length v = getUsage m + String.length v'.
Proof.
  intros Hk.
  rewrite <- (insert_delete_eq m k v').
  rewrite <- (insert_id m k v Hk) at 2.
  rewrite <- (insert_delete_eq m k v).
  rewrite !getUsage_insert_fresh by apply lookup_delete_eq. lia.
Qed.


(** ** Facts about objects and the monad *)

Section ObjectFacts.
Context {V : Type}.
Implicit Types (o : list (string * V)) (k : string) (v : V).

Lemma get_set_eq o k v : JsObject.get (JsObject.set o k v) k = Some v.
Proof.
  induction o as [|[k' v'] o IH]; cbn.
  - rewrite String.eqb_refl. reflexivity.
  - destruct (String.eqb k' k) eqn:E; cbn; rewrite E; auto.
Qed.

Lemma get_set_ne o k k' v :
  k <> k' -> JsObject.get (JsObject.set o k v) k' = JsObject.get o k'.
Proof.
  intros Hne. induction o as [|[k0 v0] o IH]; cbn.
  - destruct (String.eqb_spec k k'); [contradiction|reflexivity].
  - destruct (String.eqb_spec k0 k) as [->|Hk]; cbn.
    + destruct (String.eqb_spec k k'); [contradiction|reflexivity].
    + destruct (String.eqb k0 k'); auto.
Qed.

Lemma set_set o k v v' :
  JsObject.set (JsObject.set o k v) k v' = JsObject.set o k v'.
Proof.
  induction o as [|[k0 v0] o IH]; cbn.
  - rewrite String.eqb_refl. reflexivity.
  - destruct (String.eqb k0 k) eqn:E; cbn; rewrite E; [reflexivity|].
    rewrite IH. reflexivity.
Qed.

Lemma get_delete_eq o k : JsObject.get (JsObject.delete o k) k = None.
Proof.
  induction o as [|[k0 v0] o IH]; cbn; [reflexivity|].
  destruct (String.eqb k0 k) eqn:E; cbn; [assumption|].
  rewrite E. assumption.
Qed.

Lemma get_delete_ne o k k' :
  k <> k' -> JsObject.get (JsObject.delete o k) k' = JsObject.get o k'.
Proof.
  intros Hne. induction o as [|[k0 v0] o IH]; cbn; [reflexivity|].
  destruct (String.eqb_spec k0 k) as [->|Hk]; cbn.
  - rewrite IH. destruct (String.eqb_spec k k'); [contradiction|reflexivity].
  - destruct (String.eqb k0 k'); auto.
Qed.

Lemma has_true_iff o k : JsObject.has o k = true <-> is_Some (JsObject.get o k).
Proof.
  unfold JsObject.has. destruct (JsObject.get o k); split;
    intros Hx; try reflexivity; try discriminate; eauto.
  destruct Hx; discriminate.
Qed.

Lemma has_false_iff o k : JsObject.has o k = false <-> JsObject.get o k = None.
Proof.
  unfold JsObject.has. destruct (JsObject.get o k); split;
    intros Hx; try reflexivity; discriminate.
Qed.

Lemma get_In o k v : JsObject.get o k = Some v -> In (k, v) o.
Proof.
  induction o as [|[k0 v0] o IH]; cbn; [discriminate|].
  destruct (String.eqb_spec k0 k) as [->|Hk].
  - intros [= ->]. left; reflexivity.
  - intros Hg. right. auto.
Qed.

Lemma In_get_is_Some o k v : In (k, v) o -> is_Some (JsObject.get o k).
Proof.
  induction o as [|[k0 v0] o IH]; cbn; [contradiction|].
  intros [[= -> ->]|Hin].
  - rewrite String.eqb_refl. eauto.
  - destruct (String.eqb k0 k); eauto.
Qed.
End ObjectFacts.

Section MonadFacts.
Context {S : Type}.

Lemma bind_inr {A B} (m : M S A) (f : A -> M S B) s s' b :
  bind m f s = (s', inr b) ->
  exists s1 a, m s = (s1, inr a) /\ f a s1 = (s', inr b).
Proof.
  unfold bind. destruct (m s) as [s1 [e|a]]; [discriminate|]. eauto.
Qed.

End MonadFacts.

Lemma setItem_inr k v b b' :
localStorage.setItem k v b = (b', inr tt) ->
b' = mkBrowser (<[k := v]> (items b)) (quota b) (trace b ++ [SetItem k v]).
Proof.
unfold localStorage.setItem. case_decide; intros [= <-]; reflexivity.
Qed.

(** A write succeeds when there is room for the key and the value. *)
Lemma setItem_fits k v b :
  getUsage (items b) + (String.length k + String.length v) <= quota b ->
  localStorage.setItem k v b
  = (mkBrowser (<[k := v]> (items b)) (quota b) (trace b ++ [SetItem k v]), inr tt).
Proof.
  intros Hroom. unfold localStorage.setItem.
  rewrite decide_True; [reflexivity|].
  pose proof (getUsage_insert_le (items b) k v). lia.
Qed.

Lemma setItem_within_quota k v b b' r :
  within_quota b -> localStorage.setItem k v b = (b', r) -> within_quota b'.
Proof.
  unfold localStorage.setItem, within_quota.
  case_decide; intros Hq [= <- _]; cbn; assumption.
Qed.

(** ** Facts about [Array_sort] *)

Lemma StronglySorted_weaken {A} (R R' : A -> A -> Prop) l :
  (forall x y, R x y -> R' x y) -> StronglySorted R l -> StronglySorted R' l.
Proof.
  intros Himp Hs. induction Hs as [|x l Hs IH Hx]; constructor; [exact IH|].
  eapply List.Forall_impl; [|exact Hx]. intros y. apply Himp.
Qed.

Lemma StronglySorted_weaken_In {A} (R R' : A -> A -> Prop) l :
  (forall x y, In x l -> In y l -> R x y -> R' x y) ->
  StronglySorted R l -> StronglySorted R' l.
Proof.
  intros Himp Hs. induction Hs as [|x l Hs IH Hx]; constructor.
  - apply IH. intros a b Ha Hb. apply Himp; right; assumption.
  - rewrite List.Forall_forall in *. intros y Hy.
    apply Himp; [left; reflexivity|right; exact Hy|apply Hx, Hy].
Qed.

Section ArraySortFacts.
Context {A : Type} (cmp : A -> A -> Z).

Lemma sort_insert_perm x l : Permutation (sort_insert cmp x l) (x :: l).
Proof.
  induction l as [|y l IH]; cbn; [reflexivity|].
  destruct (cmp x y <=? 0)%Z; [reflexivity|].
  rewrite IH. apply perm_swap.
Qed.

Lemma Array_sort_perm l : Permutation (Array_sort cmp l) l.
Proof.
  induction l as [|x l IH]; cbn; [reflexivity|].
  rewrite sort_insert_perm, IH. reflexivity.
Qed.

Lemma Array_sort_length l : length (Array_sort cmp l) = length l.
Proof. apply Permutation_length, Array_sort_perm. Qed.

Lemma Array_sort_Forall (P : A -> Prop) l :
  List.Forall P l -> List.Forall P (Array_sort cmp l).
Proof.
  intros Hl. eapply Permutation_Forall; [|exact Hl].
  symmetry. apply Array_sort_perm.
Qed.

(** With a total and transitive comparator the result is sorted. *)
Section Sorted.
Hypothesis cmp_total : forall x y, cmp_le cmp x y \/ cmp_le cmp y x.
Hypothesis cmp_trans : forall x y z, cmp_le cmp x y -> cmp_le cmp y z -> cmp_le cmp x z.

Lemma sort_insert_sorted x l :
  StronglySorted (cmp_le cmp) l ->
  StronglySorted (cmp_le cmp) (sort_insert cmp x l).
Proof.
  induction l as [|y l IH]; intros Hs; cbn.
  - repeat constructor.
  - apply StronglySorted_inv in Hs as [Hs Hy].
    destruct (Z.leb_spec (cmp x y) 0) as [Hle|Hgt].
    + constructor; [constructor; assumption|].
      constructor; [exact Hle|].
      eapply List.Forall_impl; [|exact Hy]. intros z Hz. eapply cmp_trans; eauto.
    + constructor; [apply IH, Hs|].
      eapply Permutation_Forall; [symmetry; apply sort_insert_perm|].
      constructor; [|exact Hy].
      destruct (cmp_total x y) as [Hxy|Hyx]; [unfold cmp_le in Hxy; lia|exact Hyx].
Qed.

Lemma Array_sort_sorted l : StronglySorted (cmp_le cmp) (Array_sort cmp l).
Proof.
  induction l as [|x l IH]; cbn; [constructor|].
  apply sort_insert_sorted, IH.
Qed.
End Sorted.
End ArraySortFacts.

(** *** The default comparator *)

Lemma string_le_compare x y : string_le x y <-> String.compare x y <> Gt.
Proof.
  unfold string_le, cmp_le, default_compare.
  destruct (String.compare x y); split; intros Hx; try lia; congruence.
Qed.

Lemma string_le_total x y : string_le x y \/ string_le y x.
Proof.
  rewrite !string_le_compare. rewrite (String.compare_antisym x y).
  destruct (String.compare y x); cbn; [left|right|left]; discriminate.
Qed.

Lemma string_compare_lt_trans x y z :
  String.compare x y = Lt -> String.compare y z = Lt -> String.compare x z = Lt.
Proof.
  intros Hxy Hyz.
  apply OrderedTypeEx.String_as_OT.cmp_lt in Hxy, Hyz.
  apply OrderedTypeEx.String_as_OT.cmp_lt.
  eapply OrderedTypeEx.String_as_OT.lt_trans; eauto.
Qed.

Lemma string_le_trans x y z : string_le x y -> string_le y z -> string_le x z.
Proof.
  rewrite !string_le_compare. intros Hxy Hyz.
  destruct (String.compare x y) eqn:Exy; [| |congruence].
  - apply String.compare_eq_iff in Exy. subst. exact Hyz.
  - destruct (String.compare y z) eqn:Eyz; [| |congruence].
    + apply String.compare_eq_iff in Eyz. subst. rewrite Exy. congruence.
    + rewrite (string_compare_lt_trans x y z Exy Eyz). congruence.
Qed.

Lemma sort_strings_sorted l :
  StronglySorted string_le (Array_sort default_compare l).
Proof.
  apply Array_sort_sorted.
  - apply string_le_total.
  - apply string_le_trans.
Qed.

(** Sorting distinct strings puts them in strictly ascending order. *)
Lemma sort_strings_strict l :
  List.NoDup l ->
  StronglySorted (fun x y => String.compare x y = Lt)
    (Array_sort default_compare l).
Proof.
  intros Hnd.
  assert (Hnd' : List.NoDup (Array_sort default_compare l)).
  { eapply Permutation_NoDup; [symmetry; apply Array_sort_perm|exact Hnd]. }
  pose proof (sort_strings_sorted l) as Hs.
  induction Hs as [|x s Hs IH Hx]; constructor.
  - apply IH. inversion Hnd'; assumption.
  - inversion Hnd' as [|? ? Hnotin Hnd'']; subst.
    rewrite List.Forall_forall in *. intros y Hy.
    specialize (Hx y Hy). apply string_le_compare in Hx.
    destruct (String.compare x y) eqn:E; [|reflexivity|congruence].
    apply String.compare_eq_iff in E. subst. contradiction.
Qed.

Lemma StronglySorted_app_inv {A} (R : A -> A -> Prop) l1 l2 :
  StronglySorted R (l1 ++ l2) ->
  StronglySorted R l1 /\ StronglySorted R l2 /\
  forall x y, In x l1 -> In y l2 -> R x y.
Proof.
  induction l1 as [|a l1 IH]; cbn; intros Hs.
  - repeat split; [constructor|exact Hs|]. intros x y [].
  - apply StronglySorted_inv in Hs as [Hs Ha].
    destruct (IH Hs) as (H1 & H2 & H12).
    rewrite List.Forall_forall in Ha.
    repeat split; [|exact H2|].
    + constructor; [exact H1|]. rewrite List.Forall_forall.
      intros y Hy. apply Ha, in_or_app. left; exact Hy.
    + intros x y [<-|Hx] Hy; [|auto].
      apply Ha, in_or_app. right; exact Hy.
Qed.

(** ** Import and export *)

Section ImportExportFacts.
Context `{Builtins}.
Import STORAGE_KEYS.

Lemma importData_readable file text confirmed :
  readable file text ->
  importData (Some file) confirmed = onload text confirmed.
Proof.
  intros (Hsize & Htype & Hcontent). unfold importData.
  destruct (N.ltb_spec (5 * 1024 * 1024) (size file)) as [Hlt|_]; [lia|].
  rewrite Hcontent.
  destruct Htype as [-> | ->]; [reflexivity|].
  rewrite andb_false_r. reflexivity.
Qed.

(** C2: a document without a [protein] member is rejected with the
    "missing required sections" error, the message names [protein], and
    the only effect is the error toast: nothing is written to or removed
    from [localStorage]. *)
Theorem importData_missing_protein file text doc confirmed b :
  readable file text ->
  JSON_parse text = Some doc ->
  truthy doc = true ->
  prop doc "protein" = None ->
  exists missing b',
    importData (Some file) confirmed b = (b', inr tt) /\
    In "protein" missing /\
    items b' = items b /\
    trace b' = (trace b ++
      [ShowToast ("Error importing data: Import file is missing required sections: "
                    ++ join ", " missing ++ ".") "error"])%list.
Proof.
  intros Hfile Hparse Htruthy Hprotein.
  rewrite (importData_readable _ _ _ Hfile).
  set (missing := List.filter
         (fun section => negb (truthy_opt (prop doc section))) requiredSections).
  exists missing.
  exists (log_effect
            (ShowToast ("Error importing data: Import file is missing required sections: "
                          ++ join ", " missing ++ ".") "error") b).
  split; [|split; [|split]]; try reflexivity.
  - unfold onload, try_catch, bind. rewrite Hparse. cbn [ret].
    unfold validate, bind, when. rewrite Htruthy. cbn [negb ret].
    subst missing. unfold requiredSections. cbn [List.filter].
    rewrite Hprotein. cbn [truthy_opt negb].
    destruct (negb (truthy_opt (prop doc "water"))); reflexivity.
  - apply filter_In. split; [right; left; reflexivity|].
    rewrite Hprotein. reflexivity.
Qed.

(** C5, as the code has it: the no-data error is shown exactly when the
    stored water goal, protein goal and habits data are all missing or
    empty (stored intake is not consulted); otherwise the versioned
    document is assembled from the stored items and handed to the
    download, followed by the success toast.  The store is not touched. *)
Theorem exportData_essential_data now b :
  let m := items b in
  exportData now b =
    if stored (m !! "goal_water") || stored (m !! "goal_protein")
       || stored (m !! "habits_data")
    then (mkBrowser m (quota b)
            (trace b ++
               [Download ("health-tracker-export-"
                            ++ String.substring 0 10 (toISOString now) ++ ".json")
                         (JSON_stringify_indented (storedDocument now m));
                ShowToast "Data exported successfully!" "success"]),
          inr tt)
    else (mkBrowser m (quota b)
            (trace b ++ [ShowToast "No tracking data found to export." "error"]),
          inr tt).
Proof.
  destruct b as [m q t]. cbn [items quota trace].
  unfold exportData, bind, localStorage.getItem. cbn [items].
  unfold GOAL_PREFIX, INTAKE_PREFIX, HISTORY_PREFIX, THEME, REMINDER.
  change ("goal_" ++ "water") with "goal_water".
  change ("goal_" ++ "protein") with "goal_protein".
  assert (Hs : forall o, truthy (of_item o) = stored o) by (intros [s|]; reflexivity).
  rewrite !Hs.
  destruct (stored (m !! "goal_water")), (stored (m !! "goal_protein")),
    (stored (m !! "habits_data")); cbn [negb andb orb];
    unfold showToast, emit, modify, log_effect; cbn [items quota trace];
    rewrite <- ?app_assoc; reflexivity.
Qed.

(** *** Rollback of a failed import *)













End ImportExportFacts.

(** ** The workout tracker *)

Section TrackerFacts.
Context `{Builtins}.
Import WorkoutTracker TrackerSpec.

Lemma lift_this {A} (m : M Browser A) w w' r :
  lift m w = (w', r) -> this w' = this w.
Proof.
  unfold lift. destruct (m (browser w)) as [b' r']. intros [= <- _]. reflexivity.
Qed.

Lemma lift_setItem_inr k v w w' :
  lift (localStorage.setItem k v) w = (w', inr tt) ->
  w' = mkWorld (this w)
         (mkBrowser (<[k := v]> (items (browser w))) (quota (browser w))
            (trace (browser w) ++ [SetItem k v])).
Proof.
  unfold lift. destruct (localStorage.setItem k v (browser w)) as [b' r] eqn:E.
  intros [= <- ->]. apply setItem_inr in E. subst b'. reflexivity.
Qed.

Lemma assign_workout_some ty f w x :
  JsObject.get (workoutState (this w)) ty = Some x ->
  assign_workout ty f w
  = (mkWorld (mk (JsObject.set (workoutState (this w)) ty (f x))
                 (workoutCounts (this w)) (workoutHistory (this w)))
             (browser w), inr tt).
Proof. intros Hx. unfold assign_workout, bind, self. rewrite Hx. reflexivity. Qed.

Lemma assign_workout_inr ty f w w' :
  assign_workout ty f w = (w', inr tt) ->
  exists x, JsObject.get (workoutState (this w)) ty = Some x /\
    w' = mkWorld (mk (JsObject.set (workoutState (this w)) ty (f x))
                     (workoutCounts (this w)) (workoutHistory (this w)))
                 (browser w).
Proof.
  unfold assign_workout, bind, self.
  destruct (JsObject.get (workoutState (this w)) ty) as [x|]; [|discriminate].
  intros [= <-]. eauto.
Qed.

(** *** The two loops of [resetWorkoutTabs] *)

Lemma reset_one_inr ty w w' :
  reset_one ty w = (w', inr tt) ->
  w' = mkWorld (mk (JsObject.set (workoutState (this w)) ty (canonical ty))
                   (workoutCounts (this w)) (workoutHistory (this w)))
               (browser w).
Proof.
  unfold reset_one. intros Hr.
  apply bind_inr in Hr as (w1 & [] & H1 & H2).
  apply assign_workout_inr in H1 as (x & Hx & ->).
  apply assign_workout_inr in H2 as (y & Hy & ->).
  cbn [this workoutState workoutCounts workoutHistory browser] in *.
  rewrite get_set_eq in Hy. injection Hy as <-.
  rewrite set_set. reflexivity.
Qed.

Lemma reset_states_inr (l : list string) : forall w w',
  for_each l reset_one w = (w', inr tt) ->
  browser w' = browser w /\
  workoutCounts (this w') = workoutCounts (this w) /\
  workoutHistory (this w') = workoutHistory (this w) /\
  (forall ty, In ty l ->
     JsObject.get (workoutState (this w')) ty = Some (canonical ty)) /\
  (forall ty, JsObject.get (workoutState (this w)) ty = Some (canonical ty) ->
     JsObject.get (workoutState (this w')) ty = Some (canonical ty)).
Proof.
  induction l as [|x l IH]; intros w w' Hrun.
  - injection Hrun as <-. repeat split; auto. intros ty [].
  - cbn [for_each] in Hrun.
    apply bind_inr in Hrun as (w1 & [] & H1 & H2).
    apply reset_one_inr in H1. apply IH in H2 as (Hb & Hc & Hh & Hin & Hkeep).
    subst w1. cbn [this workoutState workoutCounts workoutHistory browser] in *.
    assert (Hstep : forall ty,
               JsObject.get (workoutState (this w)) ty = Some (canonical ty) ->
               JsObject.get (JsObject.set (workoutState (this w)) x (canonical x)) ty
               = Some (canonical ty)).
    { intros ty Hty. destruct (decide (x = ty)) as [->|Hne].
      - apply get_set_eq.
      - rewrite get_set_ne by exact Hne. exact Hty. }
    repeat split; auto.
    intros ty [->|Hty]; [|auto].
    apply Hkeep, get_set_eq.
Qed.

Lemma zero_counts_run (l : list string) : forall w,
  exists w',
    for_each l zero_one w = (w', inr tt) /\
    browser w' = browser w /\
    workoutState (this w') = workoutState (this w) /\
    workoutHistory (this w') = workoutHistory (this w) /\
    (forall ty, In ty l -> JsObject.get (workoutCounts (this w')) ty = Some (Num 0)) /\
    (forall ty, JsObject.get (workoutCounts (this w)) ty = Some (Num 0) ->
       JsObject.get (workoutCounts (this w')) ty = Some (Num 0)).
Proof.
  induction l as [|x l IH]; intros w.
  - exists w. repeat split; auto. intros ty [].
  - cbn [for_each]. unfold bind at 1. cbn.
    match goal with
    | |- context [for_each l zero_one ?w1] =>
        destruct (IH w1) as (w' & Hrun & Hb & Hs & Hh & Hin & Hkeep)
    end.
    exists w'. cbn [this workoutState workoutCounts workoutHistory browser] in *.
    split; [exact Hrun|]. repeat split; auto.
    + intros ty [->|Hty]; [|auto]. apply Hkeep, get_set_eq.
    + intros ty Hty. apply Hkeep.
      destruct (decide (x = ty)) as [->|Hne]; [apply get_set_eq|].
      rewrite get_set_ne by exact Hne. exact Hty.
Qed.

(** [saveState] only talks to [localStorage]. *)
Lemma saveState_this w w' r : saveState w = (w', r) -> this w' = this w.
Proof.
  unfold saveState, bind, self.
  destruct (lift _ w) as [w1 [e|[]]] eqn:E1.
  - intros [= <- _]. eapply lift_this, E1.
  - intros E2. apply lift_this in E1, E2. congruence.
Qed.

Lemma saveState_inr w w' :
  saveState w = (w', inr tt) ->
  w' = mkWorld (this w)
         (mkBrowser
            (<[countKey := JSON_stringify (json_of_counts (workoutCounts (this w)))]>
               (<[stateKey := JSON_stringify (json_of_state (workoutState (this w)))]>
                  (items (browser w))))
            (quota (browser w))
            (trace (browser w) ++
               [SetItem stateKey (JSON_stringify (json_of_state (workoutState (this w))));
                SetItem countKey (JSON_stringify (json_of_counts (workoutCounts (this w))))])).
Proof.
  unfold saveState. intros Hr.
  apply bind_inr in Hr as (w0 & s & [= <- <-] & Hr).
  apply bind_inr in Hr as (w1 & [] & H1 & H2).
  apply lift_setItem_inr in H1. subst w1.
  apply lift_setItem_inr in H2. subst w'.
  cbn [this browser items quota trace]. rewrite <- app_assoc. reflexivity.
Qed.

(** A normal return of [resetWorkoutTabs]: [this] is reset, the history
    is the same object, and the store received exactly the two writes of
    [saveState]. *)
Lemma resetWorkoutTabs_inr w w' :
  resetWorkoutTabs w = (w', inr tt) ->
  is_reset (this w') /\
  workoutHistory (this w') = workoutHistory (this w) /\
  browser w' =
    mkBrowser
      (<[countKey := JSON_stringify (json_of_counts (workoutCounts (this w')))]>
         (<[stateKey := JSON_stringify (json_of_state (workoutState (this w')))]>
            (items (browser w))))
      (quota (browser w))
      (trace (browser w) ++
         [SetItem stateKey (JSON_stringify (json_of_state (workoutState (this w'))));
          SetItem countKey (JSON_stringify (json_of_counts (workoutCounts (this w'))))]).
Proof.
  unfold resetWorkoutTabs. intros Hr.
  apply bind_inr in Hr as (w1 & [] & H1 & Hr).
  apply bind_inr in Hr as (w2 & [] & H2 & Hr).
  apply bind_inr in Hr as (w3 & [] & H3 & [= <-]).
  apply (reset_states_inr workoutTypes) in H1 as (Hb1 & Hc1 & Hh1 & Hs1 & _).
  destruct (zero_counts_run workoutTypes w1) as (w2' & Hrun & Hb2 & Hs2 & Hh2 & Hc2 & _).
  change (for_each workoutTypes zero_one w1 = (w2, inr tt)) in H2.
  rewrite Hrun in H2. injection H2 as ->.
  apply saveState_inr in H3. subst w3. cbn [this browser].
  split; [|split].
  - split; intros ty Hty; [rewrite Hs2; auto | auto].
  - congruence.
  - rewrite Hb2, Hb1. reflexivity.
Qed.

(** The default state tracks every canonical type. *)
Lemma initial_tracks_all : tracks_all initial.
Proof.
  intros ty Hty. cbn in Hty.
  repeat (destruct Hty as [<-|Hty]; [vm_compute; eauto|]). destruct Hty.
Qed.

(** *** The calls return when the state is complete and the store has room *)

Lemma reset_states_run (l : list string) : forall w,
  (forall ty, In ty l -> is_Some (JsObject.get (workoutState (this w)) ty)) ->
  for_each l reset_one w
  = (mkWorld (mk (fold_left (fun st ty => JsObject.set st ty (canonical ty))
                    l (workoutState (this w)))
                 (workoutCounts (this w)) (workoutHistory (this w)))
             (browser w), inr tt).
Proof.
  induction l as [|x l IH]; intros w Hall; cbn [for_each fold_left].
  - destruct w as [[] ?]. reflexivity.
  - destruct (Hall x (or_introl eq_refl)) as [v Hv].
    unfold bind at 1, reset_one at 1, bind at 1.
    rewrite (assign_workout_some _ _ _ v Hv).
    rewrite (assign_workout_some _ _ _ (mkWorkout false (order v)))
      by (cbn; apply get_set_eq).
    cbn [this workoutState workoutCounts workoutHistory browser].
    rewrite set_set, IH.
    + reflexivity.
    + intros ty Hty. cbn [this workoutState].
      destruct (decide (x = ty)) as [->|Hne].
      * rewrite get_set_eq. eauto.
      * rewrite get_set_ne by exact Hne. apply Hall. right; exact Hty.
Qed.

Lemma zero_counts_run_eq (l : list string) : forall w,
  for_each l zero_one w
  = (mkWorld (mk (workoutState (this w))
                 (fold_left (fun c ty => JsObject.set c ty (Num 0))
                    l (workoutCounts (this w)))
                 (workoutHistory (this w)))
             (browser w), inr tt).
Proof.
  induction l as [|x l IH]; intros w; cbn [for_each fold_left].
  - destruct w as [[] ?]. reflexivity.
  - unfold bind, zero_one at 1, set_counts, update, modify.
    rewrite IH. reflexivity.
Qed.

Lemma saveState_run w :
  let vs := JSON_stringify (json_of_state (workoutState (this w))) in
  let vc := JSON_stringify (json_of_counts (workoutCounts (this w))) in
  getUsage (items (browser w)) + (cost stateKey vs + cost countKey vc)
    <= quota (browser w) ->
  saveState w
  = (mkWorld (this w)
       (mkBrowser (<[countKey := vc]> (<[stateKey := vs]> (items (browser w))))
          (quota (browser w))
          (trace (browser w) ++ [SetItem stateKey vs; SetItem countKey vc])),
     inr tt).
Proof.
  intros vs vc Hroom. unfold cost in Hroom. subst vs vc.
  unfold saveState, bind, self, lift.
  rewrite (setItem_fits stateKey _ (browser w)); [|lia].
  cbn [browser this items quota trace].
  rewrite setItem_fits.
  - cbn [items quota trace]. rewrite <- app_assoc. reflexivity.
  - cbn [items quota].
    pose proof (getUsage_insert_le (items (browser w)) stateKey
                  (JSON_stringify (json_of_state (workoutState (this w))))).
    lia.
Qed.

(** [resetWorkoutTabs] returns, with the instance reset, as soon as every
    canonical type is tracked and the two writes fit. *)
Lemma resetWorkoutTabs_returns w :
  tracks_all (this w) ->
  let s' := reset_of (this w) in
  let vs := JSON_stringify (json_of_state (workoutState s')) in
  let vc := JSON_stringify (json_of_counts (workoutCounts s')) in
  getUsage (items (browser w)) + (cost stateKey vs + cost countKey vc)
    <= quota (browser w) ->
  resetWorkoutTabs w
  = (mkWorld s'
       (mkBrowser (<[countKey := vc]> (<[stateKey := vs]> (items (browser w))))
          (quota (browser w))
          (trace (browser w) ++ [SetItem stateKey vs; SetItem countKey vc])),
     inr tt).
Proof.
  intros Hall s' vs vc Hroom. unfold resetWorkoutTabs.
  unfold bind at 1.
  change (for_each workoutTypes _ w) with (for_each workoutTypes reset_one w).
  rewrite (reset_states_run workoutTypes w Hall).
  unfold bind at 1.
  match goal with
  | |- context [for_each workoutTypes ?g ?w1] =>
      change (for_each workoutTypes g w1) with (for_each workoutTypes zero_one w1)
  end.
  rewrite zero_counts_run_eq.
  cbn [this workoutState workoutCounts workoutHistory browser].
  unfold bind, repaint, ret.
  rewrite saveState_run; [reflexivity|exact Hroom].
Qed.

(** The same for the daily check: with a stale marker it returns once
    the writes of the reset, of the history (when today has a bucket)
    and of the marker fit. *)
Lemma checkAndResetDailyWorkouts_returns now w :
  tracks_all (this w) ->
  let today := utils.formatDate now in
  let s' := reset_of (this w) in
  let vs := JSON_stringify (json_of_state (workoutState s')) in
  let vc := JSON_stringify (json_of_counts (workoutCounts s')) in
  let vh := JSON_stringify (json_of_history
              (JsObject.delete (workoutHistory (this w)) today)) in
  getUsage (items (browser w))
    + (cost stateKey vs + cost countKey vc + cost historyKey vh
       + cost lastResetKey today)
    <= quota (browser w) ->
  exists w', checkAndResetDailyWorkouts now w = (w', inr tt).
Proof.
  intros Hall today s' vs vc vh Hroom. unfold cost in Hroom.
  assert (Hw : mkWorld (this w) (browser w) = w) by (destruct w; reflexivity).
  unfold checkAndResetDailyWorkouts, bind at 1, lift at 1, localStorage.getItem.
  fold today. rewrite Hw.
  destruct (bool_decide _); cbn [negb when ret]; [eauto|].
  unfold bind at 1, resetDailyWorkouts, bind at 1.
  rewrite (resetWorkoutTabs_returns w Hall);
    [|cbv zeta; unfold cost; fold s' vs vc; lia].
  cbv zeta. fold s' vs vc today. unfold bind at 1, self.
  cbn [this browser].
  assert (Hh : workoutHistory s' = workoutHistory (this w)) by reflexivity.
  rewrite Hh.
  assert (Hu2 : getUsage (<[countKey := vc]> (<[stateKey := vs]> (items (browser w))))
                <= getUsage (items (browser w))
                   + (String.length stateKey + String.length vs)
                   + (String.length countKey + String.length vc)).
  { etransitivity; [apply getUsage_insert_le|].
    pose proof (getUsage_insert_le (items (browser w)) stateKey vs). lia. }
  destruct (JsObject.has (workoutHistory (this w)) today); cbn [when].
  - unfold bind, set_history, update, modify, self, lift.
    cbn [this browser workoutState workoutCounts workoutHistory].
    rewrite Hh. fold vh.
    rewrite (setItem_fits historyKey vh); [|cbn [items quota]; lia].
    rewrite (setItem_fits lastResetKey today); [eauto|].
    cbn [this browser items quota].
    pose proof (getUsage_insert_le
                  (<[countKey := vc]> (<[stateKey := vs]> (items (browser w))))
                  historyKey vh). lia.
  - unfold bind, ret, lift. cbn [browser].
    rewrite (setItem_fits lastResetKey today); [eauto|].
    cbn [this browser items quota]. lia.
Qed.

(** *** Toggling *)

(** Whatever happens to the write, [saveWorkoutHistory] has appended the
    entry in memory. *)
Lemma saveWorkoutHistory_run now ty w :
  saveWorkoutHistory now ty w
  = lift (localStorage.setItem historyKey
            (JSON_stringify (json_of_history
               (workoutHistory (recorded now ty (this w))))))
      (mkWorld (recorded now ty (this w)) (browser w)).
Proof.
  unfold saveWorkoutHistory, recorded, bind, self, JsObject.has.
  destruct (JsObject.get (workoutHistory (this w)) (utils.formatDate now))
    as [entries|] eqn:E; cbn [negb when ret set_history update modify this
      browser workoutState workoutCounts workoutHistory].
  - rewrite E. reflexivity.
  - rewrite get_set_eq, set_set. reflexivity.
Qed.

Lemma saveWorkoutHistory_this now ty w w' r :
  saveWorkoutHistory now ty w = (w', r) ->
  this w' = recorded now ty (this w).
Proof.
  rewrite saveWorkoutHistory_run. intros Hr. apply lift_this in Hr. exact Hr.
Qed.

Lemma saveWorkoutHistory_inr now ty w w' :
  saveWorkoutHistory now ty w = (w', inr tt) ->
  w' = mkWorld (recorded now ty (this w))
         (mkBrowser
            (<[historyKey := JSON_stringify (json_of_history
                               (workoutHistory (recorded now ty (this w))))]>
               (items (browser w)))
            (quota (browser w))
            (trace (browser w) ++
               [SetItem historyKey
                  (JSON_stringify (json_of_history
                     (workoutHistory (recorded now ty (this w)))))])).
Proof.
  rewrite saveWorkoutHistory_run. intros Hr.
  apply lift_setItem_inr in Hr. exact Hr.
Qed.

(** The first two statements of [toggleWorkout]. *)
Lemma toggle_prefix_run ty w x :
  JsObject.get (workoutState (this w)) ty = Some x ->
  bind (set_counts (fun c => JsObject.set c ty (plus_one (JsObject.get c ty))))
       (fun _ => assign_workout ty (fun w => mkWorkout true (order w))) w
  = (mkWorld (marked ty (this w)) (browser w), inr tt).
Proof.
  intros Hx. unfold bind, set_counts, update, modify.
  rewrite (assign_workout_some _ _ _ x) by exact Hx.
  unfold marked. cbn [this browser workoutState workoutCounts workoutHistory].
  rewrite Hx. reflexivity.
Qed.

Lemma allCompleted_Forall st :
  allCompleted st = true <->
  Forall (fun kv : string * Workout => completed (snd kv) = true) st.
Proof.
  unfold allCompleted, JsObject.values. rewrite forallb_forall, List.Forall_forall.
  split.
  - intros Hall kv Hkv. apply Hall, in_map, Hkv.
  - intros Hall v Hv. apply in_map_iff in Hv as (kv & <- & Hkv). auto.
Qed.

Lemma incomplete_not_allCompleted st k v :
  JsObject.get st k = Some v -> completed v = false -> allCompleted st = false.
Proof.
  intros Hget Hv. destruct (allCompleted st) eqn:E; [|reflexivity].
  apply allCompleted_Forall in E. rewrite List.Forall_forall in E.
  apply get_In in Hget. apply E in Hget. cbn in Hget. congruence.
Qed.

(** While some type stays incomplete, a toggle leaves [this] marked and
    recorded, whether or not the store accepts the writes. *)
Lemma toggleWorkout_this now ty w w' r x :
  JsObject.get (workoutState (this w)) ty = Some x ->
  allCompleted (workoutState (marked ty (this w))) = false ->
  toggleWorkout now ty w = (w', r) ->
  this w' = recorded now ty (marked ty (this w)).
Proof.
  intros Hx Hnot. unfold toggleWorkout.
  unfold bind at 1. unfold bind at 1.
  change (set_counts _ w) with
    (set_counts (fun c => JsObject.set c ty (plus_one (JsObject.get c ty))) w).
  pose proof (toggle_prefix_run ty w x Hx) as Hp. unfold bind in Hp.
  destruct (set_counts _ w) as [w0 [e|[]]] eqn:E0; [discriminate E0|].
  rewrite Hp. unfold bind at 1.
  destruct (saveWorkoutHistory now ty _) as [w2 [e|[]]] eqn:E2.
  - intros [= <- _]. apply saveWorkoutHistory_this in E2. exact E2.
  - apply saveWorkoutHistory_this in E2. cbn [this] in E2.
    unfold bind at 1, self. rewrite E2.
    cbn [recorded workoutState]. rewrite Hnot.
    unfold bind at 1.
    destruct (saveState w2) as [w3 [e|[]]] eqn:E3.
    + intros [= <- _]. apply saveState_this in E3. congruence.
    + apply saveState_this in E3. unfold bind, repaint, ret.
      intros Hr. apply lift_this in Hr. congruence.
Qed.

(** And for a toggle of a tracked type. *)
Lemma toggleWorkout_returns now ty w x :
  JsObject.get (workoutState (this w)) ty = Some x ->
  tracks_all (this w) ->
  let s1 := recorded now ty (marked ty (this w)) in
  let s' := if allCompleted (workoutState s1) then reset_of s1 else s1 in
  let vh := JSON_stringify (json_of_history (workoutHistory s1)) in
  let vs := JSON_stringify (json_of_state (workoutState s')) in
  let vc := JSON_stringify (json_of_counts (workoutCounts s')) in
  getUsage (items (browser w))
    + (cost historyKey vh + cost stateKey vs + cost countKey vc)
    <= quota (browser w) ->
  exists w', toggleWorkout now ty w = (w', inr tt) /\ this w' = s'.
Proof.
  intros Hx Hall s1 s' vh vs vc Hroom. unfold cost in Hroom.
  unfold toggleWorkout. unfold bind at 1. unfold bind at 1.
  pose proof (toggle_prefix_run ty w x Hx) as Hp. unfold bind in Hp.
  destruct (set_counts _ w) as [w0 [e|[]]] eqn:E0; [discriminate E0|].
  rewrite Hp. clear Hp E0 w0.
  unfold bind at 1. rewrite saveWorkoutHistory_run.
  cbn [this browser]. fold s1 vh.
  unfold lift at 1. rewrite setItem_fits by (cbn [browser]; lia).
  cbn [browser this items quota trace].
  unfold bind at 1, self. cbn [this].
  assert (Hu : getUsage (<[historyKey := vh]> (items (browser w)))
               <= getUsage (items (browser w))
                  + (String.length historyKey + String.length vh))
    by apply getUsage_insert_le.
  subst s'. destruct (allCompleted (workoutState s1)) eqn:Eall.
  - unfold bind at 1. rewrite resetWorkoutTabs_returns.
    + unfold lift, showToast, emit, modify. eexists. split; reflexivity.
    + cbn [this]. intros t Ht. unfold s1, recorded, marked.
      cbn [workoutState]. rewrite Hx.
      destruct (decide (ty = t)) as [->|Hne].
      * rewrite get_set_eq. eauto.
      * rewrite get_set_ne by exact Hne. apply Hall, Ht.
    + cbn [this browser items quota]. fold vs vc. unfold cost. lia.
  - unfold bind at 1. rewrite saveState_run.
    + unfold bind, repaint, ret, lift, showToast, emit, modify.
      eexists. split; reflexivity.
    + cbn [this browser items quota]. fold vs vc. unfold cost. lia.
Qed.

(** The in-memory effect of a toggle on a type with a numeric counter,
    in terms of lookups. *)
Lemma toggleWorkout_lookups now ty w w' r x n other y :
  JsObject.get (workoutState (this w)) ty = Some x ->
  JsObject.get (workoutCounts (this w)) ty = Some (Num n) ->
  other <> ty ->
  JsObject.get (workoutState (this w)) other = Some y ->
  completed y = false ->
  toggleWorkout now ty w = (w', r) ->
  let today := utils.formatDate now in
  JsObject.get (workoutCounts (this w')) ty = Some (Num (n + 1)) /\
  JsObject.get (workoutState (this w')) ty = Some (mkWorkout true (order x)) /\
  entries_on today (this w') =
    (entries_on today (this w)
       ++ [mkEntry ty (Some (Num (n + 1))) (toISOString now)])%list /\
  (forall day, day <> today ->
     JsObject.get (workoutHistory (this w')) day
     = JsObject.get (workoutHistory (this w)) day).
Proof.
  intros Hx Hn Hother Hy Hinc Hr today.
  apply (toggleWorkout_this now ty w w' r x Hx) in Hr.
  - rewrite Hr. unfold recorded, marked, entries_on. fold today.
    cbn [workoutState workoutCounts workoutHistory].
    rewrite Hx, Hn, !get_set_eq. cbn [plus_one].
    split; [reflexivity|]. split; [reflexivity|].
    destruct (JsObject.get (workoutHistory (this w)) today) as [entries|] eqn:E.
    + rewrite get_set_eq. split; [reflexivity|].
      intros day Hday. apply get_set_ne. congruence.
    + rewrite get_set_eq. split; [reflexivity|].
      intros day Hday. apply get_set_ne. congruence.
  - apply (incomplete_not_allCompleted _ other y); [|exact Hinc].
    unfold marked. cbn [workoutState]. rewrite Hx.
    rewrite get_set_ne by congruence. exact Hy.
Qed.

(** C9: with the Chest counter at 0, Chest incomplete and another type
    incomplete, [toggleWorkout('Chest')] leaves the counter at 1 and the
    flag set, and today's history has gained exactly one entry, for
    Chest with count 1 and the time stamp of [toISOString]; no other day
    changes.  This holds of the instance even if a write is refused. *)
Theorem toggleWorkout_chest_first_click now w w' r x other y :
  JsObject.get (workoutCounts (this w)) "Chest" = Some (Num 0) ->
  JsObject.get (workoutState (this w)) "Chest" = Some x ->
  completed x = false ->
  other <> "Chest" ->
  JsObject.get (workoutState (this w)) other = Some y ->
  completed y = false ->
  toggleWorkout now "Chest" w = (w', r) ->
  let today := utils.formatDate now in
  JsObject.get (workoutCounts (this w')) "Chest" = Some (Num 1) /\
  (exists x', JsObject.get (workoutState (this w')) "Chest" = Some x' /\
              completed x' = true) /\
  entries_on today (this w') =
    (entries_on today (this w)
       ++ [mkEntry "Chest" (Some (Num 1)) (toISOString now)])%list /\
  (forall day, day <> today ->
     JsObject.get (workoutHistory (this w')) day
     = JsObject.get (workoutHistory (this w)) day).
Proof.
  intros Hn Hx _ Hother Hy Hinc Hr today.
  destruct (toggleWorkout_lookups now "Chest" w w' r x 0 other y
              Hx Hn Hother Hy Hinc Hr) as (Hc & Hs & He & Hd).
  split; [exact Hc|]. split; [eauto|]. split; assumption.
Qed.


(** C4: [allCompleted] holds exactly when every entry of the state is
    completed.  When the toggled type was the last one, the call resets
    state and counters once (a single write of each, after the history
    write), keeps the history as recorded, and shows the all-complete
    toast; otherwise it shows the per-type toast and resets nothing. *)
Theorem toggleWorkout_all_complete now ty w w' :
  toggleWorkout now ty w = (w', inr tt) ->
  let s1 := recorded now ty (marked ty (this w)) in
  let history_write :=
    SetItem historyKey (JSON_stringify (json_of_history (workoutHistory s1))) in
  let state_write :=
    SetItem stateKey (JSON_stringify (json_of_state (workoutState (this w')))) in
  let count_write :=
    SetItem countKey (JSON_stringify (json_of_counts (workoutCounts (this w')))) in
  (allCompleted (workoutState s1) = true <->
   Forall (fun kv : string * Workout => completed (snd kv) = true)
     (workoutState s1)) /\
  (allCompleted (workoutState s1) = true ->
     is_reset (this w') /\
     workoutHistory (this w') = workoutHistory s1 /\
     trace (browser w') =
       (trace (browser w) ++
          [history_write; state_write; count_write;
           ShowToast "All workouts completed! Tabs have been reset." "success"])%list) /\
  (allCompleted (workoutState s1) = false ->
     this w' = s1 /\
     trace (browser w') =
       (trace (browser w) ++
          [history_write; state_write; count_write;
           ShowToast (ty ++ " workout marked as complete!") "success"])%list).
Proof.
  intros Hr s1 history_write state_write count_write.
  split; [apply allCompleted_Forall|].
  unfold toggleWorkout in Hr.
  apply bind_inr in Hr as (w0 & [] & [= <-] & Hr).
  apply bind_inr in Hr as (w1 & [] & H1 & Hr).
  apply assign_workout_inr in H1 as (x & Hx & ->).
  cbn [this workoutState workoutCounts workoutHistory browser] in *.
  apply bind_inr in Hr as (w2 & [] & H2 & Hr).
  apply saveWorkoutHistory_inr in H2.
  cbn [this workoutState workoutCounts workoutHistory browser] in H2.
  apply bind_inr in Hr as (w2' & s & [= <- <-] & Hr).
  assert (Hs1 : this w2 = s1).
  { subst w2 s1. cbn [this]. unfold marked. rewrite Hx. reflexivity. }
  rewrite Hs1 in Hr.
  destruct (allCompleted (workoutState s1)) eqn:Eall.
  - split; [intros _|discriminate].
    apply bind_inr in Hr as (w3 & [] & H3 & Hr).
    apply resetWorkoutTabs_inr in H3 as (Hreset & Hh & Hb).
    unfold lift, showToast, emit, modify in Hr. injection Hr as <-.
    cbn [this browser]. split; [exact Hreset|]. split; [congruence|].
    rewrite Hb. subst w2. cbn [log_effect trace browser items quota].
    rewrite <- !app_assoc. subst history_write. rewrite <- Hs1. reflexivity.
  - split; [discriminate|intros _].
    apply bind_inr in Hr as (w3 & [] & H3 & Hr).
    apply saveState_inr in H3.
    apply bind_inr in Hr as (w4 & [] & [= <-] & Hr).
    unfold lift, showToast, emit, modify in Hr. injection Hr as <-.
    subst w3. cbn [this browser]. split; [exact Hs1|].
    subst w2. cbn [log_effect trace browser items quota this].
    rewrite <- !app_assoc. subst history_write state_write count_write.
    cbn [this]. rewrite <- Hs1. reflexivity.
Qed.

Lemma resetDailyWorkouts_inr now w w' :
  resetDailyWorkouts now w = (w', inr tt) ->
  let today := utils.formatDate now in
  is_reset (this w') /\
  workoutHistory (this w') = JsObject.delete (workoutHistory (this w)) today /\
  quota (browser w') = quota (browser w) /\
  (forall k, k <> stateKey -> k <> countKey -> k <> historyKey ->
     items (browser w') !! k = items (browser w) !! k) /\
  exists delta,
    trace (browser w') = (trace (browser w) ++ delta)%list /\
    writes_to stateKey delta = 1 /\ writes_to countKey delta = 1 /\
    writes_to lastResetKey delta = 0.
Proof.
  intros Hr today. unfold resetDailyWorkouts in Hr.
  apply bind_inr in Hr as (w1 & [] & H1 & Hr).
  apply resetWorkoutTabs_inr in H1 as (Hreset & Hh & Hb).
  apply bind_inr in Hr as (w1' & s & [= <- <-] & Hr).
  fold today in Hr.
  destruct (JsObject.has (workoutHistory (this w1)) today) eqn:Ehas;
    cbn [when] in Hr.
  - apply bind_inr in Hr as (w2 & [] & [= <-] & Hr).
    apply bind_inr in Hr as (w2' & s' & [= <- <-] & Hr).
    apply lift_setItem_inr in Hr. subst w'.
    cbn [this browser workoutState workoutCounts workoutHistory items quota trace].
    rewrite Hb, Hh. cbn [items quota trace].
    split; [exact Hreset|]. split; [reflexivity|]. split; [reflexivity|].
    split.
    + intros k Hs Hc Hk. rewrite !lookup_insert_ne by congruence. reflexivity.
    + eexists. rewrite <- app_assoc. split; [reflexivity|].
      repeat split; reflexivity.
  - injection Hr as <-. rewrite Hb. cbn [items quota trace].
    split; [exact Hreset|]. split.
    + rewrite Hh. apply has_false_iff in Ehas. rewrite Hh in Ehas.
      clear -Ehas. induction (workoutHistory (this w)) as [|[k v] l IH];
        cbn in *; [reflexivity|].
      destruct (String.eqb k today); [discriminate|]. rewrite <- IH; auto.
    + split; [reflexivity|]. split.
      * intros k Hs Hc Hk. rewrite !lookup_insert_ne by congruence. reflexivity.
      * eexists. split; [reflexivity|]. repeat split; reflexivity.
Qed.

(** C7: the user-triggered reset leaves every canonical type incomplete
    at its canonical index with a zero counter and does not touch the
    history, today's bucket included; the daily reset does the same and
    removes today's bucket, every other day being kept. *)
Theorem reset_with_and_without_history now w :
  (forall w', resetWorkoutTabs w = (w', inr tt) ->
     is_reset (this w') /\
     workoutHistory (this w') = workoutHistory (this w)) /\
  (forall w', resetDailyWorkouts now w = (w', inr tt) ->
     is_reset (this w') /\
     JsObject.get (workoutHistory (this w')) (utils.formatDate now) = None /\
     forall day, day <> utils.formatDate now ->
       JsObject.get (workoutHistory (this w')) day
       = JsObject.get (workoutHistory (this w)) day).
Proof.
  split; intros w' Hr.
  - apply resetWorkoutTabs_inr in Hr as (Hreset & Hh & _). auto.
  - apply resetDailyWorkouts_inr in Hr as (Hreset & Hh & _).
    split; [exact Hreset|]. rewrite Hh. split.
    + apply get_delete_eq.
    + intros day Hday. apply get_delete_ne. congruence.
Qed.

(** C3: a call that returns leaves everything as it was when the stored
    marker is today's date; otherwise it has reset the tracker once,
    dropped today's bucket and set the marker to today, however old the
    marker was.  A second call on the same date then does nothing, so the
    two calls together make at most one reset and one marker update. *)
Theorem checkAndResetDailyWorkouts_once now again w w' :
  checkAndResetDailyWorkouts now w = (w', inr tt) ->
  utils.formatDate again = utils.formatDate now ->
  let today := utils.formatDate now in
  let marker := items (browser w) !! lastResetKey in
  (marker = Some today -> w' = w) /\
  (marker <> Some today ->
     is_reset (this w') /\
     JsObject.get (workoutHistory (this w')) today = None /\
     items (browser w') !! lastResetKey = Some today /\
     exists delta,
       trace (browser w') = (trace (browser w) ++ delta)%list /\
       writes_to stateKey delta = 1 /\ writes_to countKey delta = 1 /\
       writes_to lastResetKey delta = 1) /\
  checkAndResetDailyWorkouts again w' = (w', inr tt).
Proof.
  intros Hr Hsame today marker.
  unfold checkAndResetDailyWorkouts in Hr.
  apply bind_inr in Hr as (w0 & last & Hget & Hr).
  unfold lift, localStorage.getItem in Hget. injection Hget as <- <-.
  fold today in Hr. fold marker in Hr.
  assert (Hagain : forall w2, items (browser w2) !! lastResetKey = Some today ->
            checkAndResetDailyWorkouts again w2 = (w2, inr tt)).
  { intros w2 Hm. unfold checkAndResetDailyWorkouts, bind, lift, localStorage.getItem.
    rewrite Hsame. fold today. rewrite Hm.
    rewrite bool_decide_eq_true_2 by reflexivity. destruct w2; reflexivity. }
  destruct (decide (marker = Some today)) as [Heq|Hne].
  - rewrite bool_decide_eq_true_2 in Hr by exact Heq.
    injection Hr as <-.
    split; [destruct w; reflexivity|]. split; [contradiction|].
    apply Hagain. exact Heq.
  - rewrite bool_decide_eq_false_2 in Hr by exact Hne. cbn [negb when] in Hr.
    apply bind_inr in Hr as (w1 & [] & H1 & H2).
    apply resetDailyWorkouts_inr in H1
      as (Hreset & Hh & Hq & Hitems & delta & Htr & Hs & Hc & Hm).
    apply lift_setItem_inr in H2. subst w'.
    cbn [this browser items quota trace].
    split; [intros; contradiction|]. split.
    + intros _. split; [exact Hreset|]. split.
      * rewrite Hh. apply get_delete_eq.
      * split; [apply lookup_insert_eq|].
        exists (delta ++ [SetItem lastResetKey today])%list.
        rewrite Htr, <- app_assoc. split; [reflexivity|].
        unfold writes_to in *. rewrite !List.filter_app, !length_app.
        rewrite Hs, Hc, Hm. repeat split; reflexivity.
    + apply Hagain. cbn [browser items]. apply lookup_insert_eq.
Qed.
End TrackerFacts.

(** ** Display order of the workout tabs *)

Section DisplayOrder.
Import WorkoutTracker TrackerSpec.

Lemma insert_incomplete x inc comp :
  is_incomplete x = true ->
  List.Forall (fun a => is_incomplete a = true) inc ->
  List.Forall (fun a => is_completed a = true) comp ->
  sort_insert compareWorkouts x (inc ++ comp)
  = (sort_insert byOrder x inc ++ comp)%list.
Proof.
  unfold is_incomplete, is_completed. intros Hx Hinc Hcomp.
  induction Hinc as [|y inc Hy Hinc IH]; cbn.
  - destruct Hcomp as [|z comp Hz Hcomp]; cbn; [reflexivity|].
    unfold compareWorkouts. destruct (completed (snd x)); [discriminate|].
    rewrite Hz. reflexivity.
  - unfold compareWorkouts at 1, byOrder at 1.
    destruct (completed (snd x)); [discriminate|].
    destruct (completed (snd y)); [discriminate|]. cbn.
    destruct (_ <=? 0)%Z; [reflexivity|]. rewrite IH. reflexivity.
Qed.

Lemma insert_completed x inc comp :
  is_completed x = true ->
  List.Forall (fun a => is_incomplete a = true) inc ->
  List.Forall (fun a => is_completed a = true) comp ->
  sort_insert compareWorkouts x (inc ++ comp)
  = (inc ++ sort_insert byOrder x comp)%list.
Proof.
  unfold is_incomplete, is_completed. intros Hx Hinc Hcomp.
  induction Hinc as [|y inc Hy Hinc IH]; cbn.
  - induction Hcomp as [|z comp Hz Hcomp IHc]; cbn; [reflexivity|].
    unfold compareWorkouts at 1, byOrder at 1. rewrite Hx, Hz. cbn.
    destruct (_ <=? 0)%Z; [reflexivity|]. rewrite IHc. reflexivity.
  - unfold compareWorkouts at 1. rewrite Hx.
    destruct (completed (snd y)); [discriminate|]. cbn.
    rewrite IH. reflexivity.
Qed.

Lemma compareWorkouts_split st :
  Array_sort compareWorkouts st
  = (Array_sort byOrder (List.filter is_incomplete st)
       ++ Array_sort byOrder (List.filter is_completed st))%list.
Proof.
  induction st as [|x st IH]; cbn [Array_sort List.filter]; [reflexivity|].
  rewrite IH.
  assert (Hinc : List.Forall (fun a => is_incomplete a = true)
                   (Array_sort byOrder (List.filter is_incomplete st))).
  { apply Array_sort_Forall, List.Forall_forall. intros a Ha.
    apply filter_In in Ha. tauto. }
  assert (Hcomp : List.Forall (fun a => is_completed a = true)
                    (Array_sort byOrder (List.filter is_completed st))).
  { apply Array_sort_Forall, List.Forall_forall. intros a Ha.
    apply filter_In in Ha. tauto. }
  destruct (completed (snd x)) eqn:Ex.
  - assert (Hc : is_completed x = true) by exact Ex.
    assert (Hi : is_incomplete x = false)
      by (unfold is_incomplete; rewrite Ex; reflexivity).
    rewrite Hc, Hi. cbn [Array_sort]. apply insert_completed; auto.
  - assert (Hc : is_completed x = false) by exact Ex.
    assert (Hi : is_incomplete x = true)
      by (unfold is_incomplete; rewrite Ex; reflexivity).
    rewrite Hc, Hi. cbn [Array_sort]. apply insert_incomplete; auto.
Qed.

Lemma byOrder_sorted l : StronglySorted order_le (Array_sort byOrder l).
Proof.
  eapply StronglySorted_weaken; [|apply Array_sort_sorted].
  - unfold cmp_le, byOrder, order_le. intros a b. cbn. lia.
  - unfold cmp_le, byOrder. intros x y. lia.
  - unfold cmp_le, byOrder. intros x y z. lia.
Qed.

(** C8: the order of the tabs is a function of [workoutState] alone: the
    incomplete entries come first and the completed ones after them, each
    group in ascending [order]; the counters only decide the badges.  For
    the types A, B, C with B completed the tabs read A, C, B whatever the
    counters are. *)
Theorem display_order_partition st counts history :
  let shown := map tab_type (renderWorkoutTabs (mk st counts history)) in
  (exists incomplete completed,
     shown = (map fst incomplete ++ map fst completed)%list /\
     Permutation incomplete (List.filter is_incomplete st) /\
     Permutation completed (List.filter is_completed st) /\
     StronglySorted order_le incomplete /\
     StronglySorted order_le completed) /\
  shown = sortedWorkouts st /\
  forall b_order,
    map tab_type
      (renderWorkoutTabs
         (mk [("A", mkWorkout false 0); ("B", mkWorkout true b_order);
              ("C", mkWorkout false 2)] counts history))
    = ["A"; "C"; "B"].
Proof.
  intros shown.
  assert (Hshown : shown = sortedWorkouts st).
  { subst shown. unfold renderWorkoutTabs. rewrite map_map. cbn [tab_type].
    apply map_id. }
  split; [|split; [exact Hshown|]].
  - exists (Array_sort byOrder (List.filter is_incomplete st)),
           (Array_sort byOrder (List.filter is_completed st)).
    split; [|split; [|split; [|split]]].
    + rewrite Hshown. unfold sortedWorkouts.
      rewrite compareWorkouts_split, map_app. reflexivity.
    + apply Array_sort_perm.
    + apply Array_sort_perm.
    + apply byOrder_sorted.
    + apply byOrder_sorted.
  - intros b_order. unfold renderWorkoutTabs. rewrite map_map. cbn [tab_type].
    rewrite map_id. reflexivity.
Qed.
End DisplayOrder.

(** ** Pruning of old history *)

Section DateOrder.
Import DateKey.

Lemma ascii_compare_nat c1 c2 :
  Ascii.compare c1 c2 = Nat.compare (nat_of_ascii c1) (nat_of_ascii c2).
Proof.
  unfold Ascii.compare, nat_of_ascii. rewrite N2Nat.inj_compare. reflexivity.
Qed.

Lemma is_digit_range c :
  is_digit c = true -> 48 <= nat_of_ascii c <= 57.
Proof.
  unfold is_digit. intros Hd. apply andb_prop in Hd as [H1 H2].
  apply Nat.leb_le in H1, H2. lia.
Qed.

Lemma is_digit_offset c :
  is_digit c = true ->
  exists x, nat_of_ascii c = 48 + x /\ x <= 9 /\ digit c = x.
Proof.
  intros Hd. apply is_digit_range in Hd. exists (nat_of_ascii c - 48).
  unfold digit. lia.
Qed.

Lemma compare_offset x y : Nat.compare (48 + x) (48 + y) = Nat.compare x y.
Proof. reflexivity. Qed.

(** On well-formed keys the order of [sort()] is the calendar order. *)
Lemma compare_earlier a b :
  well_formed a = true -> well_formed b = true ->
  (String.compare a b = Lt <-> earlier a b).
Proof.
  unfold well_formed, earlier, ymd.
  destruct a as [|a1 [|a2 [|a3 [|a4 [|a5 [|a6 [|a7 [|a8 [|a9 [|a10 [|? ?]]]]]]]]]]];
    cbn [String.list_ascii_of_string]; try discriminate.
  destruct b as [|b1 [|b2 [|b3 [|b4 [|b5 [|b6 [|b7 [|b8 [|b9 [|b10 [|? ?]]]]]]]]]]];
    cbn [String.list_ascii_of_string]; try discriminate.
  rewrite !andb_true_iff. intros Ha Hb.
  destruct Ha as (((((((((A1 & A2) & A3) & A4) & A5) & A6) & A7) & A8) & A9) & A10).
  destruct Hb as (((((((((B1 & B2) & B3) & B4) & B5) & B6) & B7) & B8) & B9) & B10).
  apply Ascii.eqb_eq in A5, A8, B5, B8. subst a5 a8 b5 b8.
  cbn [String.compare]. rewrite !ascii_compare_nat.
  change (nat_of_ascii "-") with 45. rewrite !Nat.compare_refl. cbv match.
  repeat match goal with
         | Hd : is_digit ?c = true |- _ =>
             let x := fresh "x" in
             let E := fresh "E" in
             let Hx := fresh "Hx" in
             let D := fresh "D" in
             destruct (is_digit_offset c Hd) as (x & E & Hx & D);
             rewrite E, D; clear E D Hd
         end.
  rewrite !compare_offset.
  repeat lazymatch goal with
         | |- (match Nat.compare ?x ?y with _ => _ end = Lt) <-> _ =>
             destruct (Nat.compare_spec x y);
             [ subst | split; [intros _; lia | reflexivity]
               | split; [discriminate | intros; lia] ]
         end.
  split; [discriminate | intros; lia].
Qed.
End DateOrder.

Section DeleteFacts.
Context {V : Type}.
Implicit Types (o : list (string * V)).

Lemma delete_filter o k :
  JsObject.delete o k
  = List.filter (fun kv => negb (String.eqb (fst kv) k)) o.
Proof.
  induction o as [|[k' v] o IH]; cbn; [reflexivity|].
  destruct (String.eqb k' k); cbn; rewrite IH; reflexivity.
Qed.

Lemma In_delete o k e :
  In e (JsObject.delete o k) <-> In e o /\ fst e <> k.
Proof.
  rewrite delete_filter, filter_In, negb_true_iff.
  destruct (String.eqb_spec (fst e) k); split; intros [? ?]; split;
    congruence || auto.
Qed.

Lemma delete_sublist o k : sublist (JsObject.delete o k) o.
Proof.
  induction o as [|[k' v] o IH]; cbn; [constructor|].
  destruct (String.eqb k' k); [apply sublist_cons|apply sublist_skip]; exact IH.
Qed.

Lemma In_delete_all rem : forall o e,
  In e (fold_left JsObject.delete rem o) <-> In e o /\ ~ In (fst e) rem.
Proof.
  induction rem as [|r rem IH]; intros o e; cbn [fold_left].
  - cbn. tauto.
  - rewrite IH, In_delete. cbn. intuition congruence.
Qed.

Lemma delete_all_sublist rem : forall o,
  sublist (fold_left JsObject.delete rem o) o.
Proof.
  induction rem as [|r rem IH]; intros o; cbn [fold_left]; [reflexivity|].
  etransitivity; [apply IH|apply delete_sublist].
Qed.

Lemma keys_sublist o o' :
  sublist o o' -> sublist (JsObject.keys o) (JsObject.keys o').
Proof. unfold JsObject.keys. intros Hs. apply (fmap_sublist fst _ _ Hs). Qed.

Lemma In_keys o k : In k (JsObject.keys o) <-> exists v, In (k, v) o.
Proof.
  unfold JsObject.keys. rewrite in_map_iff. split.
  - intros ([k' v] & <- & Hin). eauto.
  - intros (v & Hin). exists (k, v). auto.
Qed.
End DeleteFacts.

Section RetainedFacts.
Context {V : Type}.
Implicit Types (fields : list (string * V)).
Import DateKey.

Lemma datesToRemove_incl keys r :
  In r (datesToRemove keys) -> In r keys.
Proof.
  unfold datesToRemove. intros Hr.
  eapply Permutation_in; [apply Array_sort_perm|].
  rewrite <- (take_drop (length (Array_sort default_compare keys) - 90)).
  apply in_or_app. left. exact Hr.
Qed.

Lemma datesToRemove_length keys :
  length (datesToRemove keys) = length keys - 90.
Proof.
  unfold datesToRemove. rewrite length_take, Array_sort_length. lia.
Qed.

Lemma datesToRemove_NoDup keys :
  List.NoDup keys -> List.NoDup (datesToRemove keys).
Proof.
  intros Hnd. unfold datesToRemove.
  assert (Hs : List.NoDup (Array_sort default_compare keys)).
  { eapply Permutation_NoDup; [symmetry; apply Array_sort_perm|exact Hnd]. }
  rewrite <- (take_drop (length (Array_sort default_compare keys) - 90)) in Hs.
  apply List.NoDup_app_remove_r in Hs. exact Hs.
Qed.

(** Every removed key sorts strictly before every key that stays, and
    the removed keys are taken in ascending order. *)
Lemma datesToRemove_before keys :
  List.NoDup keys ->
  StronglySorted (fun x y => String.compare x y = Lt) (datesToRemove keys) /\
  forall r k, In r (datesToRemove keys) -> In k keys ->
              ~ In k (datesToRemove keys) -> String.compare r k = Lt.
Proof.
  intros Hnd. unfold datesToRemove.
  set (dates := Array_sort default_compare keys).
  set (n := length dates - 90).
  pose proof (sort_strings_strict keys Hnd) as Hs. fold dates in Hs.
  rewrite <- (take_drop n dates) in Hs.
  apply StronglySorted_app_inv in Hs as (Htake & _ & Hcross).
  split; [exact Htake|].
  intros r k Hr Hk Hnot. apply Hcross; [exact Hr|].
  assert (Hin : In k dates).
  { eapply Permutation_in; [symmetry; apply Array_sort_perm|exact Hk]. }
  rewrite <- (take_drop n dates) in Hin.
  apply in_app_or in Hin as [Hin|Hin]; [contradiction|exact Hin].
Qed.

Lemma retained_keys fields k :
  In k (JsObject.keys (retained fields)) <->
  In k (JsObject.keys fields) /\ ~ In k (datesToRemove (JsObject.keys fields)).
Proof.
  unfold retained. rewrite !In_keys. split.
  - intros (v & Hin). apply In_delete_all in Hin as [Hin Hnot]. eauto.
  - intros [(v & Hin) Hnot]. exists v. apply In_delete_all. auto.
Qed.

Lemma retained_sublist fields : sublist (retained fields) fields.
Proof. apply delete_all_sublist. Qed.

Lemma retained_length fields :
  List.NoDup (JsObject.keys fields) ->
  length (retained fields) = length fields - (length fields - 90).
Proof.
  intros Hnd.
  set (rem := datesToRemove (JsObject.keys fields)).
  assert (Hperm : Permutation (JsObject.keys fields)
                    (rem ++ JsObject.keys (retained fields))).
  { apply Permutation.NoDup_Permutation; [exact Hnd| |].
    - apply List.NoDup_app; [apply datesToRemove_NoDup, Hnd| |].
      + apply (proj1 (NoDup_ListNoDup _)).
        eapply sublist_NoDup; [apply (proj2 (NoDup_ListNoDup _)), Hnd|].
        apply keys_sublist, retained_sublist.
      + intros k Hrem Hkept. apply retained_keys in Hkept as [_ Hnot].
        contradiction.
    - intros k. rewrite in_app_iff, retained_keys. split.
      + intros Hk. destruct (in_dec String.string_dec k rem); auto.
      + intros [Hrem|[Hk _]]; [apply datesToRemove_incl, Hrem|exact Hk]. }
  apply Permutation_length in Hperm.
  rewrite length_app in Hperm. subst rem.
  rewrite datesToRemove_length in Hperm.
  unfold JsObject.keys in Hperm. rewrite !length_map in Hperm. lia.
Qed.

Lemma retained_unchanged fields :
  length fields <= 90 -> retained fields = fields.
Proof.
  intros Hle. unfold retained, datesToRemove.
  rewrite Array_sort_length. unfold JsObject.keys. rewrite length_map.
  replace (length fields - 90) with 0 by lia. reflexivity.
Qed.
End RetainedFacts.

Section CleanupFacts.
Context `{Builtins}.
Import storageManager CleanupSpec DateKey.

Lemma touches_refl key f : touches key f f.
Proof. split; auto. Qed.

Lemma lift_setItem_touches key v f f' r :
  lift (localStorage.setItem key v) f = (f', r) ->
  cleanedUp f' = cleanedUp f /\
  (browser f' = browser f \/
   exists v,
     getUsage (<[key := v]> (items (browser f))) <= quota (browser f) /\
     browser f' =
       mkBrowser (<[key := v]> (items (browser f))) (quota (browser f))
         (trace (browser f) ++ [SetItem key v])).
Proof.
  unfold lift, localStorage.setItem. case_decide; intros [= <- _]; cbn.
  - split; [reflexivity|]. right. eauto.
  - split; [reflexivity|]. left. reflexivity.
Qed.

Lemma prune_habits_frame habits : forall f f' r,
  prune_habits habits f = (f', r) ->
  browser f' = browser f /\ (cleanedUp f = true -> cleanedUp f' = true).
Proof.
  induction habits as [|habit rest IH]; intros f f' r; cbn [prune_habits].
  - intros [= <- _]. auto.
  - unfold bind at 1, of_sum.
    destruct (prune_habit habit) as [e|[habit' pruned]]; cbn [throw ret].
    + intros [= <- _]. auto.
    + unfold bind at 1.
      destruct pruned; cbn [snd when set_cleanedUp modify ret];
        unfold bind at 1;
        match goal with
        | |- context [prune_habits rest ?f1] =>
            destruct (prune_habits rest f1) as [f2 [e|rest']] eqn:E;
            apply IH in E as [Hb Hc]; cbn in Hb, Hc
        end;
        intros [= <- _]; auto.
Qed.

Lemma cleanupKey_touches key f f' r :
  cleanupKey key f = (f', r) -> touches key f f'.
Proof.
  destruct f as [b c].
  unfold cleanupKey. unfold bind at 1, lift at 1, localStorage.getItem.
  cbn [browser cleanedUp].
  destruct (items b !! key) as [historyData|];
    [|intros [= <- _]; apply touches_refl].
  destruct (String.eqb historyData ""); [intros [= <- _]; apply touches_refl|].
  unfold bind at 1.
  destruct (JSON_parse historyData) as [history|]; cbn [ret throw];
    [|intros [= <- _]; apply touches_refl].
  destruct (typeof_object history); cbn [negb];
    [|intros [= <- _]; apply touches_refl].
  destruct (String.eqb key "habits_data").
  - destruct history; try (intros [= <- _]; apply touches_refl).
    unfold bind.
    destruct (prune_habits elems _) as [f1 [e|habits']] eqn:E;
      apply prune_habits_frame in E as [Hb Hc]; cbn in Hb, Hc.
    + intros [= <- _]. split; auto.
    + intros Hset. apply lift_setItem_touches in Hset as [Hflag Hw].
      split; [rewrite Hflag; exact Hc|]. rewrite Hb in Hw. exact Hw.
  - unfold bind at 1, of_sum.
    destruct (prune history) as [e|[history' pruned]]; cbn [throw ret];
      [intros [= <- _]; apply touches_refl|].
    destruct pruned; cbn [snd fst when];
      [|intros [= <- _]; apply touches_refl].
    unfold bind.
    destruct (lift _ _) as [f1 [e|[]]] eqn:E;
      apply lift_setItem_touches in E as [Hflag Hw]; cbn in Hw.
    + intros [= <- _]. split; [rewrite Hflag; auto|exact Hw].
    + unfold set_cleanedUp, modify. intros [= <- _]. cbn. split; auto.
Qed.

(** A round for another key leaves [key] alone. *)
Lemma step_frame j f :
  exists f',
    step j f = (f', inr tt) /\
    quota (browser f') = quota (browser f) /\
    (within_quota (browser f) -> within_quota (browser f')) /\
    (cleanedUp f = true -> cleanedUp f' = true) /\
    forall key, key <> j ->
      items (browser f') !! key = items (browser f) !! key /\
      writes_to key (trace (browser f')) = writes_to key (trace (browser f)).
Proof.
  unfold step, try_catch.
  destruct (cleanupKey j f) as [f1 r] eqn:E.
  pose proof (cleanupKey_touches _ _ _ _ E) as [Hflag Hw].
  exists f1. split; [destruct r as [e|[]]; reflexivity|].
  destruct Hw as [->|(v & Hfit & ->)]; cbn [items quota trace].
  - repeat split; auto.
  - split; [reflexivity|]. split; [intros _; exact Hfit|].
    split; [exact Hflag|]. intros key Hne. split.
    + apply lookup_insert_ne. congruence.
    + unfold writes_to. rewrite List.filter_app, length_app. cbn.
      destruct (String.eqb_spec j key); [congruence|]. cbn. lia.
Qed.

Lemma steps_frame (l : list string) : forall f,
  exists f',
    for_each l step f = (f', inr tt) /\
    quota (browser f') = quota (browser f) /\
    (within_quota (browser f) -> within_quota (browser f')) /\
    (cleanedUp f = true -> cleanedUp f' = true) /\
    forall key, ~ In key l ->
      items (browser f') !! key = items (browser f) !! key /\
      writes_to key (trace (browser f')) = writes_to key (trace (browser f)).
Proof.
  induction l as [|j l IH]; intros f; cbn [for_each].
  - exists f. repeat split; auto.
  - destruct (step_frame j f) as (f1 & Hrun & Hq & Hwq & Hflag & Hkeep).
    destruct (IH f1) as (f2 & Hrun2 & Hq2 & Hwq2 & Hflag2 & Hkeep2).
    exists f2. unfold bind. rewrite Hrun. split; [exact Hrun2|].
    split; [congruence|]. split; [auto|]. split; [auto|].
    intros key Hnot. cbn in Hnot.
    destruct (Hkeep key) as [Hi Hw]; [intros ->; tauto|].
    destruct (Hkeep2 key) as [Hi2 Hw2]; [tauto|].
    split; congruence.
Qed.

Lemma for_each_app {S A} (l1 l2 : list A) (g : A -> M S unit) f :
  for_each (l1 ++ l2) g f = bind (for_each l1 g) (fun _ => for_each l2 g) f.
Proof.
  revert f. induction l1 as [|x l1 IH]; intros f; cbn [for_each app].
  - reflexivity.
  - unfold bind. destruct (g x f) as [f1 [e|[]]]; [reflexivity|].
    rewrite IH. reflexivity.
Qed.

Lemma delete_properties_object rem : forall fields,
  fold_left delete_property rem (JObj fields)
  = JObj (fold_left JsObject.delete rem fields).
Proof.
  induction rem as [|r rem IH]; intros fields; cbn [fold_left]; [reflexivity|].
  cbn [delete_property]. apply IH.
Qed.

Lemma prune_object fields :
  prune (JObj fields)
  = inr (if (90 <? length fields)%nat then (JObj (retained fields), true)
         else (JObj fields, false)).
Proof.
  unfold prune, Object_keys. cbv zeta.
  rewrite Array_sort_length. unfold JsObject.keys at 1. rewrite length_map.
  destruct (90 <? length fields)%nat; [|reflexivity].
  rewrite delete_properties_object. unfold retained, datesToRemove.
  rewrite Array_sort_length. reflexivity.
Qed.

(** The same pruning applies to the nested history of a habit. *)
Lemma prune_habit_history habit fields :
  JsObject.get habit "history" = Some (JObj fields) ->
  prune_habit (JObj habit)
  = inr (if (90 <? length fields)%nat
         then (JObj (JsObject.set habit "history" (JObj (retained fields))), true)
         else (JObj habit, false)).
Proof.
  intros Hh. unfold prune_habit. rewrite Hh. cbn [truthy].
  rewrite prune_object. destruct (90 <? length fields)%nat; reflexivity.
Qed.

(** The round for a date-keyed store. *)
Lemma step_target key raw fields f :
  key <> "habits_data" ->
  within_quota (browser f) ->
  items (browser f) !! key = Some raw ->
  raw <> "" ->
  JSON_parse raw = Some (JObj fields) ->
  (90 < length fields ->
   String.length (JSON_stringify (JObj (retained fields))) <= String.length raw) ->
  step key f =
    if (90 <? length fields)%nat then
      let v := JSON_stringify (JObj (retained fields)) in
      (mkFrame (mkBrowser (<[key := v]> (items (browser f)))
                  (quota (browser f)) (trace (browser f) ++ [SetItem key v]))
         true, inr tt)
    else (f, inr tt).
Proof.
  intros Hkey Hq Hraw Hne Hparse Hfit. destruct f as [b c].
  cbn [browser cleanedUp] in *.
  unfold step, try_catch, cleanupKey.
  unfold bind at 1, lift at 1, localStorage.getItem. cbn [browser cleanedUp].
  rewrite Hraw.
  destruct (String.eqb_spec raw ""); [contradiction|].
  unfold bind at 1. rewrite Hparse. cbn [ret typeof_object negb].
  destruct (String.eqb_spec key "habits_data"); [contradiction|].
  unfold bind at 1, of_sum. rewrite prune_object. cbn [ret].
  destruct (Nat.ltb_spec 90 (length fields)) as [Hlt|Hle]; cbn [snd fst when];
    [|reflexivity].
  unfold bind, lift, localStorage.setItem. cbn [browser cleanedUp].
  rewrite decide_True; [reflexivity|].
  pose proof (getUsage_replace (items b) key raw
                (JSON_stringify (JObj (retained fields))) Hraw) as Hu.
  specialize (Hfit Hlt). unfold within_quota in Hq. lia.
Qed.

Lemma cleanupOldData_at l1 key l2 raw fields b :
  historyKeys = (l1 ++ key :: l2)%list ->
  ~ In key l1 -> ~ In key l2 -> key <> "habits_data" ->
  within_quota b ->
  items b !! key = Some raw ->
  raw <> "" ->
  JSON_parse raw = Some (JObj fields) ->
  (90 < length fields ->
   String.length (JSON_stringify (JObj (retained fields))) <= String.length raw) ->
  exists b' cleaned,
    cleanupOldData b = (b', inr cleaned) /\
    if (90 <? length fields)%nat then
      items b' !! key = Some (JSON_stringify (JObj (retained fields))) /\
      cleaned = true
    else
      items b' !! key = Some raw /\
      writes_to key (trace b') = writes_to key (trace b).
Proof.
  intros Hkeys Hn1 Hn2 Hkey Hq Hraw Hne Hparse Hfit.
  unfold cleanupOldData.
  change (for_each historyKeys _) with (for_each historyKeys step).
  rewrite Hkeys, for_each_app. unfold bind at 1.
  destruct (steps_frame l1 (mkFrame b false))
    as (f1 & Hrun1 & Hq1 & Hwq1 & _ & Hkeep1).
  rewrite Hrun1. cbn [for_each]. unfold bind at 1.
  destruct (Hkeep1 key Hn1) as [Hi1 Hw1]. cbn [browser] in *.
  rewrite (step_target key raw fields f1 Hkey (Hwq1 Hq)
             (eq_trans Hi1 Hraw) Hne Hparse Hfit).
  destruct (Nat.ltb_spec 90 (length fields)) as [Hlt|Hle]; cbv beta iota zeta.
  - match goal with
    | |- context [for_each l2 step ?f2] =>
        destruct (steps_frame l2 f2) as (f3 & Hrun3 & _ & _ & Hflag3 & Hkeep3)
    end.
    rewrite Hrun3. exists (browser f3), (cleanedUp f3).
    split; [reflexivity|]. destruct (Hkeep3 key Hn2) as [Hi3 _].
    cbn [browser items cleanedUp] in *. split.
    + rewrite Hi3. apply lookup_insert_eq.
    + apply Hflag3. reflexivity.
  - destruct (steps_frame l2 f1) as (f3 & Hrun3 & _ & _ & _ & Hkeep3).
    rewrite Hrun3. exists (browser f3), (cleanedUp f3).
    split; [reflexivity|]. destruct (Hkeep3 key Hn2) as [Hi3 Hw3].
    split; congruence.
Qed.

(** C6: for a stored date-keyed history with more than 90 well-formed
    date keys, [cleanupOldData] writes back the object with exactly 90
    keys, every removed day lying before every day that stays, the
    removals going from the oldest on, and it returns [true]; with at
    most 90 keys the stored value is left as it is and not rewritten. *)
Theorem cleanupOldData_keeps_last_90 key raw fields b :
  In key history_stores ->
  within_quota b ->
  items b !! key = Some raw ->
  raw <> "" ->
  JSON_parse raw = Some (JObj fields) ->
  List.NoDup (JsObject.keys fields) ->
  List.Forall (fun k => well_formed k = true) (JsObject.keys fields) ->
  (90 < length fields ->
   String.length (JSON_stringify (JObj (retained fields))) <= String.length raw) ->
  exists b' cleaned,
    cleanupOldData b = (b', inr cleaned) /\
    if (90 <? length fields)%nat then
      let removed := datesToRemove (JsObject.keys fields) in
      let kept := retained fields in
      items b' !! key = Some (JSON_stringify (JObj kept)) /\
      cleaned = true /\
      length kept = 90 /\
      sublist kept fields /\
      (forall k, In k (JsObject.keys fields) ->
                 (In k removed <-> ~ In k (JsObject.keys kept))) /\
      (forall r k, In r removed -> In k (JsObject.keys kept) -> earlier r k) /\
      StronglySorted earlier removed
    else
      items b' !! key = Some raw /\
      writes_to key (trace b') = writes_to key (trace b).
Proof.
  intros Hkey Hq Hraw Hne Hparse Hnd Hwf Hfit.
  assert (Hat : exists l1 l2,
             historyKeys = (l1 ++ key :: l2)%list /\
             ~ In key l1 /\ ~ In key l2 /\ key <> "habits_data").
  { unfold history_stores in Hkey. cbn in Hkey.
    destruct Hkey as [<-|[<-|[<-|[]]]].
    - exists [], ["history_protein"; "workout_history"; "habits_data"].
      repeat split; cbn; intuition discriminate.
    - exists ["history_water"], ["workout_history"; "habits_data"].
      repeat split; cbn; intuition discriminate.
    - exists ["history_water"; "history_protein"], ["habits_data"].
      repeat split; cbn; intuition discriminate. }
  destruct Hat as (l1 & l2 & Hkeys & Hn1 & Hn2 & Hhab).
  destruct (cleanupOldData_at l1 key l2 raw fields b
              Hkeys Hn1 Hn2 Hhab Hq Hraw Hne Hparse Hfit)
    as (b' & cleaned & Hrun & Hres).
  exists b', cleaned. split; [exact Hrun|].
  destruct (Nat.ltb_spec 90 (length fields)) as [Hlt|Hle]; [|exact Hres].
  destruct Hres as [Hitem Hcleaned]. cbv zeta.
  rewrite List.Forall_forall in Hwf.
  destruct (datesToRemove_before (JsObject.keys fields) Hnd) as [Hsorted Hcross].
  split; [exact Hitem|]. split; [exact Hcleaned|].
  split; [rewrite retained_length by exact Hnd; lia|].
  split; [apply retained_sublist|]. split; [|split].
  - intros k Hk. rewrite retained_keys. split; [tauto|].
    intros Hnot.
    destruct (in_dec String.string_dec k (datesToRemove (JsObject.keys fields)));
      tauto.
  - intros r k Hr Hk. apply retained_keys in Hk as [Hk Hnot].
    apply compare_earlier; [apply Hwf, datesToRemove_incl, Hr|apply Hwf, Hk|].
    apply Hcross; assumption.
  - eapply StronglySorted_weaken_In; [|exact Hsorted].
    intros x y Hx Hy Hlt'.
    apply compare_earlier; [apply Hwf, datesToRemove_incl, Hx
                           |apply Hwf, datesToRemove_incl, Hy|exact Hlt'].
Qed.
End CleanupFacts.

(** ** More on import and export *)

Section ImportExportMore.
Context `{Builtins}.
Import STORAGE_KEYS.

Lemma bind_ret_unit {S} (m : M S unit) s : bind m (fun _ => ret tt) s = m s.
Proof. unfold bind, ret. destruct (m s) as [s' [e|[]]]; reflexivity. Qed.

Lemma bind_congr {S A B} (m : M S A) (k k' : A -> M S B) s :
  (forall s' a, k a s' = k' a s') -> bind m k s = bind m k' s.
Proof. intros Hk. unfold bind. destruct (m s) as [s' [e|a]]; [reflexivity|apply Hk]. Qed.

Lemma guarded_prop_prop v name :
  truthy v = true -> guarded_prop (Some v) name = prop v name.
Proof. intros Hv. cbn. rewrite Hv. reflexivity. Qed.

Lemma import_member_field key v name :
  truthy v = true ->
  import_member key (Some v) name = import_field key (guarded_prop (Some v) name).
Proof.
  intros Hv. rewrite guarded_prop_prop by exact Hv.
  unfold import_member, member. destruct v; try discriminate; reflexivity.
Qed.


(** After validation the apply phase is one guarded write per row of the
    table. *)
Lemma applyImport_table doc b :
  truthy_opt (prop doc "water") = true ->
  truthy_opt (prop doc "protein") = true ->
  applyImport doc b
  = for_each (importTable doc) (fun kv => import_field (fst kv) (snd kv)) b.
Proof.
  intros Hw Hp. unfold applyImport, importTable.
  destruct (prop doc "water") as [w|]; [|discriminate].
  destruct (prop doc "protein") as [p|]; [|discriminate].
  cbn [truthy_opt] in Hw, Hp.
  rewrite !(import_member_field _ w) by exact Hw.
  rewrite !(import_member_field _ p) by exact Hp.
  cbn [for_each fst snd]. unfold GOAL_PREFIX, INTAKE_PREFIX, HISTORY_PREFIX, THEME, REMINDER.
  cbn [String.append].
  do 11 (apply bind_congr; intros ? []).
  symmetry. apply bind_ret_unit.
Qed.





End ImportExportMore.

Section ImportExportRoundTrip.
Context `{Builtins}.

Lemma validate_storedDocument now m b :
  fits_import (storedDocument now m) ->
  validate (storedDocument now m) b = (b, inr tt).
Proof.
  unfold fits_import, validate. intros Hfit.
  apply N.ltb_ge in Hfit. rewrite Hfit. reflexivity.
Qed.

Lemma importTable_storedDocument now m :
  importTable (storedDocument now m)
  = map (fun k => (k, Some (of_item (m !! k)))) importKeys.
Proof. reflexivity. Qed.

(** Writing back what the store already holds changes nothing. *)
Lemma reimport_keys (ks : list string) : forall b,
  within_quota b ->
  for_each (map (fun k => (k, Some (of_item (items b !! k)))) ks)
    (fun kv => import_field (fst kv) (snd kv)) b
  = (mkBrowser (items b) (quota b)
       (trace b ++ flat_map (rewrite_of (items b)) ks), inr tt).
Proof.
  induction ks as [|k ks IH]; intros b Hq.
  - cbn. rewrite app_nil_r. destruct b; reflexivity.
  - cbn [map for_each fst snd flat_map]. unfold bind at 1.
    unfold import_field at 1, rewrite_of at 1.
    destruct (items b !! k) as [s|] eqn:Hk; cbn [of_item truthy_opt truthy to_item].
    + destruct (String.eqb s "") eqn:Hs; cbn [negb when ret].
      * apply IH. exact Hq.
      * unfold localStorage.setItem. rewrite (insert_id (items b) k s Hk).
        rewrite decide_True by exact Hq.
        specialize (IH (mkBrowser (items b) (quota b) (trace b ++ [SetItem k s])) Hq).
        cbn [items quota trace] in IH. rewrite IH, <- app_assoc. reflexivity.
    + cbn [when ret]. apply IH. exact Hq.
Qed.

(** X2: importing the document that [exportData] assembles from a store
    into that same store succeeds and leaves every item as it was: the
    only writes put back the non-empty items under their own keys. *)
Theorem export_import_round_trip now file text b :
  within_quota b ->
  readable file text ->
  JSON_parse text = Some (storedDocument now (items b)) ->
  fits_import (storedDocument now (items b)) ->
  importData (Some file) true b
  = (mkBrowser (items b) (quota b)
       (trace b ++ flat_map (rewrite_of (items b)) importKeys
          ++ [ShowToast "Data imported successfully! Reloading app..." "success";
              Reload]), inr tt).
Proof.
  intros Hq Hfile Hparse Hfit.
  rewrite (importData_readable _ _ _ Hfile).
  unfold onload, try_catch, bind. rewrite Hparse. cbn [ret].
  rewrite (validate_storedDocument now (items b) b Hfit). cbn [when].
  unfold localStorage.entries at 1.
  rewrite applyImport_table by reflexivity.
  rewrite importTable_storedDocument, (reimport_keys importKeys b Hq).
  unfold showToast, emit, modify, log_effect. cbn [items quota trace].
  rewrite <- !app_assoc. reflexivity.
Qed.
End ImportExportRoundTrip.

Section Respects.
Variable R : Browser -> Browser -> Prop.
Hypothesis R_refl : forall b, R b b.
Hypothesis R_trans : forall b1 b2 b3, R b1 b2 -> R b2 b3 -> R b1 b3.

Lemma respects_ret {A} (a : A) : respects R (ret a).
Proof. intros b b' r [= <- _]. apply R_refl. Qed.

Lemma respects_throw {A} e : respects R (throw (A := A) e).
Proof. intros b b' r [= <- _]. apply R_refl. Qed.

Lemma respects_bind {A B} (m : M Browser A) (f : A -> M Browser B) :
  respects R m -> (forall a, respects R (f a)) -> respects R (bind m f).
Proof.
  intros Hm Hf b b' r. unfold bind.
  destruct (m b) as [b1 [e|a]] eqn:Hmb.
  - intros [= <- _]. exact (Hm _ _ _ Hmb).
  - intros Hfa. exact (R_trans _ _ _ (Hm _ _ _ Hmb) (Hf _ _ _ _ Hfa)).
Qed.

Lemma respects_try_catch {A} (m : M Browser A) h :
  respects R m -> (forall e, respects R (h e)) -> respects R (try_catch m h).
Proof.
  intros Hm Hh b b' r. unfold try_catch.
  destruct (m b) as [b1 [e|a]] eqn:Hmb.
  - intros Hhe. exact (R_trans _ _ _ (Hm _ _ _ Hmb) (Hh _ _ _ _ Hhe)).
  - intros [= <- _]. exact (Hm _ _ _ Hmb).
Qed.

Lemma respects_when c m : respects R m -> respects R (when c m).
Proof. intros Hm. destruct c; [exact Hm|apply respects_ret]. Qed.

Lemma respects_for_each {A} (l : list A) f :
  (forall x, respects R (f x)) -> respects R (for_each l f).
Proof.
  intros Hf. induction l as [|x l IH]; cbn [for_each].
  - apply respects_ret.
  - apply respects_bind; [apply Hf|intros _; exact IH].
Qed.
End Respects.

Lemma only_toasts_refl b : only_toasts b b.
Proof.
  repeat split. exists []. rewrite app_nil_r. split; [reflexivity|constructor].
Qed.

Lemma only_toasts_trans b1 b2 b3 :
  only_toasts b1 b2 -> only_toasts b2 b3 -> only_toasts b1 b3.
Proof.
  intros (Hi & Hq & ts & Ht & Hts) (Hi' & Hq' & ts' & Ht' & Hts').
  split; [congruence|]. split; [congruence|].
  exists (ts ++ ts')%list. rewrite Ht', Ht, <- app_assoc.
  split; [reflexivity|]. apply List.Forall_app. split; assumption.
Qed.

Lemma showToast_only_toasts message kind : respects only_toasts (showToast message kind).
Proof.
  intros b b' r [= <- _]. repeat split.
  exists [ShowToast message kind]. split; [reflexivity|].
  constructor; [exact I|constructor].
Qed.

Section ImportOutcomes.
Context `{Builtins}.

Lemma validate_only_toasts doc : respects only_toasts (validate doc).
Proof.
  unfold validate.
  repeat first
    [ apply (respects_bind _ only_toasts_trans); [|intros _]
    | apply (respects_when _ only_toasts_refl)
    | apply (respects_throw _ only_toasts_refl)
    | apply (respects_for_each _ only_toasts_refl only_toasts_trans); intros section
    | match goal with
      | |- respects _ (match ?x with _ => _ end) => destruct x
      end
    | apply (respects_ret _ only_toasts_refl)
    | apply showToast_only_toasts ].
Qed.

Lemma showToast_run message kind b :
  showToast message kind b = (log_effect (ShowToast message kind) b, inr tt).
Proof. reflexivity. Qed.

Lemma importData_declined_only_toasts_aux file b :
  exists b', importData file false b = (b', inr tt) /\ only_toasts b b'.
Proof.
  destruct file as [file|]; cbn [importData].
  2:{ exists b. split; [reflexivity|apply only_toasts_refl]. }
  repeat match goal with
         | |- context [if ?c then _ else _] => destruct c
         end;
    try (eexists; split; [apply showToast_run|];
         exact (showToast_only_toasts _ _ _ _ _ (showToast_run _ _ _))).
  destruct (content file) as [text|];
    [|eexists; split; [apply showToast_run|];
      exact (showToast_only_toasts _ _ _ _ _ (showToast_run _ _ _))].
  unfold onload, try_catch, bind.
  destruct (JSON_parse text) as [doc|]; cbn [ret throw].
  2:{ eexists; split; [apply showToast_run|].
      exact (showToast_only_toasts _ _ _ _ _ (showToast_run _ _ _)). }
  destruct (validate doc b) as [b0 [e|[]]] eqn:Hv;
    pose proof (validate_only_toasts doc _ _ _ Hv) as H0.
  - eexists; split; [apply showToast_run|].
    eapply only_toasts_trans; [exact H0|].
    exact (showToast_only_toasts _ _ _ _ _ (showToast_run _ _ _)).
  - cbn [when ret]. exists b0. split; [reflexivity|exact H0].
Qed.

(** X3: an import that is not confirmed never throws and does nothing
    but show toasts, whatever the file: the store, its capacity and the
    rest of the trace are untouched. *)
Theorem importData_declined_only_toasts file b :
  exists b', importData file false b = (b', inr tt) /\ only_toasts b b'.
Proof. apply importData_declined_only_toasts_aux. Qed.


End ImportOutcomes.

(** ** More on [storageManager] *)

Section CleanupFrameFacts.
Context `{Builtins}.
Import storageManager CleanupSpec CleanupFrame.

Lemma rounds_refl l f : rounds l f f.
Proof.
  unfold rounds. split; [reflexivity|]. split; [auto|]. split; [auto|].
  split; [tauto|]. split; [intros k Hne; contradiction|].
  exists []. rewrite app_nil_r. split; [reflexivity|constructor].
Qed.

Lemma rounds_trans l f1 f2 f3 : rounds l f1 f2 -> rounds l f2 f3 -> rounds l f1 f3.
Proof.
  intros (Hq & Hw & Hc & Hd & Hch & d & Ht & Hk)
         (Hq' & Hw' & Hc' & Hd' & Hch' & d' & Ht' & Hk').
  unfold rounds. split; [congruence|]. split; [auto|]. split; [auto|].
  split; [intros k; rewrite Hd'; apply Hd|]. split.
  - intros k Hne.
    destruct (decide (items (browser f2) !! k = items (browser f1) !! k)) as [Heq|Hne1].
    + apply Hch'. congruence.
    + destruct (Hch k Hne1) as [Hin Hflag]. split; [exact Hin|].
      intros Hfalse. apply Hflag.
      destruct (cleanedUp f2) eqn:E; [|reflexivity].
      rewrite Hc' in Hfalse by reflexivity. discriminate.
  - exists (d ++ d')%list. rewrite Ht', Ht, <- app_assoc. split; [reflexivity|].
    apply List.Forall_app. split; assumption.
Qed.

Lemma rounds_weaken l l' f f' :
  (forall k, In k l -> In k l') -> rounds l f f' -> rounds l' f f'.
Proof.
  intros Hsub (Hq & Hw & Hc & Hd & Hch & d & Ht & Hk).
  unfold rounds. repeat (split; [assumption|]). split.
  - intros k Hne. destruct (Hch k Hne). auto.
  - exists d. split; [exact Ht|]. eapply List.Forall_impl; [|exact Hk].
    intros e (k & v & -> & Hin). eauto.
Qed.

Lemma cleanupKey_absent key f :
  items (browser f) !! key = None -> cleanupKey key f = (f, inr tt).
Proof.
  intros Hk. destruct f as [b c]. unfold cleanupKey, bind, lift, localStorage.getItem.
  cbn [browser cleanedUp] in *. rewrite Hk. reflexivity.
Qed.

(** A round that changed the browser and is not the one for habits has
    raised the flag. *)
Lemma cleanupKey_flag key f f' r :
  key <> "habits_data" ->
  cleanupKey key f = (f', r) ->
  browser f' = browser f \/ cleanedUp f' = true.
Proof.
  intros Hkey. destruct f as [b c].
  unfold cleanupKey. unfold bind at 1, lift at 1, localStorage.getItem.
  cbn [browser cleanedUp].
  destruct (items b !! key) as [historyData|]; [|intros [= <- _]; auto].
  destruct (String.eqb historyData ""); [intros [= <- _]; auto|].
  unfold bind at 1.
  destruct (JSON_parse historyData) as [history|]; cbn [ret throw];
    [|intros [= <- _]; auto].
  destruct (typeof_object history); cbn [negb]; [|intros [= <- _]; auto].
  destruct (String.eqb_spec key "habits_data"); [contradiction|].
  unfold bind at 1, of_sum.
  destruct (prune history) as [e|[history' pruned]]; cbn [throw ret];
    [intros [= <- _]; auto|].
  destruct pruned; cbn [snd fst when]; [|intros [= <- _]; auto].
  unfold bind, lift, localStorage.setItem. cbn [browser cleanedUp].
  case_decide.
  - unfold set_cleanedUp, modify. intros [= <- _]. right. reflexivity.
  - intros [= <- _]. left. reflexivity.
Qed.

Lemma step_rounds key f :
  exists f', step key f = (f', inr tt) /\ rounds [key] f f'.
Proof.
  unfold step, try_catch.
  destruct (cleanupKey key f) as [f1 r] eqn:E.
  exists f1. split; [destruct r as [e|[]]; reflexivity|].
  pose proof (cleanupKey_touches _ _ _ _ E) as [Hflag Hw].
  destruct Hw as [Hsame|(v & Hfit & Hb)].
  - unfold rounds. rewrite Hsame. split; [reflexivity|]. split; [auto|].
    split; [exact Hflag|]. split; [tauto|]. split; [intros k Hne; contradiction|].
    exists []. rewrite app_nil_r. split; [reflexivity|constructor].
  - destruct (items (browser f) !! key) as [old|] eqn:Hold.
    2:{ rewrite (cleanupKey_absent key f Hold) in E. injection E as <- _.
        apply rounds_refl. }
    unfold rounds. rewrite Hb. cbn [items quota trace].
    split; [reflexivity|]. split; [intros _; exact Hfit|].
    split; [exact Hflag|]. split; [|split].
    + intros k. destruct (decide (k = key)) as [->|Hne].
      * rewrite lookup_insert_eq, Hold. split; intros _; eauto.
      * rewrite lookup_insert_ne by congruence. tauto.
    + intros k Hne. destruct (decide (k = key)) as [->|Hne'].
      * split; [left; reflexivity|]. intros Hfalse.
        destruct (String.eqb_spec key "habits_data") as [|Hk]; [assumption|].
        destruct (cleanupKey_flag key f f1 r Hk E) as [Hsame|Htrue].
        -- exfalso. apply Hne. rewrite Hb in Hsame.
           apply (f_equal items) in Hsame. cbn [items] in Hsame.
           rewrite Hsame. reflexivity.
        -- congruence.
      * exfalso. apply Hne. apply lookup_insert_ne. congruence.
    + exists [SetItem key v]. split; [reflexivity|].
      constructor; [|constructor]. exists key, v. split; [reflexivity|left; reflexivity].
Qed.

Lemma steps_rounds (l : list string) : forall f,
  exists f', for_each l step f = (f', inr tt) /\ rounds l f f'.
Proof.
  induction l as [|j l IH]; intros f; cbn [for_each].
  - exists f. split; [reflexivity|apply rounds_refl].
  - destruct (step_rounds j f) as (f1 & Hrun & H1).
    destruct (IH f1) as (f2 & Hrun2 & H2).
    exists f2. unfold bind. rewrite Hrun. split; [exact Hrun2|].
    eapply rounds_trans.
    + eapply rounds_weaken; [|exact H1]. intros k [<-|[]]. left. reflexivity.
    + eapply rounds_weaken; [|exact H2]. intros k Hin. right. exact Hin.
Qed.

Lemma cleanupOldData_rounds b :
  exists f,
    cleanupOldData b = (browser f, inr (cleanedUp f)) /\
    rounds historyKeys (mkFrame b false) f.
Proof.
  destruct (steps_rounds historyKeys (mkFrame b false)) as (f & Hrun & Hr).
  exists f. split; [|exact Hr].
  unfold cleanupOldData.
  change (for_each historyKeys _) with (for_each historyKeys step).
  rewrite Hrun. reflexivity.
Qed.

(** X6: [cleanupOldData] always returns.  It keeps the capacity and a
    store within it, adds and removes no key, changes a value only under
    one of the four history keys, and when it answers [false] the only
    item that can differ is [habits_data]; every effect is an accepted
    write of a history key. *)
Theorem cleanupOldData_frame b :
  exists b' cleaned,
    cleanupOldData b = (b', inr cleaned) /\
    quota b' = quota b /\
    (within_quota b -> within_quota b') /\
    (forall k, is_Some (items b' !! k) <-> is_Some (items b !! k)) /\
    (forall k, items b' !! k <> items b !! k ->
       In k historyKeys /\ (cleaned = false -> k = "habits_data")) /\
    exists delta,
      trace b' = (trace b ++ delta)%list /\
      List.Forall (fun e => exists k v, e = SetItem k v /\ In k historyKeys) delta.
Proof.
  destruct (cleanupOldData_rounds b) as (f & Hrun & Hq & Hw & _ & Hd & Hch & Ht).
  exists (browser f), (cleanedUp f). split; [exact Hrun|].
  cbn [browser cleanedUp] in *. auto.
Qed.
End CleanupFrameFacts.

Section SafeWrites.
Context `{Builtins}.
Import storageManager CleanupFrame.

(** X7: [safeSetItem] always returns a boolean.  When it answers [true]
    the item holds the value; it answers [false] only if the write did
    not fit the store as it was, and then its last effect is the
    storage-limit toast.  Either way the capacity is kept, a store within
    it stays so, and apart from the written key only the four history
    keys can have changed. *)
Theorem safeSetItem_outcome key value b :
  exists b' ok,
    safeSetItem key value b = (b', inr ok) /\
    quota b' = quota b /\
    (within_quota b -> within_quota b') /\
    (forall k, k <> key -> ~ In k historyKeys -> items b' !! k = items b !! k) /\
    if ok then items b' !! key = Some value
    else
      quota b < getUsage (<[key := value]> (items b)) /\
      (~ In key historyKeys -> items b' !! key = items b !! key) /\
      exists t, trace b' =
        (t ++ [ShowToast "Storage limit reached. Please export and clear some data." "error"])%list.
Proof.
  unfold safeSetItem, try_catch. unfold bind at 1.
  unfold localStorage.setItem at 1.
  destruct (decide (getUsage (<[key:=value]> (items b)) <= quota b)) as [Hfit|Hno].
  { eexists _, true. cbn [ret]. split; [reflexivity|]. cbn [items quota].
    split; [reflexivity|]. split; [intros _; exact Hfit|].
    split; [intros k Hne _; apply lookup_insert_ne; congruence|].
    apply lookup_insert_eq. }
  destruct (cleanupOldData_rounds b) as (f & Hrun & Hq & Hw & _ & _ & Hch & _).
  cbn [browser cleanedUp] in Hq, Hw, Hch.
  assert (Hframe : forall k, ~ In k historyKeys ->
            items (browser f) !! k = items b !! k).
  { intros k Hk.
    destruct (decide (items (browser f) !! k = items b !! k)) as [Heq|Hne];
      [exact Heq|]. destruct (Hch k Hne) as [Hin _]. contradiction. }
  unfold bind at 1. rewrite Hrun.
  destruct (cleanedUp f).
  - unfold try_catch, bind at 1. unfold localStorage.setItem at 1.
    destruct (decide (getUsage (<[key:=value]> (items (browser f)))
                      <= quota (browser f))) as [Hfit|Hno2].
    + eexists _, true. split; [reflexivity|].
      cbn [log_effect items quota]. split; [exact Hq|].
      split; [intros _; exact Hfit|].
      split; [|apply lookup_insert_eq].
      intros k Hne Hk. rewrite lookup_insert_ne by congruence. auto.
    + eexists _, false. split; [reflexivity|].
      cbn [log_effect items quota trace]. split; [exact Hq|]. split; [exact Hw|].
      split; [intros k _ Hk; auto|]. split; [lia|]. split; [auto|].
      eexists. reflexivity.
  - eexists _, false. split; [reflexivity|].
    cbn [log_effect items quota trace]. split; [exact Hq|]. split; [exact Hw|].
    split; [intros k _ Hk; auto|]. split; [lia|]. split; [auto|].
    eexists. reflexivity.
Qed.

(** X8: [isAvailable] never throws.  It answers [true] exactly when an
    item [test] with value [test] fits the store, and then any item the
    user had under the name [test] is gone while every other item is
    kept; when it answers [false] nothing has changed. *)
Theorem isAvailable_probe b :
  exists b' ok,
    isAvailable b = (b', inr ok) /\
    (ok = true <-> getUsage (<["test" := "test"]> (items b)) <= quota b) /\
    (ok = true ->
       items b' = delete "test" (items b) /\ quota b' = quota b /\
       trace b' = (trace b ++ [SetItem "test" "test"; RemoveItem "test"])%list) /\
    (ok = false -> b' = b) /\
    (within_quota b -> within_quota b').
Proof.
  unfold isAvailable, try_catch, bind, localStorage.setItem.
  destruct (decide (getUsage (<["test":="test"]> (items b)) <= quota b)) as [Hfit|Hno].
  - eexists _, true. split; [reflexivity|].
    cbn [items quota trace]. split; [tauto|]. split.
    + intros _. rewrite delete_insert_eq, <- app_assoc. auto.
    + split; [discriminate|]. intros Hq. unfold within_quota. cbn [items quota].
      rewrite delete_insert_eq.
      etransitivity; [apply getUsage_delete_le|exact Hq].
  - exists b, false. split; [reflexivity|]. split; [split; [discriminate|tauto]|].
    split; [discriminate|]. auto.
Qed.
End SafeWrites.

Section RetryAfterCleanup.
Context `{Builtins}.
Import storageManager CleanupSpec.

Lemma steps_absent (l : list string) f :
  (forall k, In k l -> items (browser f) !! k = None) ->
  for_each l step f = (f, inr tt).
Proof.
  induction l as [|k l IH]; intros Habs; cbn [for_each]; [reflexivity|].
  unfold bind, step at 1, try_catch.
  rewrite (cleanupKey_absent k f) by (apply Habs; left; reflexivity).
  apply IH. intros k' Hk'. apply Habs. right. exact Hk'.
Qed.

(** With a single date-keyed history in the store, the cleanup is the
    pruning of that history. *)
Lemma cleanupOldData_single hk raw fields b :
  In hk history_stores ->
  (forall k, In k historyKeys -> k <> hk -> items b !! k = None) ->
  within_quota b ->
  items b !! hk = Some raw ->
  raw <> "" ->
  JSON_parse raw = Some (JObj fields) ->
  90 < length fields ->
  String.length (JSON_stringify (JObj (retained fields))) <= String.length raw ->
  cleanupOldData b
  = (mkBrowser (<[hk := JSON_stringify (JObj (retained fields))]> (items b))
       (quota b)
       (trace b ++ [SetItem hk (JSON_stringify (JObj (retained fields)))]),
     inr true).
Proof.
  intros Hhk Habs Hq Hraw Hne Hparse Hlen Hfit.
  assert (Hat : exists l1 l2,
             historyKeys = (l1 ++ hk :: l2)%list /\
             ~ In hk l1 /\ ~ In hk l2 /\ hk <> "habits_data").
  { unfold history_stores in Hhk. cbn in Hhk.
    destruct Hhk as [<-|[<-|[<-|[]]]].
    - exists [], ["history_protein"; "workout_history"; "habits_data"].
      repeat split; cbn; intuition discriminate.
    - exists ["history_water"], ["workout_history"; "habits_data"].
      repeat split; cbn; intuition discriminate.
    - exists ["history_water"; "history_protein"], ["habits_data"].
      repeat split; cbn; intuition discriminate. }
  destruct Hat as (l1 & l2 & Hkeys & Hn1 & Hn2 & Hhab).
  assert (Habs1 : forall k, In k l1 -> items b !! k = None).
  { intros k Hk. apply Habs; [rewrite Hkeys; apply in_or_app; auto|].
    intros ->. contradiction. }
  assert (Habs2 : forall k, In k l2 -> items b !! k = None).
  { intros k Hk. apply Habs; [rewrite Hkeys; apply in_or_app; right; right; exact Hk|].
    intros ->. contradiction. }
  unfold cleanupOldData.
  change (for_each historyKeys _) with (for_each historyKeys step).
  rewrite Hkeys, for_each_app. unfold bind at 1.
  rewrite (steps_absent l1) by exact Habs1.
  cbn [for_each]. unfold bind at 1.
  rewrite (step_target hk raw fields (mkFrame b false) Hhab Hq Hraw Hne Hparse
             (fun _ => Hfit)).
  apply Nat.ltb_lt in Hlen. rewrite Hlen. cbv zeta. cbn [browser].
  rewrite steps_absent; [reflexivity|].
  intros k Hk. cbn [browser items]. rewrite lookup_insert_ne; [auto|].
  intros ->. contradiction.
Qed.

(** X9: when a write does not fit, the store holds one date-keyed
    history of more than 90 days and no other history, and the write fits
    once that history is pruned, [safeSetItem] prunes it, writes the
    item, shows the archive toast and answers [true]. *)
Theorem safeSetItem_retries_after_cleanup key value hk raw fields b :
  within_quota b ->
  In hk history_stores ->
  (forall k, In k historyKeys -> k <> hk -> items b !! k = None) ->
  items b !! hk = Some raw ->
  raw <> "" ->
  JSON_parse raw = Some (JObj fields) ->
  90 < length fields ->
  let pruned := JSON_stringify (JObj (retained fields)) in
  String.length pruned <= String.length raw ->
  quota b < getUsage (<[key := value]> (items b)) ->
  getUsage (<[key := value]> (<[hk := pruned]> (items b))) <= quota b ->
  safeSetItem key value b
  = (mkBrowser (<[key := value]> (<[hk := pruned]> (items b))) (quota b)
       (trace b ++
          [SetItem hk pruned; SetItem key value;
           ShowToast "Older history has been archived to free up storage space." "info"]),
     inr true).
Proof.
  intros Hq Hhk Habs Hraw Hne Hparse Hlen pruned Hfit Hno Hroom.
  unfold safeSetItem, try_catch. unfold bind at 1.
  unfold localStorage.setItem at 1.
  rewrite decide_False by lia.
  unfold bind at 1.
  rewrite (cleanupOldData_single hk raw fields b Hhk Habs Hq Hraw Hne Hparse Hlen Hfit).
  fold pruned. unfold bind at 1. unfold localStorage.setItem at 1.
  cbn [items quota trace].
  rewrite decide_True by exact Hroom.
  cbn. unfold log_effect. cbn [items quota trace].
  rewrite <- !app_assoc. reflexivity.
Qed.
End RetryAfterCleanup.

Section HabitsCleanup.
Context `{Builtins}.
Import storageManager CleanupSpec CleanupFrame.

Lemma prune_habit_plain habit :
  plain_habit habit ->
  prune_habit habit = inr (pruned_habit habit, long_habit habit).
Proof.
  intros (fields & -> & [Hnone|(days & Hdays)]).
  - unfold prune_habit, pruned_habit, long_habit. rewrite Hnone. reflexivity.
  - rewrite (prune_habit_history fields days Hdays).
    unfold pruned_habit, long_habit. rewrite Hdays.
    destruct (90 <? length days)%nat; reflexivity.
Qed.

Lemma prune_habits_plain habits : forall f,
  List.Forall plain_habit habits ->
  prune_habits habits f
  = (mkFrame (browser f) (cleanedUp f || existsb long_habit habits),
     inr (map pruned_habit habits)).
Proof.
  induction habits as [|habit rest IH]; intros f Hall.
  - cbn. rewrite orb_false_r. destruct f; reflexivity.
  - apply List.Forall_cons_iff in Hall as [Hh Hrest].
    cbn [prune_habits existsb map]. unfold bind at 1.
    rewrite (prune_habit_plain habit Hh). cbn [of_sum ret snd fst].
    unfold bind at 1.
    destruct (long_habit habit); cbn [when set_cleanedUp modify ret];
      unfold bind; rewrite IH by exact Hrest; cbn [browser cleanedUp ret orb].
    + rewrite orb_true_r. reflexivity.
    + reflexivity.
Qed.

Lemma prune_habits_null habits : forall f,
  In JNull habits ->
  exists f' e, prune_habits habits f = (f', inl e) /\ browser f' = browser f.
Proof.
  induction habits as [|habit rest IH]; intros f Hin; [destruct Hin|].
  cbn [prune_habits]. unfold bind at 1, of_sum.
  destruct (prune_habit habit) as [e|[habit' pruned]] eqn:Hp; cbn [throw ret].
  - exists f, e. split; reflexivity.
  - destruct Hin as [->|Hin]; [discriminate|].
    unfold bind at 1.
    destruct pruned; cbn [snd when set_cleanedUp modify ret]; unfold bind.
    + destruct (IH (mkFrame (browser f) true) Hin) as (f2 & e & Hrun & Hb).
      rewrite Hrun. exists f2, e. split; [reflexivity|exact Hb].
    + destruct (IH f Hin) as (f2 & e & Hrun & Hb).
      rewrite Hrun. exists f2, e. split; [reflexivity|exact Hb].
Qed.

(** X10: for a stored habits array of plain habits whose pruned
    serialisation is no longer than the stored text, [cleanupOldData]
    replaces the item by the array of the habits with every history cut
    to its last 90 days, and answers [true] if some habit had more. *)
Theorem cleanupOldData_prunes_habits raw habits b :
  within_quota b ->
  items b !! "habits_data" = Some raw ->
  raw <> "" ->
  JSON_parse raw = Some (JArr habits) ->
  List.Forall plain_habit habits ->
  String.length (JSON_stringify (JArr (map pruned_habit habits)))
    <= String.length raw ->
  exists b' cleaned,
    cleanupOldData b = (b', inr cleaned) /\
    items b' !! "habits_data"
    = Some (JSON_stringify (JArr (map pruned_habit habits))) /\
    (existsb long_habit habits = true -> cleaned = true).
Proof.
  intros Hq Hraw Hne Hparse Hplain Hfit.
  unfold cleanupOldData.
  change (for_each historyKeys _) with (for_each historyKeys step).
  change historyKeys
    with (["history_water"; "history_protein"; "workout_history"]
            ++ ["habits_data"])%list.
  rewrite for_each_app. unfold bind at 1.
  destruct (steps_frame ["history_water"; "history_protein"; "workout_history"]
              (mkFrame b false)) as (f1 & Hrun1 & Hq1 & Hwq1 & _ & Hkeep1).
  rewrite Hrun1. cbn [for_each]. unfold bind at 1.
  destruct (Hkeep1 "habits_data") as [Hi1 _];
    [cbn; intuition discriminate|].
  cbn [browser] in Hi1, Hq1, Hwq1.
  unfold step, try_catch, cleanupKey.
  unfold bind at 1, lift at 1, localStorage.getItem.
  rewrite Hi1, Hraw.
  destruct (String.eqb_spec raw ""); [contradiction|].
  unfold bind at 1. rewrite Hparse. cbn [ret typeof_object negb String.eqb Ascii.eqb Bool.eqb].
  unfold bind at 1. rewrite (prune_habits_plain habits _ Hplain).
  unfold lift, localStorage.setItem. cbn [browser cleanedUp].
  rewrite decide_True.
  2:{ pose proof (getUsage_replace (items (browser f1)) "habits_data" raw
                    (JSON_stringify (JArr (map pruned_habit habits)))
                    (eq_trans Hi1 Hraw)) as Hu.
      specialize (Hwq1 Hq). unfold within_quota in Hwq1. lia. }
  cbn [ret]. eexists _, _. split; [reflexivity|].
  cbn [browser items cleanedUp]. split; [apply lookup_insert_eq|].
  intros ->. apply orb_true_r.
Qed.

(** X11: a [null] among the stored habits makes the round for
    [habits_data] fail before the write: the item is left as stored. *)
Theorem cleanupOldData_null_habit raw habits b :
  items b !! "habits_data" = Some raw ->
  JSON_parse raw = Some (JArr habits) ->
  In JNull habits ->
  exists b' cleaned,
    cleanupOldData b = (b', inr cleaned) /\
    items b' !! "habits_data" = Some raw /\
    writes_to "habits_data" (trace b') = writes_to "habits_data" (trace b).
Proof.
  intros Hraw Hparse Hnull.
  unfold cleanupOldData.
  change (for_each historyKeys _) with (for_each historyKeys step).
  change historyKeys
    with (["history_water"; "history_protein"; "workout_history"]
            ++ ["habits_data"])%list.
  rewrite for_each_app. unfold bind at 1.
  destruct (steps_frame ["history_water"; "history_protein"; "workout_history"]
              (mkFrame b false)) as (f1 & Hrun1 & _ & _ & _ & Hkeep1).
  rewrite Hrun1. cbn [for_each]. unfold bind at 1.
  destruct (Hkeep1 "habits_data") as [Hi1 Hw1];
    [cbn; intuition discriminate|].
  cbn [browser] in Hi1, Hw1.
  unfold step, try_catch, cleanupKey.
  unfold bind at 1, lift at 1, localStorage.getItem.
  rewrite Hi1, Hraw.
  destruct (String.eqb_spec raw "") as [->|Hne].
  { eexists _, _. split; [reflexivity|]. cbn [browser]. split; congruence. }
  unfold bind at 1. rewrite Hparse. cbn [ret typeof_object negb String.eqb Ascii.eqb Bool.eqb].
  unfold bind at 1.
  destruct (prune_habits_null habits (mkFrame (browser f1) (cleanedUp f1)) Hnull)
    as (f2 & e & -> & Hb).
  cbn [ret]. eexists _, _. split; [reflexivity|].
  cbn [browser] in *. rewrite Hb. split; congruence.
Qed.
End HabitsCleanup.

(** ** More on the workout tracker *)

Section TrackerMoreFacts.
Context `{Builtins}.
Import WorkoutTracker TrackerSpec TrackerMore.

Lemma assign_workout_none ty f w :
  JsObject.get (workoutState (this w)) ty = None ->
  assign_workout ty f w
  = (w, inl (TypeError "Cannot set properties of undefined")).
Proof.
  intros Hnone. unfold assign_workout, bind, self. rewrite Hnone. reflexivity.
Qed.

Lemma reset_one_some ty w v :
  JsObject.get (workoutState (this w)) ty = Some v ->
  reset_one ty w
  = (mkWorld (mk (JsObject.set (workoutState (this w)) ty (canonical ty))
                 (workoutCounts (this w)) (workoutHistory (this w)))
             (browser w), inr tt).
Proof.
  intros Hv. unfold reset_one, bind.
  rewrite (assign_workout_some ty _ w v Hv).
  rewrite (assign_workout_some ty _ _ (mkWorkout false (order v)))
    by (cbn [this workoutState]; apply get_set_eq).
  cbn [this browser workoutState workoutCounts workoutHistory completed].
  rewrite set_set. reflexivity.
Qed.

Lemma reset_states_missing (l : list string) : forall w ty,
  In ty l ->
  JsObject.get (workoutState (this w)) ty = None ->
  exists w' msg,
    for_each l reset_one w = (w', inl (TypeError msg)) /\
    browser w' = browser w /\
    workoutCounts (this w') = workoutCounts (this w) /\
    workoutHistory (this w') = workoutHistory (this w).
Proof.
  induction l as [|x l IH]; intros w ty Hin Hnone; [destruct Hin|].
  cbn [for_each]. unfold bind at 1.
  destruct (JsObject.get (workoutState (this w)) x) as [v|] eqn:Hx.
  - assert (Hne : x <> ty) by congruence.
    destruct Hin as [->|Hin]; [congruence|].
    rewrite (reset_one_some x w v Hx).
    match goal with
    | |- context [for_each l reset_one ?w1] =>
        destruct (IH w1 ty Hin) as (w' & msg & Hrun & Hb & Hc & Hh)
    end.
    { cbn [this workoutState]. rewrite get_set_ne by exact Hne. exact Hnone. }
    exists w', msg. rewrite Hrun. auto.
  - unfold reset_one, bind. rewrite assign_workout_none by exact Hx.
    eexists _, _. split; [reflexivity|]. auto.
Qed.

(** X12: when the stored state lacks one of the seven canonical types,
    [resetWorkoutTabs] throws a [TypeError] before it saves anything, and
    so does the daily check on a new day: the store, the reset marker
    included, is left as it was. *)
Theorem reset_fails_on_missing_type now w ty :
  In ty workoutTypes ->
  JsObject.get (workoutState (this w)) ty = None ->
  (exists w' msg,
     resetWorkoutTabs w = (w', inl (TypeError msg)) /\
     browser w' = browser w /\
     workoutCounts (this w') = workoutCounts (this w) /\
     workoutHistory (this w') = workoutHistory (this w)) /\
  (items (browser w) !! lastResetKey <> Some (utils.formatDate now) ->
   exists w' msg,
     checkAndResetDailyWorkouts now w = (w', inl (TypeError msg)) /\
     browser w' = browser w).
Proof.
  intros Hin Hnone.
  assert (Hreset : exists w' msg,
             resetWorkoutTabs w = (w', inl (TypeError msg)) /\
             browser w' = browser w /\
             workoutCounts (this w') = workoutCounts (this w) /\
             workoutHistory (this w') = workoutHistory (this w)).
  { destruct (reset_states_missing workoutTypes w ty Hin Hnone)
      as (w' & msg & Hrun & Hrest).
    exists w', msg. split; [|exact Hrest].
    unfold resetWorkoutTabs. unfold bind at 1.
    change (for_each workoutTypes _ w) with (for_each workoutTypes reset_one w).
    rewrite Hrun. reflexivity. }
  split; [exact Hreset|].
  intros Hmarker. destruct Hreset as (w' & msg & Hrun & Hb & _).
  exists w', msg. split; [|exact Hb].
  unfold checkAndResetDailyWorkouts, bind at 1, lift at 1, localStorage.getItem.
  rewrite bool_decide_eq_false_2 by exact Hmarker.
  cbn [negb when]. unfold bind at 1, resetDailyWorkouts, bind at 1.
  destruct w as [s b]. cbn [this browser] in *. rewrite Hrun. reflexivity.
Qed.

Lemma resetWorkoutTabs_tracks_all w w' :
  resetWorkoutTabs w = (w', inr tt) -> tracks_all (this w).
Proof.
  intros Hr ty Hty.
  destruct (JsObject.get (workoutState (this w)) ty) as [x|] eqn:Hx; [eauto|].
  exfalso.
  destruct (reset_states_missing workoutTypes w ty Hty Hx) as (w1 & msg & Hrun & _).
  unfold resetWorkoutTabs in Hr. unfold bind at 1 in Hr.
  change (for_each workoutTypes _ w) with (for_each workoutTypes reset_one w) in Hr.
  rewrite Hrun in Hr. discriminate.
Qed.

Lemma resetWorkoutTabs_inr_this w w' :
  resetWorkoutTabs w = (w', inr tt) -> this w' = reset_of (this w).
Proof.
  intros Hr. pose proof (resetWorkoutTabs_tracks_all w w' Hr) as Hall.
  unfold resetWorkoutTabs in Hr.
  apply bind_inr in Hr as (w1 & [] & H1 & Hr).
  apply bind_inr in Hr as (w2 & [] & H2 & Hr).
  apply bind_inr in Hr as (w3 & [] & H3 & [= <-]).
  change (for_each workoutTypes reset_one w = (w1, inr tt)) in H1.
  rewrite (reset_states_run workoutTypes w Hall) in H1. injection H1 as <-.
  change (for_each workoutTypes zero_one
            (mkWorld (mk (fold_left (fun st ty => JsObject.set st ty (canonical ty))
                            workoutTypes (workoutState (this w)))
                         (workoutCounts (this w)) (workoutHistory (this w)))
                     (browser w)) = (w2, inr tt)) in H2.
  rewrite zero_counts_run_eq in H2. injection H2 as <-.
  apply saveState_this in H3. rewrite H3. reflexivity.
Qed.

(** What a returning [toggleWorkout] leaves behind. *)
Lemma toggleWorkout_inr now ty w w' :
  toggleWorkout now ty w = (w', inr tt) ->
  is_Some (JsObject.get (workoutState (this w)) ty) /\
  this w' = toggled now ty (this w) /\
  in_sync w'.
Proof.
  intros Hr. unfold toggleWorkout in Hr.
  apply bind_inr in Hr as (w0 & [] & [= <-] & Hr).
  apply bind_inr in Hr as (w1 & [] & H1 & Hr).
  apply assign_workout_inr in H1 as (x & Hx & ->).
  cbn [this workoutState workoutCounts workoutHistory browser] in *.
  apply bind_inr in Hr as (w2 & [] & H2 & Hr).
  apply saveWorkoutHistory_inr in H2.
  cbn [this workoutState workoutCounts workoutHistory browser] in H2.
  apply bind_inr in Hr as (w2' & s & [= <- <-] & Hr).
  set (s1 := recorded now ty (marked ty (this w))) in *.
  assert (Hs1 : this w2 = s1).
  { subst w2 s1. cbn [this]. unfold marked. rewrite Hx. reflexivity. }
  split; [eauto|]. unfold toggled. fold s1.
  rewrite Hs1 in Hr.
  destruct (allCompleted (workoutState s1)) eqn:Eall.
  - apply bind_inr in Hr as (w3 & [] & H3 & Hr).
    pose proof (resetWorkoutTabs_inr_this _ _ H3) as Hthis.
    apply resetWorkoutTabs_inr in H3 as (_ & Hh & Hb).
    unfold lift, showToast, emit, modify in Hr. injection Hr as <-.
    cbn [this browser]. split; [congruence|].
    unfold in_sync. cbn [this browser log_effect items]. rewrite Hb. cbn [items].
    split; [|split].
    + rewrite lookup_insert_ne by discriminate. apply lookup_insert_eq.
    + apply lookup_insert_eq.
    + repeat (rewrite lookup_insert_ne by discriminate). rewrite Hh.
      subst w2. cbn [this browser items]. apply lookup_insert_eq.
  - apply bind_inr in Hr as (w3 & [] & H3 & Hr).
    apply saveState_inr in H3.
    apply bind_inr in Hr as (w4 & [] & [= <-] & Hr).
    unfold lift, showToast, emit, modify in Hr. injection Hr as <-.
    subst w3. cbn [this browser]. split; [exact Hs1|].
    unfold in_sync. cbn [this browser log_effect items].
    split; [|split].
    + rewrite lookup_insert_ne by discriminate. apply lookup_insert_eq.
    + apply lookup_insert_eq.
    + repeat (rewrite lookup_insert_ne by discriminate).
      subst w2. cbn [this browser items]. apply lookup_insert_eq.
Qed.

(** X13: after a [toggleWorkout] that returns, the three stored items
    are the serialisations of the state, the counters and the history the
    instance now holds: a reload finds what the page shows. *)
Theorem toggleWorkout_in_sync now ty w w' :
  toggleWorkout now ty w = (w', inr tt) -> in_sync w'.
Proof. intros Hr. apply (toggleWorkout_inr now ty w w' Hr). Qed.

Lemma delete_absent {V} (o : list (string * V)) k :
  JsObject.get o k = None -> JsObject.delete o k = o.
Proof.
  induction o as [|[k' v] o IH]; cbn; [reflexivity|].
  destruct (String.eqb k' k); [discriminate|]. intros Hn. rewrite IH; auto.
Qed.

Lemma resetDailyWorkouts_sync now w w' :
  in_sync w -> resetDailyWorkouts now w = (w', inr tt) -> in_sync w'.
Proof.
  intros (_ & _ & Hsh) Hr. unfold resetDailyWorkouts in Hr.
  apply bind_inr in Hr as (w1 & [] & H1 & Hr).
  apply resetWorkoutTabs_inr in H1 as (_ & Hh & Hb).
  apply bind_inr in Hr as (w1' & s & [= <- <-] & Hr).
  destruct (JsObject.has (workoutHistory (this w1)) (utils.formatDate now)) eqn:Ehas;
    cbn [when] in Hr.
  - apply bind_inr in Hr as (w2 & [] & [= <-] & Hr).
    apply bind_inr in Hr as (w2' & s' & [= <- <-] & Hr).
    apply lift_setItem_inr in Hr. subst w'.
    unfold in_sync.
    cbn [this browser workoutState workoutCounts workoutHistory items].
    rewrite Hb. cbn [items]. split; [|split].
    + repeat (rewrite lookup_insert_ne by discriminate). apply lookup_insert_eq.
    + rewrite lookup_insert_ne by discriminate. apply lookup_insert_eq.
    + apply lookup_insert_eq.
  - injection Hr as <-. unfold in_sync. rewrite Hb. cbn [items].
    split; [|split].
    + rewrite lookup_insert_ne by discriminate. apply lookup_insert_eq.
    + apply lookup_insert_eq.
    + repeat (rewrite lookup_insert_ne by discriminate). rewrite Hh. exact Hsh.
Qed.

(** X14: the daily check keeps the stored items in step with the
    instance: if they were the serialisations of its fields before a
    check that returns, they are afterwards, whether or not the day had
    changed. *)
Theorem checkAndResetDailyWorkouts_keeps_sync now w w' :
  in_sync w ->
  checkAndResetDailyWorkouts now w = (w', inr tt) ->
  in_sync w'.
Proof.
  intros Hsync Hr.
  unfold checkAndResetDailyWorkouts, bind at 1, lift at 1, localStorage.getItem in Hr.
  destruct (bool_decide _); cbn [negb when] in Hr.
  - injection Hr as <-. destruct w; exact Hsync.
  - assert (Heta : mkWorld (this w) (browser w) = w) by (destruct w; reflexivity).
    rewrite Heta in Hr.
    apply bind_inr in Hr as (w1 & [] & H1 & H2).
    apply (resetDailyWorkouts_sync now w w1 Hsync) in H1 as (Hs & Hc & Hh).
    apply lift_setItem_inr in H2. subst w'.
    unfold in_sync. cbn [this browser items].
    repeat (rewrite lookup_insert_ne by discriminate). auto.
Qed.
End TrackerMoreFacts.

(** ** A full round of clicks *)

Section FullRound.
Context `{Builtins}.
Import WorkoutTracker TrackerSpec TrackerMore.

Lemma logged_logged day es1 es2 h :
  logged day es2 (logged day es1 h) = logged day (es1 ++ es2)%list h.
Proof.
  unfold logged. rewrite get_set_eq, set_set, app_assoc. reflexivity.
Qed.

Lemma recorded_logged now ty s :
  recorded now ty s
  = mk (workoutState s) (workoutCounts s)
       (logged (utils.formatDate now)
          [mkEntry ty (JsObject.get (workoutCounts s) ty) (toISOString now)]
          (workoutHistory s)).
Proof.
  unfold recorded, logged.
  destruct (JsObject.get (workoutHistory s) (utils.formatDate now)); reflexivity.
Qed.

Ltac canonical_cases Hty :=
  cbn in Hty;
  repeat (destruct Hty as [<-|Hty]; [|]); [..|destruct Hty].

Lemma marked_flags (f : string -> bool) ty h :
  In ty workoutTypes ->
  f ty = false ->
  marked ty
    (mk (map (fun t => (t, mkWorkout (f t) (indexOf workoutTypes t))) workoutTypes)
        (map (fun t => (t, Num (if f t then 1 else 0))) workoutTypes) h)
  = mk (map (fun t => (t, mkWorkout (String.eqb t ty || f t)
                            (indexOf workoutTypes t))) workoutTypes)
       (map (fun t => (t, Num (if String.eqb t ty || f t then 1 else 0)))
          workoutTypes) h.
Proof.
  intros Hty Hnew. unfold marked.
  cbn [workoutState workoutCounts workoutHistory].
  canonical_cases Hty; cbn; rewrite Hnew; reflexivity.
Qed.

Lemma marked_with ty done h :
  In ty workoutTypes ->
  existsb (String.eqb ty) done = false ->
  marked ty (mk (state_with done) (counts_with done) h)
  = mk (state_with (ty :: done)) (counts_with (ty :: done)) h.
Proof.
  intros Hty Hnew. unfold state_with, counts_with. cbn [existsb].
  apply (marked_flags (fun t => existsb (String.eqb t) done) ty h Hty Hnew).
Qed.

Lemma count_flags (f : string -> bool) ty :
  In ty workoutTypes ->
  JsObject.get (map (fun t => (t, Num (if f t then 1 else 0))) workoutTypes) ty
  = Some (Num (if f ty then 1 else 0)).
Proof. intros Hty. canonical_cases Hty; reflexivity. Qed.

Lemma count_with ty done :
  In ty workoutTypes ->
  JsObject.get (counts_with done) ty
  = Some (Num (if existsb (String.eqb ty) done then 1 else 0)).
Proof.
  intros Hty.
  apply (count_flags (fun t => existsb (String.eqb t) done) ty Hty).
Qed.

Lemma reset_of_with done h :
  reset_of (mk (state_with done) (counts_with done) h)
  = mk defaultWorkoutState defaultWorkoutCounts h.
Proof. reflexivity. Qed.

Lemma allCompleted_with done :
  allCompleted (state_with done)
  = forallb (fun ty => existsb (String.eqb ty) done) workoutTypes.
Proof. reflexivity. Qed.

Lemma existsb_eqb_In ty done :
  existsb (String.eqb ty) done = true <-> In ty done.
Proof.
  rewrite existsb_exists. split.
  - intros (x & Hx & Heq). apply String.eqb_eq in Heq. subst. exact Hx.
  - intros Hin. exists ty. split; [exact Hin|apply String.eqb_refl].
Qed.

(** The instance after first clicks on the distinct types [rest], none
    of them in [done], which together with [done] make up all seven. *)
Lemma toggled_round now (rest : list string) : forall done h,
  rest <> [] ->
  List.NoDup rest ->
  (forall ty, In ty rest -> In ty workoutTypes /\ ~ In ty done) ->
  (forall ty, In ty workoutTypes -> In ty done \/ In ty rest) ->
  fold_left (fun s ty => toggled now ty s) rest
    (mk (state_with done) (counts_with done) h)
  = mk defaultWorkoutState defaultWorkoutCounts
       (logged (utils.formatDate now) (clicks now rest) h).
Proof.
  induction rest as [|ty rest IH]; intros done h Hne Hnd Hin Hall;
    [contradiction|].
  destruct (Hin ty (or_introl eq_refl)) as [Hty Hnew].
  assert (Hnew' : existsb (String.eqb ty) done = false).
  { destruct (existsb (String.eqb ty) done) eqn:E; [|reflexivity].
    apply existsb_eqb_In in E. contradiction. }
  apply List.NoDup_cons_iff in Hnd as [Hfresh Hnd].
  cbn [fold_left]. unfold toggled at 2.
  rewrite (marked_with ty done h Hty Hnew'), recorded_logged.
  cbn [workoutState workoutCounts workoutHistory].
  rewrite (count_with ty (ty :: done) Hty). cbn [existsb].
  rewrite String.eqb_refl. cbn [orb].
  rewrite allCompleted_with.
  destruct rest as [|r rest'].
  - assert (Hdone : forallb (fun t => existsb (String.eqb t) (ty :: done))
                      workoutTypes = true).
    { apply forallb_forall. intros t Ht. apply existsb_eqb_In.
      destruct (Hall t Ht) as [Hd|[<-|[]]]; [right; exact Hd|left; reflexivity]. }
    rewrite Hdone. cbn [fold_left]. apply reset_of_with.
  - assert (Hnot : forallb (fun t => existsb (String.eqb t) (ty :: done))
                     workoutTypes = false).
    { destruct (forallb _ workoutTypes) eqn:E; [|reflexivity]. exfalso.
      destruct (Hin r (or_intror (or_introl eq_refl))) as [Hr Hrd].
      pose proof (proj1 (forallb_forall _ _) E r Hr) as Hex.
      apply existsb_eqb_In in Hex as [<-|Hd]; [|contradiction].
      apply Hfresh. left. reflexivity. }
    rewrite Hnot.
    rewrite (IH (ty :: done)); [|discriminate|exact Hnd| |].
    + rewrite logged_logged. reflexivity.
    + intros t Ht. destruct (Hin t (or_intror Ht)) as [Ht1 Ht2].
      split; [exact Ht1|]. intros [<-|Hd]; [contradiction|contradiction].
    + intros t Ht. destruct (Hall t Ht) as [Hd|[<-|Hr]].
      * left. right. exact Hd.
      * left. left. reflexivity.
      * right. exact Hr.
Qed.

Lemma toggles_inr now (l : list string) : forall w w',
  for_each l (toggleWorkout now) w = (w', inr tt) ->
  this w' = fold_left (fun s ty => toggled now ty s) l (this w) /\
  (l <> [] -> in_sync w').
Proof.
  induction l as [|ty l IH]; intros w w' Hr.
  - injection Hr as <-. split; [reflexivity|]. intros Hne. contradiction.
  - cbn [for_each] in Hr. apply bind_inr in Hr as (w1 & [] & H1 & Hr).
    apply toggleWorkout_inr in H1 as (_ & Hthis & Hsync).
    destruct (IH w1 w' Hr) as [Hfold Hs]. cbn [fold_left]. rewrite <- Hthis.
    split; [exact Hfold|]. intros _.
    destruct l as [|ty' l']; [|apply Hs; discriminate].
    injection Hr as <-. exact Hsync.
Qed.

(** X15: on a reset tracker, clicking each of the seven types once, in
    any order, ends with the tracker reset again: state and counters are
    the defaults, today's bucket has gained the seven first-click entries
    in the order of the clicks, the other days are as they were, and the
    stored items are the serialisations of the instance. *)
Theorem completing_all_types_resets now l w w' :
  Permutation l workoutTypes ->
  workoutState (this w) = defaultWorkoutState ->
  workoutCounts (this w) = defaultWorkoutCounts ->
  for_each l (toggleWorkout now) w = (w', inr tt) ->
  let today := utils.formatDate now in
  workoutState (this w') = defaultWorkoutState /\
  workoutCounts (this w') = defaultWorkoutCounts /\
  entries_on today (this w') = (entries_on today (this w) ++ clicks now l)%list /\
  (forall day, day <> today ->
     JsObject.get (workoutHistory (this w')) day
     = JsObject.get (workoutHistory (this w)) day) /\
  in_sync w'.
Proof.
  intros Hperm Hst Hct Hr today.
  destruct (toggles_inr now l w w' Hr) as [Hthis Hsync].
  assert (Hne : l <> []).
  { intros ->. apply Permutation_nil in Hperm. discriminate. }
  assert (Hstart : this w = mk (state_with []) (counts_with [])
                             (workoutHistory (this w))).
  { destruct (this w) as [st ct h]. cbn in Hst, Hct. subst. reflexivity. }
  rewrite Hstart in Hthis at 1.
  rewrite (toggled_round now l [] (workoutHistory (this w)) Hne) in Hthis.
  - rewrite Hthis. cbn [workoutState workoutCounts workoutHistory].
    split; [reflexivity|]. split; [reflexivity|]. split; [|split].
    + unfold entries_on, logged. cbn [workoutHistory]. fold today.
      rewrite get_set_eq. reflexivity.
    + intros day Hday. unfold logged. apply get_set_ne.
      intros Heq. apply Hday. symmetry. exact Heq.
    + apply Hsync. exact Hne.
  - apply (Permutation_NoDup (Permutation_sym Hperm)).
    apply (proj1 (NoDup_ListNoDup _)).
    apply (bool_decide_eq_true_1 (NoDup workoutTypes)). vm_compute. reflexivity.
  - intros ty Hty. split; [|intros []].
    apply (Permutation_in _ Hperm Hty).
  - intros ty Hty. right. apply (Permutation_in _ (Permutation_sym Hperm) Hty).
Qed.
End FullRound.

(** ** The tab of a clicked type *)

Section ClickedTab.
Context `{Builtins}.
Import WorkoutTracker TrackerSpec.


End ClickedTab.

(** ** Date keys *)

Section DateKeys.
Import DateKey Calendar.

Lemma four_digits_years y :
  (1000 <= N.of_nat y <= 9999)%N -> four_digits y = true.
Proof.
  intros Hy.
  assert (Hall : forallb four_digits (seq 1000 (9 * 1000)) = true)
    by (vm_compute; reflexivity).
  apply (proj1 (forallb_forall _ _) Hall). apply in_seq. lia.
Qed.

Lemma two_digits_small n : n <= 31 -> two_digits n = true.
Proof.
  intros Hn.
  assert (Hall : forallb two_digits (seq 0 32) = true)
    by (vm_compute; reflexivity).
  apply (proj1 (forallb_forall _ _) Hall). apply in_seq. lia.
Qed.

Lemma formatDate_key d :
  in_range d ->
  well_formed (utils.formatDate d) = true /\
  ymd (utils.formatDate d) = (getFullYear d, getMonth d + 1, getDate d).
Proof.
  intros (Hy & Hm & Hd). unfold utils.formatDate.
  pose proof (four_digits_years (getFullYear d) Hy) as Hfy.
  pose proof (two_digits_small (getMonth d + 1) ltac:(lia)) as Hfm.
  pose proof (two_digits_small (getDate d) ltac:(lia)) as Hfd.
  unfold four_digits in Hfy. unfold two_digits in Hfm, Hfd.
  pose proof (String.string_of_list_ascii_of_string (pretty (getFullYear d))) as Ey.
  pose proof (String.string_of_list_ascii_of_string
                (utils.padStart2 (pretty (getMonth d + 1)))) as Em.
  pose proof (String.string_of_list_ascii_of_string
                (utils.padStart2 (pretty (getDate d)))) as Ed.
  destruct (String.list_ascii_of_string (pretty (getFullYear d)))
    as [|y1 [|y2 [|y3 [|y4 [|? ?]]]]]; try discriminate.
  destruct (String.list_ascii_of_string (utils.padStart2 (pretty (getMonth d + 1))))
    as [|m1 [|m2 [|? ?]]]; try discriminate.
  destruct (String.list_ascii_of_string (utils.padStart2 (pretty (getDate d))))
    as [|d1 [|d2 [|? ?]]]; try discriminate.
  cbn [String.string_of_list_ascii] in Ey, Em, Ed.
  rewrite <- Ey, <- Em, <- Ed.
  cbv beta iota in Hfy, Hfm, Hfd.
  apply andb_true_iff in Hfy as [Hfy Yv]. apply andb_true_iff in Hfy as [Hfy Y4].
  apply andb_true_iff in Hfy as [Hfy Y3]. apply andb_true_iff in Hfy as [Y1 Y2].
  apply andb_true_iff in Hfm as [Hfm Mv]. apply andb_true_iff in Hfm as [M1 M2].
  apply andb_true_iff in Hfd as [Hfd Dv]. apply andb_true_iff in Hfd as [D1 D2].
  apply Nat.eqb_eq in Yv, Mv, Dv.
  unfold well_formed, ymd. cbv [String.append String.list_ascii_of_string].
  rewrite Y1, Y2, Y3, Y4, M1, M2, D1, D2. cbn [andb Ascii.eqb Bool.eqb].
  split; [reflexivity|]. rewrite Yv, Mv, Dv. reflexivity.
Qed.

(** X17: for a date of the years 1000 to 9999, [formatDate] yields a
    well-formed [YYYY-MM-DD] key that spells the year, the month counted
    from one, and the day. *)
Theorem formatDate_well_formed d :
  in_range d ->
  well_formed (utils.formatDate d) = true /\
  ymd (utils.formatDate d) = (getFullYear d, getMonth d + 1, getDate d).
Proof. apply formatDate_key. Qed.

(** X18: on such dates two keys are equal exactly when [isSameDay]
    holds, and the order in which [sort()] puts two keys is the order of
    the days. *)
Theorem formatDate_same_day_and_order d1 d2 :
  in_range d1 -> in_range d2 ->
  (utils.formatDate d1 = utils.formatDate d2 <-> utils.isSameDay d1 d2 = true) /\
  (default_compare (utils.formatDate d1) (utils.formatDate d2) = (-1)%Z
   <-> before d1 d2).
Proof.
  intros H1 H2.
  destruct (formatDate_key d1 H1) as [W1 Y1].
  destruct (formatDate_key d2 H2) as [W2 Y2].
  split.
  - unfold utils.isSameDay. rewrite !andb_true_iff, !Nat.eqb_eq. split.
    + intros Heq. rewrite Heq, Y2 in Y1. injection Y1 as Hy Hm Hd.
      repeat split; lia.
    + intros [[Hy Hm] Hd]. unfold utils.formatDate. rewrite Hy, Hm, Hd.
      reflexivity.
  - assert (Hcmp : default_compare (utils.formatDate d1) (utils.formatDate d2)
                   = (-1)%Z
                   <-> String.compare (utils.formatDate d1) (utils.formatDate d2) = Lt).
    { unfold default_compare.
      destruct (String.compare (utils.formatDate d1) (utils.formatDate d2));
        split; intros Hc; try reflexivity; discriminate. }
    rewrite Hcmp, (compare_earlier _ _ W1 W2).
    unfold earlier, before. rewrite Y1, Y2. lia.
Qed.
End DateKeys.

(** ** The history keeps dated keys *)

Section DatedHistory.
Context `{Builtins}.
Import WorkoutTracker TrackerSpec TrackerMore DateKey Calendar.

Lemma keys_set {V} (o : list (string * V)) k v :
  JsObject.keys (JsObject.set o k v)
  = if JsObject.has o k then JsObject.keys o else (JsObject.keys o ++ [k])%list.
Proof.
  unfold JsObject.has, JsObject.keys.
  induction o as [|[k' v'] o IH]; cbn; [reflexivity|].
  destruct (String.eqb k' k); cbn; [reflexivity|].
  rewrite IH. destruct (JsObject.get o k); reflexivity.
Qed.

Lemma dated_set {V} (h : list (string * V)) k v :
  dated h -> well_formed k = true -> dated (JsObject.set h k v).
Proof.
  intros [Hnd Hwf] Hk. unfold dated. rewrite keys_set.
  destruct (JsObject.has h k) eqn:Ehas; [split; assumption|].
  apply has_false_iff in Ehas. split.
  - apply (Permutation_NoDup (Permutation_cons_append _ _)).
    constructor; [|exact Hnd].
    intros Hin. apply In_keys in Hin as [v' Hin].
    apply In_get_is_Some in Hin. rewrite Ehas in Hin. destruct Hin as [? [=]].
  - apply List.Forall_app. split; [exact Hwf|]. constructor; [exact Hk|constructor].
Qed.

Lemma dated_delete {V} (h : list (string * V)) k :
  dated h -> dated (JsObject.delete h k).
Proof.
  intros [Hnd Hwf].
  assert (Hkeys : JsObject.keys (JsObject.delete h k)
                  = List.filter (fun k' => negb (String.eqb k' k)) (JsObject.keys h)).
  { unfold JsObject.keys. induction h as [|[k' v] h IH]; cbn; [reflexivity|].
    inversion Hnd; subst. inversion Hwf; subst.
    destruct (String.eqb k' k); cbn; rewrite IH; auto. }
  unfold dated. rewrite Hkeys. split.
  - apply List.NoDup_filter. exact Hnd.
  - rewrite List.Forall_forall in *. intros x Hx.
    apply filter_In in Hx as [Hx _]. auto.
Qed.

Lemma reset_states_history (l : list string) : forall w w' r,
  for_each l reset_one w = (w', r) ->
  workoutHistory (this w') = workoutHistory (this w).
Proof.
  induction l as [|x l IH]; intros w w' r; cbn [for_each].
  - intros [= <- _]. reflexivity.
  - unfold bind at 1.
    destruct (JsObject.get (workoutState (this w)) x) as [v|] eqn:Hx.
    + rewrite (reset_one_some x w v Hx). intros Hr.
      apply IH in Hr. exact Hr.
    + unfold reset_one, bind. rewrite assign_workout_none by exact Hx.
      intros [= <- _]. reflexivity.
Qed.

Lemma resetWorkoutTabs_history w w' r :
  resetWorkoutTabs w = (w', r) ->
  workoutHistory (this w') = workoutHistory (this w).
Proof.
  unfold resetWorkoutTabs. unfold bind at 1.
  change (for_each workoutTypes _ w) with (for_each workoutTypes reset_one w).
  destruct (for_each workoutTypes reset_one w) as [w1 [e|[]]] eqn:E1;
    apply reset_states_history in E1.
  - intros [= <- _]. exact E1.
  - unfold bind at 1.
    change (for_each workoutTypes _ w1) with (for_each workoutTypes zero_one w1).
    rewrite zero_counts_run_eq. unfold bind at 1.
    destruct (saveState _) as [w3 [e|[]]] eqn:E3; apply saveState_this in E3;
      intros [= <- _]; rewrite E3; exact E1.
Qed.

Lemma toggleWorkout_history now ty w w' r :
  toggleWorkout now ty w = (w', r) ->
  workoutHistory (this w') = workoutHistory (this w) \/
  exists e,
    workoutHistory (this w')
    = logged (utils.formatDate now) [e] (workoutHistory (this w)).
Proof.
  destruct (JsObject.get (workoutState (this w)) ty) as [x|] eqn:Hx.
  - unfold toggleWorkout. unfold bind at 1. unfold bind at 1.
    pose proof (toggle_prefix_run ty w x Hx) as Hp. unfold bind in Hp.
    destruct (set_counts _ w) as [w0 [e|[]]] eqn:E0; [discriminate E0|].
    rewrite Hp. unfold bind at 1.
    destruct (saveWorkoutHistory now ty _) as [w2 [e|[]]] eqn:E2;
      apply saveWorkoutHistory_this in E2; cbn [this] in E2;
      rewrite recorded_logged in E2.
    + intros [= <- _]. right. rewrite E2. eexists. reflexivity.
    + unfold bind at 1, self.
      assert (Hh : forall w3, workoutHistory (this w3) = workoutHistory (this w2) ->
                exists e, workoutHistory (this w3)
                          = logged (utils.formatDate now) [e] (workoutHistory (this w))).
      { intros w3 ->. rewrite E2. eexists. reflexivity. }
      destruct (allCompleted (workoutState (this w2))).
      * unfold bind at 1.
        destruct (resetWorkoutTabs w2) as [w3 [e|[]]] eqn:E3;
          apply resetWorkoutTabs_history in E3.
        -- intros [= <- _]. right. apply Hh. exact E3.
        -- intros Hr. apply lift_this in Hr. right. apply Hh. congruence.
      * unfold bind at 1.
        destruct (saveState w2) as [w3 [e|[]]] eqn:E3; apply saveState_this in E3.
        -- intros [= <- _]. right. apply Hh. congruence.
        -- unfold bind, repaint, ret. intros Hr. apply lift_this in Hr.
           right. apply Hh. congruence.
  - unfold toggleWorkout. unfold bind at 1. unfold bind at 1.
    destruct (set_counts _ w) as [w0 [e|[]]] eqn:E0; [discriminate E0|].
    injection E0 as <-.
    rewrite assign_workout_none by exact Hx.
    intros [= <- _]. left. reflexivity.
Qed.

Lemma resetDailyWorkouts_history now w w' r :
  resetDailyWorkouts now w = (w', r) ->
  workoutHistory (this w') = workoutHistory (this w) \/
  workoutHistory (this w')
  = JsObject.delete (workoutHistory (this w)) (utils.formatDate now).
Proof.
  unfold resetDailyWorkouts. unfold bind at 1.
  destruct (resetWorkoutTabs w) as [w1 [e|[]]] eqn:E1;
    apply resetWorkoutTabs_history in E1.
  - intros [= <- _]. left. exact E1.
  - unfold bind at 1, self.
    destruct (JsObject.has (workoutHistory (this w1)) (utils.formatDate now));
      cbn [when].
    + unfold bind at 1, set_history, update, modify. unfold bind at 1.
      intros Hr. apply lift_this in Hr. right. rewrite Hr. cbn [this workoutHistory].
      rewrite E1. reflexivity.
    + intros [= <- _]. left. exact E1.
Qed.

(** X19: if the keys of the history are distinct well-formed dates, they
    still are after a click or a daily check made on a date of the years
    1000 to 9999, whether the call returns or throws: what the tracker
    keeps is a history as [cleanupOldData] expects it. *)
Theorem history_stays_dated now ty w :
  in_range now ->
  dated (workoutHistory (this w)) ->
  (forall w' r, toggleWorkout now ty w = (w', r) ->
     dated (workoutHistory (this w'))) /\
  (forall w' r, checkAndResetDailyWorkouts now w = (w', r) ->
     dated (workoutHistory (this w'))).
Proof.
  intros Hnow Hd. destruct (formatDate_key now Hnow) as [Hwf _]. split.
  - intros w' r Hr. apply toggleWorkout_history in Hr as [->|[e ->]];
      [exact Hd|]. apply dated_set; assumption.
  - intros w' r.
    unfold checkAndResetDailyWorkouts, bind at 1, lift at 1, localStorage.getItem.
    destruct (bool_decide _); cbn [negb when].
    + intros [= <- _]. exact Hd.
    + unfold bind at 1.
      destruct (resetDailyWorkouts now _) as [w1 [e|[]]] eqn:E1;
        apply resetDailyWorkouts_history in E1; cbn [this] in E1.
      * intros [= <- _]. destruct E1 as [->| ->];
          [exact Hd|apply dated_delete; exact Hd].
      * intros Hr. apply lift_this in Hr. rewrite Hr.
        destruct E1 as [->| ->]; [exact Hd|apply dated_delete; exact Hd].
Qed.
End DatedHistory.

(** ** The history views *)

Section HistoryViews.
Import WorkoutTracker TrackerSpec TrackerMore.











End HistoryViews.

(** ** Cleaning up twice *)

Section CleanupTwice.
Context `{Builtins}.
Import storageManager CleanupSpec.

(** X22: a second cleanup finds nothing to do.  With one date-keyed
    history of more than 90 distinct days in the store and no other
    history, and a host whose parser reads the pruned text back as the
    pruned object, the first [cleanupOldData] prunes and answers [true],
    and a second one right after it answers [false] without any effect. *)
Theorem cleanupOldData_twice hk raw fields b :
  In hk history_stores ->
  (forall k, In k historyKeys -> k <> hk -> items b !! k = None) ->
  within_quota b ->
  items b !! hk = Some raw ->
  raw <> "" ->
  JSON_parse raw = Some (JObj fields) ->
  90 < length fields ->
  List.NoDup (JsObject.keys fields) ->
  let pruned := JSON_stringify (JObj (retained fields)) in
  String.length pruned <= String.length raw ->
  pruned <> "" ->
  JSON_parse pruned = Some (JObj (retained fields)) ->
  exists b1,
    cleanupOldData b = (b1, inr true) /\
    items b1 !! hk = Some pruned /\
    cleanupOldData b1 = (b1, inr false).
Proof.
  intros Hhk Habs Hq Hraw Hne Hparse Hlen Hnd pruned Hfit Hpne Hpparse.
  rewrite (cleanupOldData_single hk raw fields b Hhk Habs Hq Hraw Hne Hparse Hlen Hfit).
  fold pruned. eexists. split; [reflexivity|]. cbn [items].
  split; [apply lookup_insert_eq|].
  assert (Hat : exists l1 l2,
             historyKeys = (l1 ++ hk :: l2)%list /\
             ~ In hk l1 /\ ~ In hk l2 /\ hk <> "habits_data").
  { unfold history_stores in Hhk. cbn in Hhk.
    destruct Hhk as [<-|[<-|[<-|[]]]].
    - exists [], ["history_protein"; "workout_history"; "habits_data"].
      repeat split; cbn; intuition discriminate.
    - exists ["history_water"], ["workout_history"; "habits_data"].
      repeat split; cbn; intuition discriminate.
    - exists ["history_water"; "history_protein"], ["habits_data"].
      repeat split; cbn; intuition discriminate. }
  destruct Hat as (l1 & l2 & Hkeys & Hn1 & Hn2 & Hhab).
  set (b1 := mkBrowser (<[hk:=pruned]> (items b)) (quota b)
               (trace b ++ [SetItem hk pruned])).
  assert (Habs' : forall k, In k historyKeys -> k <> hk -> items b1 !! k = None).
  { intros k Hk Hkne. cbn [b1 items]. rewrite lookup_insert_ne by congruence. auto. }
  assert (Hq1 : within_quota b1).
  { unfold within_quota. cbn [b1 items quota].
    pose proof (getUsage_replace (items b) hk raw pruned Hraw).
    unfold within_quota in Hq. lia. }
  unfold cleanupOldData.
  change (for_each historyKeys _) with (for_each historyKeys step).
  rewrite Hkeys, for_each_app. unfold bind at 1.
  rewrite (steps_absent l1).
  2:{ intros k Hk. apply Habs'; [rewrite Hkeys; apply in_or_app; auto|].
      intros ->. contradiction. }
  cbn [for_each]. unfold bind at 1.
  rewrite (step_target hk pruned (retained fields) (mkFrame b1 false) Hhab Hq1).
  - replace (90 <? length (retained fields))%nat with false
      by (symmetry; apply Nat.ltb_ge; rewrite retained_length by exact Hnd; lia).
    cbv beta iota zeta.
    rewrite steps_absent; [reflexivity|].
    intros k Hk. apply Habs'; [rewrite Hkeys; apply in_or_app; right; right; exact Hk|].
    intros ->. contradiction.
  - cbn [browser b1 items]. apply lookup_insert_eq.
  - exact Hpne.
  - exact Hpparse.
  - rewrite retained_length by exact Hnd. lia.
Qed.
End CleanupTwice.

(** ** The statements on concrete inputs *)


Lemma importData_missing_protein_witness :
  exists missing b',
    @importData (example_builtins example_water_only_doc)
      (Some example_file) true example_small_store = (b', inr tt) /\
    In "protein" missing /\
    items b' = items example_small_store /\
    trace b' = (trace example_small_store ++
      [ShowToast ("Error importing data: Import file is missing required sections: "
                    ++ join ", " missing ++ ".") "error"])%list.
Proof.
  apply (@importData_missing_protein (example_builtins example_water_only_doc)
           example_file "{}" example_water_only_doc true example_small_store).
  - repeat split; [vm_compute; discriminate | left; reflexivity].
  - reflexivity.
  - reflexivity.
  - reflexivity.
Defined.

(** C5 as stated fails: with stored intake but no goal and no habits, some
    tracker has produced intake data, and yet the export stops with the
    no-data error. *)
Lemma exportData_intake_only_no_data :
  ~ no_tracker_data (items example_intake_only) /\
  @exportData (example_builtins JNull) example_now example_intake_only
  = (mkBrowser (items example_intake_only) (quota example_intake_only)
       [ShowToast "No tracking data found to export." "error"], inr tt).
Proof.
  split.
  - intros (_ & _ & Hintake & _). vm_compute in Hintake. discriminate.
  - vm_compute. reflexivity.
Qed.

Section TrackerWitnesses.
Import WorkoutTracker TrackerSpec TrackerExamples.

Lemma checkAndResetDailyWorkouts_once_witness :
  let w' := fst (@checkAndResetDailyWorkouts host example_now w0) in
  is_reset (this w') /\
  JsObject.get (workoutHistory (this w')) "2025-05-17" = None /\
  JsObject.get (workoutHistory (this w')) "2025-05-16" = Some [yesterday_entry] /\
  items (browser w') !! lastResetKey = Some "2025-05-17" /\
  @checkAndResetDailyWorkouts host later_today w' = (w', inr tt).
Proof.
  intros w'.
  destruct (@checkAndResetDailyWorkouts_once host example_now later_today w0 w')
    as (_ & Hstale & Hagain).
  - vm_compute. reflexivity.
  - vm_compute. reflexivity.
  - destruct Hstale as (Hreset & Htoday & Hmarker & _).
    + vm_compute. discriminate.
    + split; [exact Hreset|]. split; [exact Htoday|].
      split; [vm_compute; reflexivity|]. split; [exact Hmarker|exact Hagain].
Defined.

Lemma reset_with_and_without_history_witness :
  let w1 := fst (@resetWorkoutTabs host w0) in
  let w2 := fst (@resetDailyWorkouts host example_now w0) in
  (is_reset (this w1) /\ workoutHistory (this w1) = workoutHistory morning) /\
  (is_reset (this w2) /\
   JsObject.get (workoutHistory (this w2)) "2025-05-17" = None /\
   JsObject.get (workoutHistory (this w2)) "2025-05-16" = Some [yesterday_entry]).
Proof.
  intros w1 w2.
  destruct (@reset_with_and_without_history host example_now w0) as [Hkeep Hdrop].
  split.
  - apply Hkeep. vm_compute. reflexivity.
  - destruct (Hdrop w2) as (Hreset & Htoday & Hother).
    + vm_compute. reflexivity.
    + split; [exact Hreset|]. split; [exact Htoday|].
      rewrite Hother; [reflexivity|]. vm_compute. discriminate.
Defined.

Lemma toggleWorkout_all_complete_witness :
  let w := mkWorld almost_done stale_store in
  let w' := fst (@toggleWorkout host example_now "Legs" w) in
  is_reset (this w') /\
  JsObject.get (workoutHistory (this w')) "2025-05-17"
  = Some [today_entry;
          mkEntry "Legs" (Some (Num 1)) "2025-05-17T08:30:00.000Z"] /\
  last (trace (browser w'))
  = Some (ShowToast "All workouts completed! Tabs have been reset." "success").
Proof.
  intros w w'.
  destruct (@toggleWorkout_all_complete host example_now "Legs" w w')
    as (_ & Hall & _).
  - vm_compute. reflexivity.
  - destruct Hall as (Hreset & Hhist & Htrace).
    + vm_compute. reflexivity.
    + split; [exact Hreset|]. split.
      * rewrite Hhist. vm_compute. reflexivity.
      * rewrite Htrace. vm_compute. reflexivity.
Defined.

Lemma toggleWorkout_chest_first_click_witness :
  let w' := fst (@toggleWorkout host example_now "Chest" w0) in
  JsObject.get (workoutCounts (this w')) "Chest" = Some (Num 1) /\
  (exists x', JsObject.get (workoutState (this w')) "Chest" = Some x' /\
              completed x' = true) /\
  entries_on "2025-05-17" (this w') =
    [today_entry; mkEntry "Chest" (Some (Num 1)) "2025-05-17T08:30:00.000Z"] /\
  JsObject.get (workoutHistory (this w')) "2025-05-16" = Some [yesterday_entry].
Proof.
  intros w'.
  destruct (@toggleWorkout_chest_first_click host example_now w0 w'
              (snd (@toggleWorkout host example_now "Chest" w0))
              (mkWorkout false 0) "Legs" (mkWorkout false 6))
    as (Hcount & Hflag & Hentries & Hother); try (vm_compute; reflexivity).
  - discriminate.
  - split; [exact Hcount|]. split; [exact Hflag|]. split; [exact Hentries|].
    rewrite Hother; [reflexivity|]. vm_compute. discriminate.
Defined.

End TrackerWitnesses.

Section CleanupWitness.
Import storageManager CleanupExamples DateKey.

Lemma cleanupOldData_keeps_last_90_witness :
  exists b' cleaned,
    @cleanupOldData host store = (b', inr cleaned) /\
    items b' !! "history_water"
    = Some (example_stringify (JObj (retained fields))) /\
    cleaned = true /\
    length (retained fields) = 90 /\
    (forall r k, In r (datesToRemove (JsObject.keys fields)) ->
                 In k (JsObject.keys (retained fields)) -> earlier r k) /\
    hd_error (datesToRemove (JsObject.keys fields)) = Some "2025-01-01".
Proof.
  destruct (@cleanupOldData_keeps_last_90 host "history_water" raw fields store)
    as (b' & cleaned & Hrun & Hres).
  - left. reflexivity.
  - unfold within_quota. apply Nat.leb_le. vm_compute. reflexivity.
  - vm_compute. reflexivity.
  - vm_compute. discriminate.
  - reflexivity.
  - apply (proj1 (NoDup_ListNoDup _)).
    apply (bool_decide_eq_true_1 (NoDup (JsObject.keys fields))).
    vm_compute. reflexivity.
  - apply List.Forall_forall. intros k Hk.
    apply (proj1 (forallb_forall well_formed (JsObject.keys fields)));
      [vm_compute; reflexivity|exact Hk].
  - intros _. apply Nat.leb_le. vm_compute. reflexivity.
  - exists b', cleaned. split; [exact Hrun|].
    change ((90 <? length fields)%nat) with true in Hres.
    destruct Hres as (Hitem & Hcleaned & Hlen & _ & _ & Hbefore & _).
    split; [exact Hitem|]. split; [exact Hcleaned|]. split; [exact Hlen|].
    split; [exact Hbefore|]. vm_compute. reflexivity.
Defined.
End CleanupWitness.

(** ** The further statements on concrete inputs *)


Lemma export_import_round_trip_witness :
  @importData round_trip_host (Some example_file) true example_full_store
  = (mkBrowser (items example_full_store) 5000
       [SetItem "goal_water" "2000"; SetItem "goal_protein" "90";
        SetItem "app_theme" "dark";
        ShowToast "Data imported successfully! Reloading app..." "success";
        Reload], inr tt).
Proof.
  apply (@export_import_round_trip round_trip_host example_now example_file "{}"
           example_full_store).
  - unfold within_quota. vm_compute. lia.
  - repeat split; [vm_compute; discriminate | left; reflexivity].
  - reflexivity.
  - unfold fits_import. vm_compute. discriminate.
Defined.


Section StorageWitness.
Import storageManager CleanupFrame CleanupExamples StorageExamples.

Lemma safeSetItem_retries_after_cleanup_witness :
  @safeSetItem host "intake_water" "123456" tight_store
  = (mkBrowser
       (<["intake_water" := "123456"]>
          (<["history_water" := example_stringify (JObj (retained fields))]>
             (items tight_store)))
       1950
       [SetItem "history_water" (example_stringify (JObj (retained fields)));
        SetItem "intake_water" "123456";
        ShowToast "Older history has been archived to free up storage space." "info"],
     inr true).
Proof.
  apply (@safeSetItem_retries_after_cleanup host "intake_water" "123456"
           "history_water" raw fields tight_store).
  - unfold within_quota. apply Nat.leb_le. vm_compute. reflexivity.
  - left. reflexivity.
  - intros k Hk Hne. cbn in Hk.
    destruct Hk as [<-|[<-|[<-|[<-|[]]]]]; try reflexivity. contradiction.
  - vm_compute. reflexivity.
  - vm_compute. discriminate.
  - reflexivity.
  - apply Nat.ltb_lt. vm_compute. reflexivity.
  - apply Nat.leb_le. vm_compute. reflexivity.
  - apply Nat.ltb_lt. vm_compute. reflexivity.
  - apply Nat.leb_le. vm_compute. reflexivity.
Defined.

Lemma cleanupOldData_prunes_habits_witness :
  exists b' cleaned,
    @cleanupOldData habits_host habits_store = (b', inr cleaned) /\
    items b' !! "habits_data"
    = Some (example_stringify (JArr (map pruned_habit habits))) /\
    (existsb long_habit habits = true -> cleaned = true).
Proof.
  apply (@cleanupOldData_prunes_habits habits_host habits_raw habits habits_store).
  - unfold within_quota. apply Nat.leb_le. vm_compute. reflexivity.
  - vm_compute. reflexivity.
  - vm_compute. discriminate.
  - reflexivity.
  - repeat constructor.
    + eexists. split; [reflexivity|]. right. eexists. reflexivity.
    + eexists. split; [reflexivity|]. left. reflexivity.
  - apply Nat.leb_le. vm_compute. reflexivity.
Defined.

Lemma cleanupOldData_null_habit_witness :
  exists b' cleaned,
    @cleanupOldData null_habit_host null_habit_store = (b', inr cleaned) /\
    items b' !! "habits_data" = Some "[null]" /\
    writes_to "habits_data" (trace b') = writes_to "habits_data" (trace null_habit_store).
Proof.
  apply (@cleanupOldData_null_habit null_habit_host "[null]" [JNull] null_habit_store).
  - reflexivity.
  - reflexivity.
  - left. reflexivity.
Defined.

Lemma cleanupOldData_twice_witness :
  exists b1,
    @cleanupOldData reparse_host store = (b1, inr true) /\
    items b1 !! "history_water"
    = Some (example_stringify (JObj (retained fields))) /\
    @cleanupOldData reparse_host b1 = (b1, inr false).
Proof.
  apply (@cleanupOldData_twice reparse_host "history_water" raw fields store).
  - left. reflexivity.
  - intros k Hk Hne. cbn in Hk.
    destruct Hk as [<-|[<-|[<-|[<-|[]]]]]; try reflexivity. contradiction.
  - unfold within_quota. apply Nat.leb_le. vm_compute. reflexivity.
  - vm_compute. reflexivity.
  - vm_compute. discriminate.
  - vm_compute. reflexivity.
  - apply Nat.ltb_lt. vm_compute. reflexivity.
  - apply (proj1 (NoDup_ListNoDup _)).
    apply (bool_decide_eq_true_1 (NoDup (JsObject.keys fields))).
    vm_compute. reflexivity.
  - apply Nat.leb_le. vm_compute. reflexivity.
  - vm_compute. discriminate.
  - vm_compute. reflexivity.
Defined.
End StorageWitness.

Section TrackerMoreWitness.
Import WorkoutTracker TrackerSpec TrackerExamples TrackerMore DateKey Calendar.

Lemma reset_fails_on_missing_type_witness :
  let w := mkWorld legacy stale_store in
  (exists w' msg,
     @resetWorkoutTabs host w = (w', inl (TypeError msg)) /\
     browser w' = browser w /\
     workoutCounts (this w') = workoutCounts (this w) /\
     workoutHistory (this w') = workoutHistory (this w)) /\
  (exists w' msg,
     @checkAndResetDailyWorkouts host example_now w = (w', inl (TypeError msg)) /\
     browser w' = browser w).
Proof.
  intros w.
  destruct (@reset_fails_on_missing_type host example_now w "Shoulders")
    as [Hreset Hcheck].
  - right. right. left. reflexivity.
  - reflexivity.
  - split; [exact Hreset|]. apply Hcheck. vm_compute. discriminate.
Defined.

Lemma toggleWorkout_in_sync_witness :
  @in_sync host (fst (@toggleWorkout host example_now "Chest" w0)).
Proof.
  apply (@toggleWorkout_in_sync host example_now "Chest" w0).
  vm_compute. reflexivity.
Defined.

Lemma checkAndResetDailyWorkouts_keeps_sync_witness :
  let w1 := fst (@toggleWorkout host example_now "Chest" w0) in
  @in_sync host (fst (@checkAndResetDailyWorkouts host later_today w1)).
Proof.
  intros w1.
  apply (@checkAndResetDailyWorkouts_keeps_sync host later_today w1).
  - unfold in_sync. vm_compute. repeat split; reflexivity.
  - vm_compute. reflexivity.
Defined.

Lemma completing_all_types_resets_witness :
  let l := ["Legs"; "Abs"; "Triceps"; "Biceps"; "Shoulders"; "Back"; "Chest"] in
  let w := mkWorld fresh stale_store in
  let w' := fst (for_each l (@toggleWorkout host example_now) w) in
  workoutState (this w') = defaultWorkoutState /\
  workoutCounts (this w') = defaultWorkoutCounts /\
  entries_on "2025-05-17" (this w') = clicks example_now l /\
  JsObject.get (workoutHistory (this w')) "2025-05-16" = Some [yesterday_entry] /\
  @in_sync host w'.
Proof.
  intros l w w'.
  destruct (@completing_all_types_resets host example_now l w w')
    as (Hs & Hc & He & Hd & Hsync).
  - change l with (rev workoutTypes). symmetry. apply Permutation_rev.
  - reflexivity.
  - reflexivity.
  - vm_compute. reflexivity.
  - split; [exact Hs|]. split; [exact Hc|]. split; [exact He|].
    split; [|exact Hsync]. rewrite Hd; [reflexivity|]. vm_compute. discriminate.
Defined.


Lemma formatDate_well_formed_witness :
  well_formed (utils.formatDate example_now) = true /\
  ymd (utils.formatDate example_now) = (2025, 5, 17).
Proof.
  apply (formatDate_well_formed example_now).
  unfold in_range. cbn. lia.
Defined.

Lemma formatDate_same_day_and_order_witness :
  (utils.formatDate example_now = utils.formatDate later_today
   <-> utils.isSameDay example_now later_today = true) /\
  (default_compare (utils.formatDate example_now) (utils.formatDate later_today)
   = (-1)%Z
   <-> before example_now later_today).
Proof.
  apply (formatDate_same_day_and_order example_now later_today);
    unfold in_range; cbn; lia.
Defined.

Lemma history_stays_dated_witness :
  (forall w' r, @toggleWorkout host example_now "Chest" w0 = (w', r) ->
     dated (workoutHistory (this w'))) /\
  (forall w' r, @checkAndResetDailyWorkouts host example_now w0 = (w', r) ->
     dated (workoutHistory (this w'))).
Proof.
  apply (@history_stays_dated host example_now "Chest" w0).
  - unfold in_range. cbn. lia.
  - split.
    + apply (proj1 (NoDup_ListNoDup _)).
      apply (bool_decide_eq_true_1 (NoDup (JsObject.keys (workoutHistory (this w0))))).
      vm_compute. reflexivity.
    + repeat constructor.
Defined.
End TrackerMoreWitness.
